(** * FreeRTOS support for Teensy boards: newlib glue in [teensy_common.cpp]

    A shallow embedding of the runtime shim: the stand-alone diagnostic
    formatter ([exc_puint], [exc_printf]), the unwinder callback
    ([trace_fcn]), the halt loop ([error_blink]), the wall clock
    ([clock::sync_rtc], [_gettimeofday]), the scheduler bridge ([yield],
    [event_responder_set_pend_sv]) and the heap grower ([_sbrk_r]).

    Conventions.  The target is a 32-bit ARM core: [unsigned int],
    [uintptr_t] and data pointers are 32-bit words, represented in [Z] with
    the wrap-around written out ([uint32]); [int] and [ptrdiff_t] are their
    two's-complement readings ([int32]).  A C string is a [string]; reading
    past its last character yields the terminating NUL. *)

From Stdlib Require Import ZArith String Ascii List Bool Lia Sorted.
Import ListNotations.
Local Open Scope string_scope.
Local Open Scope Z_scope.

(** ** Machine integers *)

Definition uint32 (z : Z) : Z := z mod 2 ^ 32.
Definition int32 (z : Z) : Z := (z + 2 ^ 31) mod 2 ^ 32 - 2 ^ 31.

(** Conversion of an integer to [char] (the argument of [print]). *)
Definition char_of_Z (z : Z) : ascii := ascii_of_N (Z.to_N (z mod 256)).
Definition Z_of_char (c : ascii) : Z := Z.of_N (N_of_ascii c).

(** ** C strings walked by a pointer *)

Definition NUL : ascii := "000"%char.
Definition TAB : ascii := "009"%char.
Definition LF : ascii := "010"%char.
Definition CR : ascii := "013"%char.

(** [*format] *)
Definition deref (format : string) : ascii :=
  match format with
  | String c _ => c
  | EmptyString => NUL
  end.

(** [format + 1] *)
Definition next (format : string) : string :=
  match format with
  | String _ rest => rest
  | EmptyString => EmptyString
  end.

Definition is_digit (c : ascii) : bool :=
  (Z_of_char "0"%char <=? Z_of_char c) && (Z_of_char c <=? Z_of_char "9"%char).

(** ** The diagnostic formatter *)

Module Formatter.

(** One variadic argument: every conversion fetches an [int]-sized word with
    [va_arg]; for [%s] that word is the address of a C string. *)
Inductive va_item : Type :=
| va_int (v : Z)
| va_str (s : string).

(** The formatter hands characters to [print] one by one; its result here is
    the sequence of characters printed.  [None] stands for behaviour the C
    standard leaves undefined ([va_arg] with no argument left, or of the
    wrong kind). *)
Definition emitted : Type := option string.

Definition bind {A B : Type} (m : option A) (k : A -> option B) : option B :=
  match m with
  | Some a => k a
  | None => None
  end.

Notation "x <- m ;; k" := (bind m (fun x => k))
  (at level 61, m at next level, right associativity).

(** The body of [exc_puint]'s loop: digits are stored from [buf[10]]
    downwards, [fuel] being the number of slots still free below [i];
    the result is the string at [buf + i]. *)
Fixpoint exc_puint_loop (fuel : nat) (num : Z) (buf : string) : string :=
  match fuel with
  | O => buf
  | S fuel' =>
      let buf := String (char_of_Z (num mod 10 + Z_of_char "0"%char)) buf in
      let num := num / 10 in
      if num =? 0 then buf else exc_puint_loop fuel' num buf
  end.

(** [exc_puint(print, num)]: the digits are printed through a nested call of
    the formatter, with the digit buffer as its format. *)
Definition exc_puint (exc_printf : string -> emitted) (num : Z) : emitted :=
  exc_printf (exc_puint_loop 11 num "").

(** The loop skipping a field width: [format] advances while it points at
    a decimal digit. *)
Fixpoint skip_digits (format : string) : string :=
  match format with
  | String c rest => if is_digit c then skip_digits rest else format
  | EmptyString => format
  end.

(** Lines 95-103: an optional ['-'], a run of digits, an optional ['l']. *)
Definition skip_modifiers (format : string) : string :=
  let format := if (deref format =? "-")%char then next format else format in
  let format := skip_digits format in
  if (deref format =? "l")%char then next format else format.

(** The [for (n = 0; n < 8; n++)] loop of the hexadecimal conversion. *)
Fixpoint hex_loop (n : nat) (val : Z) : string :=
  match n with
  | O => ""
  | S n' =>
      let d := Z.land (Z.shiftr val 28) 15 in
      String (char_of_Z (if d <? 10 then d + Z_of_char "0"%char
                         else d - 10 + Z_of_char "A"%char))
             (hex_loop n' (uint32 (Z.shiftl val 4)))
  end.

(** The main loop of [exc_printf], one iteration per conversion or literal
    character, until [format] points at the NUL.  For ["%d"] the source
    negates a negative argument; for the most negative [int] that negation
    overflows, which C leaves undefined: the wrapped value stands in for it
    here, and no statement below about printed text covers that argument.
    [nested] is
    the formatter itself, called on another string with no further
    arguments; [fuel] bounds the number of iterations. *)
Fixpoint exc_printf_loop (nested : string -> emitted) (fuel : nat)
    (format : string) (args : list va_item) : emitted :=
  match fuel with
  | O => None
  | S fuel' =>
      if (deref format =? NUL)%char then Some ""
      else if (deref format =? "%")%char then
        let format := next format in
        if (deref format =? "%")%char then
          (* goto out *)
          out <- exc_printf_loop nested fuel' (next format) args ;;
          Some (String (deref format) out)
        else
          let format := skip_modifiers format in
          if (deref format =? NUL)%char then Some ""
          else if (deref format =? "s")%char then
            match args with
            | va_str s :: args' =>
                o1 <- nested s ;;
                o2 <- exc_printf_loop nested fuel' (next format) args' ;;
                Some (o1 ++ o2)%string
            | _ => None
            end
          else if (deref format =? "d")%char then
            match args with
            | va_int v :: args' =>
                let n := int32 v in
                let sign := if n <? 0 then "-" else "" in
                let n := if n <? 0 then int32 (- n) else n in
                o1 <- exc_puint nested (uint32 n) ;;
                o2 <- exc_printf_loop nested fuel' (next format) args' ;;
                Some (sign ++ o1 ++ o2)%string
            | _ => None
            end
          else if (deref format =? "u")%char then
            match args with
            | va_int v :: args' =>
                o1 <- exc_puint nested (uint32 v) ;;
                o2 <- exc_printf_loop nested fuel' (next format) args' ;;
                Some (o1 ++ o2)%string
            | _ => None
            end
          else if (deref format =? "x")%char || (deref format =? "X")%char then
            match args with
            | va_int v :: args' =>
                o2 <- exc_printf_loop nested fuel' (next format) args' ;;
                Some (hex_loop 8 (uint32 v) ++ o2)%string
            | _ => None
            end
          else if (deref format =? "c")%char then
            match args with
            | va_int v :: args' =>
                o2 <- exc_printf_loop nested fuel' (next format) args' ;;
                Some (String (char_of_Z v) o2)
            | _ => None
            end
          else exc_printf_loop nested fuel' (next format) args
      else
        out <- exc_printf_loop nested fuel' (next format) args ;;
        Some (String (deref format) out)
  end.

(** The run of the loop on [format], with a bound that is enough. *)
Definition run (nested : string -> emitted) (format : string)
    (args : list va_item) : emitted :=
  exc_printf_loop nested (S (String.length format)) format args.

(** [exc_printf] at a bounded nesting depth of formatter calls; every
    iteration of the loop consumes a character of [format], so
    [S (length format)] iterations are enough. *)
Fixpoint exc_printf_depth (depth : nat) (format : string)
    (args : list va_item) : emitted :=
  match depth with
  | O => None
  | S depth' =>
      exc_printf_loop (fun s => exc_printf_depth depth' s [])
        (S (String.length format)) format args
  end.

(** A nested call has no arguments left, so it cannot nest again without
    leaving defined behaviour: depth 2 covers every defined run. *)
Definition exc_printf (format : string) (args : list va_item) : emitted :=
  exc_printf_depth 2 format args.

End Formatter.

Import Formatter.

(** ** Process-wide state and calls into external collaborators *)

(** Calls into the board support, the scheduler and the core library, in the
    order they are made. *)
Inductive event : Type :=
| ev_vTaskSuspendAll
| ev_pinMode_OUTPUT (pin : Z)
| ev_set_arm_clock (frequency : Z)
| ev_digitalWriteFast (pin : Z) (val : bool)
| ev_delay_ms (ms : Z)
| ev_xTaskNotify (task : Z)
| ev_xTaskNotifyFromISR (task : Z)
| ev_portYIELD_FROM_ISR
| ev_portDATA_SYNC_BARRIER
| ev_freertos_yield.

Record timeval : Type := mk_timeval { tv_sec : Z; tv_usec : Z }.

(** The globals of the translation unit, the [_errno] slot of the caller's
    reentrancy structure, the interrupt mask, and what has been sent to the
    serial sink and to the collaborators so far.  Task handles are
    addresses, 0 being the null handle. *)
Record machine : Type := mk_machine {
  _g_current_heap_end : Z;
  reent_errno : Z;
  PRIMASK : Z;
  g_trace_lr : Z;
  offset_ : timeval;
  g_yield_task : Z;
  g_event_responder_task : Z;
  console : string;
  events : list event
}.

Definition set_heap_end (v : Z) (m : machine) : machine :=
  mk_machine v (reent_errno m) (PRIMASK m) (g_trace_lr m) (offset_ m)
    (g_yield_task m) (g_event_responder_task m) (console m) (events m).
Definition set_errno (v : Z) (m : machine) : machine :=
  mk_machine (_g_current_heap_end m) v (PRIMASK m) (g_trace_lr m) (offset_ m)
    (g_yield_task m) (g_event_responder_task m) (console m) (events m).
Definition set_PRIMASK (v : Z) (m : machine) : machine :=
  mk_machine (_g_current_heap_end m) (reent_errno m) v (g_trace_lr m)
    (offset_ m) (g_yield_task m) (g_event_responder_task m) (console m)
    (events m).
Definition set_trace_lr (v : Z) (m : machine) : machine :=
  mk_machine (_g_current_heap_end m) (reent_errno m) (PRIMASK m) v
    (offset_ m) (g_yield_task m) (g_event_responder_task m) (console m)
    (events m).
Definition set_offset (v : timeval) (m : machine) : machine :=
  mk_machine (_g_current_heap_end m) (reent_errno m) (PRIMASK m)
    (g_trace_lr m) v (g_yield_task m) (g_event_responder_task m) (console m)
    (events m).
Definition set_console (v : string) (m : machine) : machine :=
  mk_machine (_g_current_heap_end m) (reent_errno m) (PRIMASK m)
    (g_trace_lr m) (offset_ m) (g_yield_task m) (g_event_responder_task m) v
    (events m).
Definition emit (e : event) (m : machine) : machine :=
  mk_machine (_g_current_heap_end m) (reent_errno m) (PRIMASK m)
    (g_trace_lr m) (offset_ m) (g_yield_task m) (g_event_responder_task m)
    (console m) (events m ++ [e]).

(** How a call ends: it returns a value, or it is still running when the
    step budget is used up (the halt loop has no exit), or it leaves defined
    behaviour. *)
Inductive outcome (A : Type) : Type :=
| Returned (a : A) (m : machine)
| Running (m : machine)
| Undefined.
Arguments Returned {A} a m.
Arguments Running {A} m.
Arguments Undefined {A}.

Definition obind {A B : Type} (o : outcome A) (k : A -> machine -> outcome B)
  : outcome B :=
  match o with
  | Returned a m => k a m
  | Running m => Running m
  | Undefined => Undefined
  end.

Notation "'call' x <- o 'in' m ';' k" := (obind o (fun x m => k))
  (at level 10, x name, m name, o at level 200, k at level 200).

(** Modelled from the spec: the macro [EXC_PRINTF] of [teensy.h], which is
    not among the sources; the fault reporter's byte sink receives the
    characters the formatter prints ([exc_printf] with [serialport_put]). *)
Definition EXC_PRINTF (format : string) (args : list va_item) (m : machine)
  : outcome unit :=
  match exc_printf format args with
  | Some out => Returned tt (set_console (console m ++ out) m)
  | None => Undefined
  end.

(** Number of lines on the console: each one ends in a line feed. *)
Fixpoint count_lines (s : string) : nat :=
  match s with
  | EmptyString => O
  | String c rest => if (c =? LF)%char then S (count_lines rest)
                     else count_lines rest
  end.

(** ** The frame walker *)

Inductive _Unwind_Reason_Code : Type :=
| _URC_NO_REASON
| _URC_END_OF_STACK.

(** What the unwinder's accessors read from a frame context:
    [_Unwind_GetIP], [_Unwind_GetRegionStart] and the core registers. *)
Record _Unwind_Context : Type := mk_context {
  _Unwind_GetIP : Z;
  _Unwind_GetRegionStart : Z;
  _Unwind_GetGR : Z -> Z
}.

Definition _Unwind_SetGR (ctx : _Unwind_Context) (reg : Z) (v : Z)
  : _Unwind_Context :=
  mk_context (_Unwind_GetIP ctx) (_Unwind_GetRegionStart ctx)
    (fun r => if r =? reg then v else _Unwind_GetGR ctx r).

Definition ENOMEM : Z := 12.

Section Platform.

(** Link-time addresses and build configuration. *)
Variable _ebss : Z.
Variable _estack : Z.
Variable prvTaskExitError : Z.
Variable configUSE_MALLOC_FAILED_HOOK : bool.
(** [get_debug_led_pin()], a weak symbol a board may override. *)
Variable debug_led_pin : Z.

(** The instruction pointer marks the end of the walk. *)
Definition is_task_entry (ip : Z) : bool :=
  (ip =? Z.land (uint32 prvTaskExitError) (uint32 (Z.lnot 1))) || (ip =? 0).

(** [trace_fcn(ctx, depth)]; the cell [depth] points to is passed in and
    returned along with the context. *)
Definition trace_fcn (ctx : _Unwind_Context) (p_depth : Z) (m : machine)
  : outcome (_Unwind_Reason_Code * _Unwind_Context * Z) :=
  let ip := _Unwind_GetIP ctx in
  let start := _Unwind_GetRegionStart ctx in
  call _ <- EXC_PRINTF (String TAB "#%d") [va_int p_depth] m in m;
  if is_task_entry ip then
    call _ <- EXC_PRINTF (":" ++ String TAB
                          ("[Task entry point]" ++ String CR (String LF "")))
                [] m in m;
    Returned (_URC_END_OF_STACK, ctx, p_depth) m
  else
    call _ <- EXC_PRINTF (":" ++ String TAB "0x%04x")
                [va_int (if p_depth =? 0 then ip
                         else Z.land (uint32 (ip - 1)) (uint32 (Z.lnot 1)))]
                m in m;
    call _ <- EXC_PRINTF (" [0x%04x]" ++ String CR (String LF ""))
                [va_int start] m in m;
    let ctx_m :=
      if g_trace_lr m =? 0 then (ctx, m)
      else (_Unwind_SetGR ctx 14 (g_trace_lr m), set_trace_lr 0 m) in
    let ctx := fst ctx_m in
    let m := snd ctx_m in
    let p_depth := int32 (p_depth + 1) in
    if p_depth =? 32 then Returned (_URC_END_OF_STACK, ctx, p_depth) m
    else Returned (_URC_NO_REASON, ctx, p_depth) m.

(** The unwinder presents the frames of the stack to the callback one after
    the other, innermost first, and stops as soon as the callback returns
    anything but [_URC_NO_REASON].  The result lists, call by call, what
    the callback returned and the context as it left it. *)
Fixpoint walk_frames (frames : list _Unwind_Context) (p_depth : Z)
    (m : machine)
  : outcome (list (_Unwind_Reason_Code * _Unwind_Context) * Z) :=
  match frames with
  | [] => Returned ([], p_depth) m
  | ctx :: rest =>
      call r <- trace_fcn ctx p_depth m in m;
      match r with
      | (_URC_NO_REASON, ctx', p_depth') =>
          call w <- walk_frames rest p_depth' m in m;
          Returned ((_URC_NO_REASON, ctx') :: fst w, snd w) m
      | (code, ctx', p_depth') => Returned ([(code, ctx')], p_depth') m
      end
  end.

(** The walk as [assert_blink] starts it: [int depth {}]. *)
Definition backtrace (frames : list _Unwind_Context) (m : machine)
  : outcome (list (_Unwind_Reason_Code * _Unwind_Context) * Z) :=
  walk_frames frames 0 m.

(** ** The halt loop *)

(** The [for] loop of [error_blink]: [n] pulses of 300 ms on, 300 ms off. *)
Fixpoint blink_pulses (n : nat) (pin : Z) (m : machine) : machine :=
  match n with
  | O => m
  | S n' =>
      blink_pulses n' pin
        (emit (ev_delay_ms 300)
           (emit (ev_digitalWriteFast pin false)
              (emit (ev_delay_ms 300)
                 (emit (ev_digitalWriteFast pin true) m))))
  end.

(** [budget] rounds of the [while (true)] loop, which has no exit. *)
Fixpoint blink_forever (budget : nat) (n : Z) (pin : Z) (m : machine)
  : machine :=
  match budget with
  | O => m
  | S budget' =>
      blink_forever budget' n pin
        (emit (ev_delay_ms 2000) (blink_pulses (Z.to_nat n) pin m))
  end.

(** [freertos::error_blink(n)], [n] a [uint8_t]. *)
Definition error_blink (budget : nat) (n : Z) (m : machine) : outcome unit :=
  let m := emit ev_vTaskSuspendAll m in
  let pin := debug_led_pin in
  let m := emit (ev_pinMode_OUTPUT pin) m in
  let m := emit (ev_set_arm_clock 16000000) m in
  Running (blink_forever budget (n mod 256) pin m).

Definition vApplicationMallocFailedHook (budget : nat) (m : machine)
  : outcome unit :=
  error_blink budget 2 m.

(** ** The heap grower *)

(** [(void* )-1] *)
Definition SBRK_FAILED : Z := uint32 (-1).

(** The test of line 350 on the projected boundary. *)
Definition sbrk_no_mem (heap_end incr : Z) : bool :=
  (uint32 (heap_end + incr) >=? uint32 (_estack - 8192))
  || (uint32 (heap_end + incr) <? _ebss).

(** [_sbrk_r(p_reent, incr)], [incr] a [ptrdiff_t]. *)
Definition _sbrk_r (budget : nat) (incr : Z) (m : machine) : outcome Z :=
  let primask := PRIMASK m in
  let m := set_PRIMASK 1 m in
  let previous_heap_end := _g_current_heap_end m in
  if sbrk_no_mem (_g_current_heap_end m) incr then
    let m := set_PRIMASK primask m in
    call _ <- EXC_PRINTF ("_sbrk_r(%d): no mem available."
                          ++ String CR (String LF ""))
                [va_int incr] m in m;
    if configUSE_MALLOC_FAILED_HOOK then
      call _ <- vApplicationMallocFailedHook budget m in m;
      Returned SBRK_FAILED m
    else
      Returned SBRK_FAILED (set_errno ENOMEM m)
  else
    let m := set_heap_end (uint32 (_g_current_heap_end m + incr)) m in
    let m := set_PRIMASK primask m in
    Returned previous_heap_end m.

(** A sequence of heap-growth calls; it ends at the first call that does
    not return.  The result lists the values returned. *)
Fixpoint sbrk_calls (budget : nat) (incrs : list Z) (m : machine)
  : outcome (list Z) :=
  match incrs with
  | [] => Returned [] m
  | incr :: rest =>
      call p <- _sbrk_r budget incr m in m;
      call ps <- sbrk_calls budget rest m in m;
      Returned (p :: ps) m
  end.

End Platform.

(** The heap boundary at start-up: [&_ebss + 32]. *)
Definition initial_heap_end (_ebss : Z) : Z := uint32 (_ebss + 32).

(** ** The wall clock *)

(** The macros of [<sys/time.h>]. *)
Definition timercmp_lt (a b : timeval) : bool :=
  if tv_sec a =? tv_sec b then tv_usec a <? tv_usec b
  else tv_sec a <? tv_sec b.

Definition timersub (a b : timeval) : timeval :=
  let sec := tv_sec a - tv_sec b in
  let usec := tv_usec a - tv_usec b in
  if usec <? 0 then mk_timeval (sec - 1) (usec + 1000000)
  else mk_timeval sec usec.

Definition timeradd (a b : timeval) : timeval :=
  let sec := tv_sec a + tv_sec b in
  let usec := tv_usec a + tv_usec b in
  if usec >=? 1000000 then mk_timeval (sec + 1) (usec - 1000000)
  else mk_timeval sec usec.

(** The [timeval] both functions build from [freertos::get_us()]. *)
Definition timeval_of_us (now_us : Z) : timeval :=
  mk_timeval (now_us / 1000000) (now_us mod 1000000).

(** [clock::sync_rtc()], given what [freertos::get_us()] and [rtc_get()]
    return inside the critical section (the section itself, which only
    keeps other tasks out, is not represented). *)
Definition sync_rtc (now_us rtc_get : Z) (m : machine) : machine :=
  let now := timeval_of_us now_us in
  let rtc := mk_timeval rtc_get 0 in
  if timercmp_lt now rtc then set_offset (timersub rtc now) m
  else set_offset (timersub now rtc) m.

(** [_gettimeofday(tv, nullptr)], given what [freertos::get_us()] returns:
    the value stored to [tv] and the result 0. *)
Definition _gettimeofday (now_us : Z) (m : machine) : timeval * Z :=
  let p_offset := offset_ m in
  let now := timeval_of_us now_us in
  (timeradd p_offset now, 0).

(** A [timeval] as a number of microseconds. *)
Definition us_of_timeval (t : timeval) : Z := tv_sec t * 1000000 + tv_usec t.

(** ** The scheduler bridge *)

Inductive scheduler_state : Type :=
| taskSCHEDULER_NOT_STARTED
| taskSCHEDULER_RUNNING
| taskSCHEDULER_SUSPENDED.

Definition scheduler_started (s : scheduler_state) : bool :=
  match s with
  | taskSCHEDULER_NOT_STARTED => false
  | _ => true
  end.

(** [event_responder_set_pend_sv()] *)
Definition event_responder_set_pend_sv (m : machine) : machine :=
  if g_event_responder_task m =? 0 then m
  else emit (ev_xTaskNotify (g_event_responder_task m)) m.

(** [yield()], given what [xTaskGetSchedulerState()] and
    [xPortIsInsideInterrupt()] return. *)
Definition yield (state : scheduler_state) (inside_interrupt : bool)
    (m : machine) : machine :=
  if scheduler_started state && negb (g_yield_task m =? 0) then
    if inside_interrupt then
      emit ev_portDATA_SYNC_BARRIER
        (emit ev_portYIELD_FROM_ISR
           (emit (ev_xTaskNotifyFromISR (g_yield_task m)) m))
    else emit (ev_xTaskNotify (g_yield_task m)) m
  else emit ev_freertos_yield m.

(** A machine right after start-up. *)
Definition boot (_ebss : Z) : machine :=
  mk_machine (initial_heap_end _ebss) 0 0 0 (mk_timeval 0 0) 0 0 "" [].

(** ** Vocabulary of the statements *)

Fixpoint string_forallb (p : ascii -> bool) (s : string) : bool :=
  match s with
  | EmptyString => true
  | String c rest => p c && string_forallb p rest
  end.

(** Strings the formatter copies as they are: no ['%'], no NUL. *)
Definition plain_char (c : ascii) : bool :=
  negb (c =? NUL)%char && negb (c =? "%")%char.
Definition plain (s : string) : bool := string_forallb plain_char s.

Definition all_digits (s : string) : bool := string_forallb is_digit s.

(** The conversion letters [exc_printf] knows. *)
Definition is_conversion (c : ascii) : bool :=
  (c =? "s")%char || (c =? "d")%char || (c =? "u")%char || (c =? "x")%char
  || (c =? "X")%char || (c =? "c")%char.

(** The modifiers [exc_printf] skips: an optional ['-'], a field width, an
    optional ['l']. *)
Definition modifiers (minus : bool) (width : string) (long : bool) : string :=
  ((if minus then "-" else "") ++ width ++ (if long then "l" else ""))%string.

(** Hexadecimal digit [d] written with the capital letters. *)
Definition upper_hex_digit (d : Z) : ascii :=
  match String.get (Z.to_nat d) "0123456789ABCDEF" with
  | Some c => c
  | None => NUL
  end.

(** The eight hexadecimal digits of a 32-bit word, most significant first. *)
Definition hex8_upper (u : Z) : string :=
  String (upper_hex_digit (u / 16 ^ 7 mod 16))
 (String (upper_hex_digit (u / 16 ^ 6 mod 16))
 (String (upper_hex_digit (u / 16 ^ 5 mod 16))
 (String (upper_hex_digit (u / 16 ^ 4 mod 16))
 (String (upper_hex_digit (u / 16 ^ 3 mod 16))
 (String (upper_hex_digit (u / 16 ^ 2 mod 16))
 (String (upper_hex_digit (u / 16 ^ 1 mod 16))
 (String (upper_hex_digit (u / 16 ^ 0 mod 16)) ""))))))).

(** The characters ['0'..'9'] and ['A'..'F']. *)
Definition is_upper_hex (c : ascii) : bool :=
  is_digit c
  || ((Z_of_char "A"%char <=? Z_of_char c)
      && (Z_of_char c <=? Z_of_char "F"%char)).

(** What ["%d"] prints for the argument [v]. *)
Definition signed_decimal (v : Z) : string :=
  let n := int32 v in
  let sign := if n <? 0 then "-" else "" in
  let n := if n <? 0 then int32 (- n) else n in
  (sign ++ exc_puint_loop 11 (uint32 n) "")%string.

(** The line [trace_fcn] sends to the console for the frame [ctx] when the
    depth counter is [d]. *)
Definition frame_line (prvTaskExitError : Z) (ctx : _Unwind_Context) (d : Z)
  : string :=
  let ip := _Unwind_GetIP ctx in
  let shown := if d =? 0 then ip
               else Z.land (uint32 (ip - 1)) (uint32 (Z.lnot 1)) in
  (String TAB ("#" ++ signed_decimal d)
   ++ (if is_task_entry prvTaskExitError ip
       then ":" ++ String TAB
              ("[Task entry point]" ++ String CR (String LF ""))
       else (":" ++ String TAB "0x")
            ++ hex8_upper (uint32 shown)
            ++ " [0x" ++ hex8_upper (uint32 (_Unwind_GetRegionStart ctx))
            ++ "]" ++ String CR (String LF "")))%string.

(** The frame at which the walk ends of its own: the instruction pointer is
    the task-entry trampoline (thumb bit cleared) or zero. *)
Definition entry_frame (prvTaskExitError : Z) (ctx : _Unwind_Context) : bool :=
  is_task_entry prvTaskExitError (_Unwind_GetIP ctx).

Definition no_entry_frame (prvTaskExitError : Z) (frames : list _Unwind_Context)
  : bool :=
  forallb (fun ctx => negb (entry_frame prvTaskExitError ctx)) frames.

(** The state after the callback has printed its line and, at a frame that
    does not end the walk, used the link-register override; and the context
    as the callback leaves it there. *)
Definition after_line (addr : Z) (ctx : _Unwind_Context) (d : Z) (m : machine)
  : machine :=
  set_console (console m ++ frame_line addr ctx d) m.

Definition after_frame (addr : Z) (ctx : _Unwind_Context) (d : Z) (m : machine)
  : machine :=
  if g_trace_lr m =? 0 then after_line addr ctx d m
  else set_trace_lr 0 (after_line addr ctx d m).

Definition frame_left (ctx : _Unwind_Context) (m : machine) : _Unwind_Context :=
  if g_trace_lr m =? 0 then ctx else _Unwind_SetGR ctx 14 (g_trace_lr m).

(** The heap boundary lies in the region the test of [_sbrk_r] accepts. *)
Definition heap_inv (_ebss _estack : Z) (m : machine) : Prop :=
  _ebss <= _g_current_heap_end m < _estack - 8192.

(** The machine after each call of a sequence of heap-growth calls, up to
    and including the first call that does not return. *)
Fixpoint sbrk_states (_ebss _estack : Z) (hook : bool) (pin : Z)
    (budget : nat) (incrs : list Z) (m : machine) : list machine :=
  match incrs with
  | [] => []
  | incr :: rest =>
      match _sbrk_r _ebss _estack hook pin budget incr m with
      | Returned _ m' => m' :: sbrk_states _ebss _estack hook pin budget rest m'
      | Running m' => [m']
      | Undefined => []
      end
  end.

(** The boundaries before each call when every call advances the boundary
    by its increment. *)
Fixpoint prefix_sums (base : Z) (incrs : list Z) : list Z :=
  match incrs with
  | [] => []
  | incr :: rest => base :: prefix_sums (base + incr) rest
  end.

Fixpoint sum_list (l : list Z) : Z :=
  match l with
  | [] => 0
  | x :: rest => x + sum_list rest
  end.

(** What [_sbrk_r] prints when it refuses a request. *)
Definition no_mem_message (incr : Z) : string :=
  ("_sbrk_r(" ++ signed_decimal incr ++ "): no mem available."
   ++ String CR (String LF ""))%string.

(** The calls one round of the halt loop makes: [n] pulses and the pause. *)
Fixpoint pulse_events (n : nat) (pin : Z) : list event :=
  match n with
  | O => []
  | S n' =>
      [ev_digitalWriteFast pin true; ev_delay_ms 300;
       ev_digitalWriteFast pin false; ev_delay_ms 300] ++ pulse_events n' pin
  end.

Definition round_events (n : Z) (pin : Z) : list event :=
  pulse_events (Z.to_nat n) pin ++ [ev_delay_ms 2000].

Fixpoint rounds_events (budget : nat) (n : Z) (pin : Z) : list event :=
  match budget with
  | O => []
  | S budget' => round_events n pin ++ rounds_events budget' n pin
  end.

(** The calls with which [error_blink] starts. *)
Definition halt_prologue (pin : Z) : list event :=
  [ev_vTaskSuspendAll; ev_pinMode_OUTPUT pin; ev_set_arm_clock 16000000].

(** ** Further functions of the translation unit *)

Definition CRLF : string := String CR (String LF "").

(** [serialport_flush()], the weak default: [Serial.flush()] leaves what has
    been handed to the sink as it is; then [freertos::delay_ms(100)]. *)
Definition serialport_flush (m : machine) : machine :=
  emit (ev_delay_ms 100) m.

(** Modelled from the spec: the macro [EXC_FLUSH] of [teensy.h], which is
    not among the sources; it flushes the fault reporter's byte sink
    ([serialport_flush]). *)
Definition EXC_FLUSH (m : machine) : machine := serialport_flush m.

(** [__NVIC_SetPriorityGrouping(PriorityGroup)] on the register [SCB_AIRCR]:
    the value written back, given the value read. *)
Definition SCB_AIRCR_VECTKEY_Pos : Z := 16.
Definition SCB_AIRCR_VECTKEY_Msk : Z :=
  uint32 (Z.shiftl 65535 SCB_AIRCR_VECTKEY_Pos).
Definition SCB_AIRCR_PRIGROUP_Pos : Z := 8.
Definition SCB_AIRCR_PRIGROUP_Msk : Z :=
  uint32 (Z.shiftl 7 SCB_AIRCR_PRIGROUP_Pos).

Definition __NVIC_SetPriorityGrouping (PriorityGroup : Z) (SCB_AIRCR : Z) : Z :=
  let PriorityGroupTmp := Z.land (uint32 PriorityGroup) 7 in
  let reg_value := SCB_AIRCR in
  let reg_value :=
    Z.land reg_value
      (uint32 (Z.lnot (Z.lor SCB_AIRCR_VECTKEY_Msk SCB_AIRCR_PRIGROUP_Msk))) in
  let reg_value :=
    Z.lor (Z.lor reg_value (uint32 (Z.shiftl 1530 SCB_AIRCR_VECTKEY_Pos)))
      (uint32 (Z.shiftl PriorityGroupTmp SCB_AIRCR_PRIGROUP_Pos)) in
  reg_value.

(** [mcu_shutdown()] *)
Definition mcu_shutdown (pin : Z) (budget : nat) (m : machine) : outcome unit :=
  error_blink pin budget 0 m.

(** [assert_blink(file, line, func, expr)].  [portDISABLE_INTERRUPTS] and
    [NVIC_SET_PRIORITY(IRQ_USB1, ...)] are macros of the port and of the
    core library, taken as they come; [frames] is the stack the unwinder
    presents to [trace_fcn]. *)
Definition assert_blink (portDISABLE_INTERRUPTS : machine -> machine)
    (NVIC_SET_PRIORITY_USB1 : machine -> machine)
    (prvTaskExitError pin : Z) (budget : nat) (frames : list _Unwind_Context)
    (file : string) (line : Z) (func expr : string) (m : machine)
  : outcome unit :=
  let m := portDISABLE_INTERRUPTS m in
  let m := NVIC_SET_PRIORITY_USB1 m in
  call _ <- EXC_PRINTF (CRLF ++ "ASSERT in [%s:%u]" ++ String TAB "")
              [va_str file; va_int line] m in m;
  call _ <- EXC_PRINTF "%s(): " [va_str func] m in m;
  call _ <- EXC_PRINTF ("%s" ++ CRLF) [va_str expr] m in m;
  call _ <- EXC_PRINTF (CRLF ++ "Stack trace:" ++ CRLF) [] m in m;
  let m := EXC_FLUSH m in
  call _ <- backtrace prvTaskExitError frames m in m;
  call _ <- EXC_PRINTF CRLF [] m in m;
  error_blink pin budget 1 m.

(** [vApplicationStackOverflowHook(task, task_name)]: [memcpy] fills the
    first [configMAX_TASK_NAME_LEN] bytes of the zeroed buffer [taskname],
    whose last byte stays NUL. *)
Definition vApplicationStackOverflowHook (configMAX_TASK_NAME_LEN : nat)
    (pin : Z) (budget : nat) (task_name : string) (m : machine)
  : outcome unit :=
  let taskname := substring 0 configMAX_TASK_NAME_LEN task_name in
  call _ <- EXC_PRINTF ("STACK OVERFLOW: %s" ++ CRLF) [va_str taskname] m in m;
  let m := EXC_FLUSH m in
  error_blink pin budget 3 m.

(** [freertos::print_ram_usage()], given the tuples [ram1_usage()] and
    [ram2_usage()] return, components in the order of [std::get]. *)
Definition print_ram_usage (info1 : Z * Z * Z * Z * Z * Z) (info2 : Z * Z)
    (m : machine) : outcome unit :=
  let '(i0, i1, i2, i3, i4, i5) := info1 in
  let '(j0, j1) := info2 in
  call _ <- EXC_PRINTF
              ("RAM1 size: %u KB, free RAM1: %u KB, data used: %u KB, "
               ++ "bss used: %u KB, used heap: %u KB, system free: %u KB"
               ++ CRLF)
              [va_int (i5 / 1024); va_int (i0 / 1024); va_int (i1 / 1024);
               va_int (i2 / 1024); va_int (i3 / 1024); va_int (i4 / 1024)]
              m in m;
  call _ <- EXC_PRINTF
              ("RAM2 size: %u KB, free RAM2: %u KB, used RAM2: %u KB" ++ CRLF)
              [va_int (j1 / 1024); va_int (j0 / 1024);
               va_int (uint32 (j1 - j0) / 1024)]
              m in m;
  call _ <- EXC_PRINTF CRLF [] m in m;
  Returned tt (EXC_FLUSH m).

(** [sbrk(incr)] and [_sbrk(incr)]: [_sbrk_r] on the global reentrancy
    structure. *)
Definition sbrk (_ebss _estack : Z) (hook : bool) (pin : Z) (budget : nat)
    (incr : Z) (m : machine) : outcome Z :=
  _sbrk_r _ebss _estack hook pin budget incr m.

Definition _sbrk (_ebss _estack : Z) (hook : bool) (pin : Z) (budget : nat)
    (incr : Z) (m : machine) : outcome Z :=
  sbrk _ebss _estack hook pin budget incr m.

(** ** Reading numbers back *)

Definition digit_value (c : ascii) : Z := Z_of_char c - Z_of_char "0"%char.

(** The number a string of decimal digits stands for. *)
Fixpoint decimal_value_from (acc : Z) (s : string) : Z :=
  match s with
  | EmptyString => acc
  | String c rest => decimal_value_from (acc * 10 + digit_value c) rest
  end.

Definition decimal_value (s : string) : Z := decimal_value_from 0 s.

(** The same with an optional leading ['-']. *)
Definition signed_value (s : string) : Z :=
  if (deref s =? "-")%char then - decimal_value (next s) else decimal_value s.

Definition hex_digit_value (c : ascii) : Z :=
  if is_digit c then Z_of_char c - Z_of_char "0"%char
  else Z_of_char c - Z_of_char "A"%char + 10.

(** The number a string of capital hexadecimal digits stands for. *)
Fixpoint hex_value_from (acc : Z) (s : string) : Z :=
  match s with
  | EmptyString => acc
  | String c rest => hex_value_from (acc * 16 + hex_digit_value c) rest
  end.

Definition hex_value (s : string) : Z := hex_value_from 0 s.

(** The lines [trace_fcn] prints for [frames], numbered from [d]. *)
Fixpoint frame_lines (addr : Z) (frames : list _Unwind_Context) (d : Z)
  : string :=
  match frames with
  | [] => ""
  | ctx :: rest =>
      (frame_line addr ctx d ++ frame_lines addr rest (d + 1))%string
  end.

Definition is_led_high (e : event) : bool :=
  match e with
  | ev_digitalWriteFast _ true => true
  | _ => false
  end.

Definition is_led_write (e : event) : bool :=
  match e with
  | ev_digitalWriteFast _ _ => true
  | _ => false
  end.

Definition is_pause (e : event) : bool :=
  match e with
  | ev_delay_ms 2000 => true
  | _ => false
  end.

Definition is_notification (e : event) : bool :=
  match e with
  | ev_xTaskNotify _ | ev_xTaskNotifyFromISR _ => true
  | _ => false
  end.

(** What [assert_blink] prints before the stack trace. *)
Definition assert_header (file : string) (line : Z) (func expr : string)
  : string :=
  (CRLF ++ "ASSERT in [" ++ file ++ ":" ++ exc_puint_loop 11 (uint32 line) ""
   ++ "]" ++ String TAB "" ++ func ++ "(): " ++ expr ++ CRLF
   ++ CRLF ++ "Stack trace:" ++ CRLF)%string.

(** * Properties *)

(** ** The formatter's loop, free of its iteration bound *)

Section FormatterEquations.

Variable nested : string -> emitted.

Lemma length_next (s : string) : (String.length (next s) <= String.length s)%nat.
Proof. destruct s; simpl; lia. Qed.

Lemma length_skip_digits (s : string) :
  (String.length (skip_digits s) <= String.length s)%nat.
Proof.
  induction s as [|c s IH]; simpl; [lia|].
  destruct (is_digit c); simpl; lia.
Qed.

Lemma length_skip_modifiers (s : string) :
  (String.length (skip_modifiers s) <= String.length s)%nat.
Proof.
  unfold skip_modifiers.
  set (s1 := if (deref s =? "-")%char then next s else s).
  assert (H1 : (String.length s1 <= String.length s)%nat).
  { subst s1. destruct (deref s =? "-")%char; [apply length_next | lia]. }
  pose proof (length_skip_digits s1) as H2.
  destruct (deref (skip_digits s1) =? "l")%char.
  - pose proof (length_next (skip_digits s1)). lia.
  - lia.
Qed.

Lemma deref_not_NUL_length (s : string) :
  (deref s =? NUL)%char = false -> (0 < String.length s)%nat.
Proof. destruct s; simpl; [discriminate | lia]. Qed.

Lemma length_next_lt (s : string) :
  (0 < String.length s)%nat -> (String.length (next s) < String.length s)%nat.
Proof. destruct s; simpl; lia. Qed.

(** Unfolding one iteration. *)
Lemma exc_printf_loop_S (fuel' : nat) (format0 : string) (args : list va_item) :
  exc_printf_loop nested (S fuel') format0 args =
      if (deref format0 =? NUL)%char then Some ""
      else if (deref format0 =? "%")%char then
        let format := next format0 in
        if (deref format =? "%")%char then
          out <- exc_printf_loop nested fuel' (next format) args ;;
          Some (String (deref format) out)
        else
          let format := skip_modifiers format in
          if (deref format =? NUL)%char then Some ""
          else if (deref format =? "s")%char then
            match args with
            | va_str s :: args' =>
                o1 <- nested s ;;
                o2 <- exc_printf_loop nested fuel' (next format) args' ;;
                Some (o1 ++ o2)%string
            | _ => None
            end
          else if (deref format =? "d")%char then
            match args with
            | va_int v :: args' =>
                let n := int32 v in
                let sign := if n <? 0 then "-" else "" in
                let n := if n <? 0 then int32 (- n) else n in
                o1 <- exc_puint nested (uint32 n) ;;
                o2 <- exc_printf_loop nested fuel' (next format) args' ;;
                Some (sign ++ o1 ++ o2)%string
            | _ => None
            end
          else if (deref format =? "u")%char then
            match args with
            | va_int v :: args' =>
                o1 <- exc_puint nested (uint32 v) ;;
                o2 <- exc_printf_loop nested fuel' (next format) args' ;;
                Some (o1 ++ o2)%string
            | _ => None
            end
          else if (deref format =? "x")%char || (deref format =? "X")%char then
            match args with
            | va_int v :: args' =>
                o2 <- exc_printf_loop nested fuel' (next format) args' ;;
                Some (hex_loop 8 (uint32 v) ++ o2)%string
            | _ => None
            end
          else if (deref format =? "c")%char then
            match args with
            | va_int v :: args' =>
                o2 <- exc_printf_loop nested fuel' (next format) args' ;;
                Some (String (char_of_Z v) o2)
            | _ => None
            end
          else exc_printf_loop nested fuel' (next format) args
      else
        out <- exc_printf_loop nested fuel' (next format0) args ;;
        Some (String (deref format0) out).
Proof. reflexivity. Qed.

(** Any bound above the length of the format gives the same run. *)
Lemma exc_printf_loop_fuel (fuel1 : nat) :
  forall fuel2 format args,
    (String.length format < fuel1)%nat ->
    (String.length format < fuel2)%nat ->
    exc_printf_loop nested fuel1 format args
    = exc_printf_loop nested fuel2 format args.
Proof.
  induction fuel1 as [|fuel1 IH]; intros fuel2 format args H1 H2; [lia|].
  destruct fuel2 as [|fuel2]; [lia|].
  assert (IHle : forall f a, (String.length f < String.length format)%nat ->
            exc_printf_loop nested fuel1 f a = exc_printf_loop nested fuel2 f a).
  { intros f a Hf. apply IH; lia. }
  clear IH. rewrite !exc_printf_loop_S.
  destruct (deref format =? NUL)%char eqn:Hnul; [reflexivity|].
  apply deref_not_NUL_length in Hnul.
  pose proof (length_next_lt format Hnul) as Hn.
  destruct (deref format =? "%")%char.
  - cbv zeta. destruct (deref (next format) =? "%")%char.
    + rewrite IHle; [reflexivity|].
      pose proof (length_next (next format)). lia.
    + pose proof (length_skip_modifiers (next format)) as Hs.
      set (f := skip_modifiers (next format)) in *.
      destruct (deref f =? NUL)%char eqn:Hf; [reflexivity|].
      apply deref_not_NUL_length in Hf.
      pose proof (length_next_lt f Hf) as Hnf.
      assert (Hr : forall a, exc_printf_loop nested fuel1 (next f) a
                             = exc_printf_loop nested fuel2 (next f) a).
      { intros a. apply IHle. lia. }
      destruct (deref f =? "s")%char.
      { destruct args as [|[v|s] args']; try reflexivity.
        destruct (nested s); [|reflexivity]. unfold bind. now rewrite Hr. }
      destruct (deref f =? "d")%char.
      { destruct args as [|[v|s] args']; try reflexivity.
        destruct (exc_puint nested _); [|reflexivity]. unfold bind.
        now rewrite Hr. }
      destruct (deref f =? "u")%char.
      { destruct args as [|[v|s] args']; try reflexivity.
        destruct (exc_puint nested _); [|reflexivity]. unfold bind.
        now rewrite Hr. }
      destruct ((deref f =? "x")%char || (deref f =? "X")%char).
      { destruct args as [|[v|s] args']; try reflexivity. now rewrite Hr. }
      destruct (deref f =? "c")%char.
      { destruct args as [|[v|s] args']; try reflexivity. now rewrite Hr. }
      apply Hr.
  - rewrite IHle; [reflexivity | lia].
Qed.

Lemma run_fuel (fuel : nat) (format : string) (args : list va_item) :
  (String.length format < fuel)%nat ->
  exc_printf_loop nested fuel format args = run nested format args.
Proof. intros H. unfold run. apply exc_printf_loop_fuel; lia. Qed.

Lemma run_nil (args : list va_item) : run nested "" args = Some "".
Proof. reflexivity. Qed.

Lemma run_literal (c : ascii) (format : string) (args : list va_item) :
  (c =? NUL)%char = false -> (c =? "%")%char = false ->
  run nested (String c format) args
  = (out <- run nested format args ;; Some (String c out)).
Proof.
  intros H1 H2. unfold run at 1. rewrite exc_printf_loop_S.
  cbn [deref next]. rewrite H1, H2.
  rewrite run_fuel by (cbn [String.length]; lia). reflexivity.
Qed.

Lemma run_percent_percent (format : string) (args : list va_item) :
  run nested (String "%" (String "%" format)) args
  = (out <- run nested format args ;; Some (String "%"%char out)).
Proof.
  unfold run at 1. rewrite exc_printf_loop_S.
  cbn [deref next]. change ("%" =? NUL)%char with false.
  change ("%" =? "%")%char with true. cbv iota zeta.
  rewrite run_fuel by (cbn [String.length]; lia). reflexivity.
Qed.

(** A conversion specification: what follows the ['%'] is not a second
    ['%'], and [format] is where [skip_modifiers] stops. *)
Lemma run_percent (f : string) (args : list va_item) :
  (deref f =? "%")%char = false ->
  run nested (String "%" f) args =
    let format := skip_modifiers f in
    if (deref format =? NUL)%char then Some ""
    else if (deref format =? "s")%char then
      match args with
      | va_str s :: args' =>
          o1 <- nested s ;; o2 <- run nested (next format) args' ;;
          Some (o1 ++ o2)%string
      | _ => None
      end
    else if (deref format =? "d")%char then
      match args with
      | va_int v :: args' =>
          let n := int32 v in
          let sign := if n <? 0 then "-" else "" in
          let n := if n <? 0 then int32 (- n) else n in
          o1 <- exc_puint nested (uint32 n) ;;
          o2 <- run nested (next format) args' ;;
          Some (sign ++ o1 ++ o2)%string
      | _ => None
      end
    else if (deref format =? "u")%char then
      match args with
      | va_int v :: args' =>
          o1 <- exc_puint nested (uint32 v) ;;
          o2 <- run nested (next format) args' ;;
          Some (o1 ++ o2)%string
      | _ => None
      end
    else if (deref format =? "x")%char || (deref format =? "X")%char then
      match args with
      | va_int v :: args' =>
          o2 <- run nested (next format) args' ;;
          Some (hex_loop 8 (uint32 v) ++ o2)%string
      | _ => None
      end
    else if (deref format =? "c")%char then
      match args with
      | va_int v :: args' =>
          o2 <- run nested (next format) args' ;;
          Some (String (char_of_Z v) o2)
      | _ => None
      end
    else run nested (next format) args.
Proof.
  intros Hp. unfold run at 1. rewrite exc_printf_loop_S.
  cbn [deref next]. change ("%" =? NUL)%char with false.
  change ("%" =? "%")%char with true. cbv iota zeta. rewrite Hp.
  pose proof (length_skip_modifiers f) as Hs.
  set (format := skip_modifiers f) in *.
  destruct (deref format =? NUL)%char eqn:Hf; [reflexivity|].
  apply deref_not_NUL_length in Hf.
  pose proof (length_next_lt format Hf) as Hnf.
  assert (Hr : forall a, exc_printf_loop nested (String.length (String "%" f))
                           (next format) a = run nested (next format) a).
  { intros a. apply run_fuel. cbn [String.length]. lia. }
  destruct (deref format =? "s")%char.
  { destruct args as [|[v|s] args']; try reflexivity.
    destruct (nested s); [|reflexivity]. unfold bind. now rewrite Hr. }
  destruct (deref format =? "d")%char.
  { destruct args as [|[v|s] args']; try reflexivity.
    destruct (exc_puint nested _); [|reflexivity]. unfold bind.
    now rewrite Hr. }
  destruct (deref format =? "u")%char.
  { destruct args as [|[v|s] args']; try reflexivity.
    destruct (exc_puint nested _); [|reflexivity]. unfold bind.
    now rewrite Hr. }
  destruct ((deref format =? "x")%char || (deref format =? "X")%char).
  { destruct args as [|[v|s] args']; try reflexivity. now rewrite Hr. }
  destruct (deref format =? "c")%char.
  { destruct args as [|[v|s] args']; try reflexivity. now rewrite Hr. }
  apply Hr.
Qed.

End FormatterEquations.

(** ** Facts about the formatter *)

Lemma exc_printf_run (format : string) (args : list va_item) :
  exc_printf format args
  = run (fun s => run (fun _ => None) s []) format args.
Proof. reflexivity. Qed.

Lemma run_plain (nested : string -> emitted) (s : string)
    (args : list va_item) :
  plain s = true -> run nested s args = Some s.
Proof.
  induction s as [|c s IH]; intros H; [reflexivity|].
  cbn [plain string_forallb] in H. apply andb_prop in H as [Hc Hs].
  unfold plain_char in Hc. apply andb_prop in Hc as [H1 H2].
  apply negb_true_iff in H1, H2.
  rewrite run_literal by assumption.
  fold (plain s) in Hs. rewrite (IH Hs). reflexivity.
Qed.

Lemma digit_char_is_digit (d : Z) :
  0 <= d < 10 -> is_digit (char_of_Z (d + Z_of_char "0"%char)) = true.
Proof.
  intros H.
  assert (d = 0 \/ d = 1 \/ d = 2 \/ d = 3 \/ d = 4 \/ d = 5 \/ d = 6
          \/ d = 7 \/ d = 8 \/ d = 9) as Hd by lia.
  repeat (destruct Hd as [-> | Hd]; [reflexivity|]). now subst d.
Qed.

Lemma exc_puint_loop_digits (fuel : nat) :
  forall num buf,
    all_digits buf = true -> all_digits (exc_puint_loop fuel num buf) = true.
Proof.
  induction fuel as [|fuel IH]; intros num buf Hb; [exact Hb|].
  cbn [exc_puint_loop].
  assert (Hb' : all_digits (String (char_of_Z (num mod 10 + Z_of_char "0"%char))
                              buf) = true).
  { cbn [all_digits string_forallb]. fold (all_digits buf). rewrite Hb.
    rewrite digit_char_is_digit; [reflexivity|].
    apply Z.mod_pos_bound. lia. }
  destruct (num / 10 =? 0); [exact Hb' | apply IH, Hb'].
Qed.

Lemma is_digit_plain (c : ascii) : is_digit c = true -> plain_char c = true.
Proof.
  unfold is_digit, plain_char. intros H. apply andb_prop in H as [H1 H2].
  apply Z.leb_le in H1.
  destruct (c =? NUL)%char eqn:E1.
  { apply Ascii.eqb_eq in E1. subst c. cbv in H1. congruence. }
  destruct (c =? "%")%char eqn:E2.
  { apply Ascii.eqb_eq in E2. subst c. cbv in H1. congruence. }
  reflexivity.
Qed.

Lemma is_digit_not_LF (c : ascii) : is_digit c = true -> (c =? LF)%char = false.
Proof.
  unfold is_digit. intros H. apply andb_prop in H as [H1 H2].
  apply Z.leb_le in H1.
  destruct (c =? LF)%char eqn:E1; [|reflexivity].
  apply Ascii.eqb_eq in E1. subst c. cbv in H1. congruence.
Qed.

Lemma string_forallb_impl (p q : ascii -> bool) (s : string) :
  (forall c, p c = true -> q c = true) ->
  string_forallb p s = true -> string_forallb q s = true.
Proof.
  intros Hpq. induction s as [|c s IH]; [reflexivity|].
  cbn [string_forallb]. intros H. apply andb_prop in H as [H1 H2].
  rewrite (Hpq _ H1), (IH H2). reflexivity.
Qed.

Lemma all_digits_plain (s : string) : all_digits s = true -> plain s = true.
Proof. apply string_forallb_impl, is_digit_plain. Qed.

(** [exc_puint] prints the digits it has stored, whatever formatter it is
    given for the nested call. *)
Lemma exc_puint_run (nested : string -> emitted) (num : Z) :
  exc_puint (fun s => run nested s []) num = Some (exc_puint_loop 11 num "")
  /\ all_digits (exc_puint_loop 11 num "") = true.
Proof.
  assert (H : all_digits (exc_puint_loop 11 num "") = true)
    by (apply exc_puint_loop_digits; reflexivity).
  split; [|exact H]. unfold exc_puint. apply run_plain, all_digits_plain, H.
Qed.

Lemma is_conversion_cases (c : ascii) :
  is_conversion c = true ->
  c = "s"%char \/ c = "d"%char \/ c = "u"%char \/ c = "x"%char
  \/ c = "X"%char \/ c = "c"%char.
Proof.
  unfold is_conversion. intros H.
  repeat (apply orb_prop in H as [H | H]);
    apply Ascii.eqb_eq in H; subst c; tauto.
Qed.

Lemma skip_digits_app (w t : string) :
  all_digits w = true -> is_digit (deref t) = false ->
  skip_digits (w ++ t) = t.
Proof.
  intros Hw Ht. induction w as [|c w IH].
  - cbn [append]. destruct t as [|c t]; [reflexivity|].
    cbn [deref] in Ht. cbn [skip_digits]. now rewrite Ht.
  - cbn [all_digits string_forallb] in Hw. apply andb_prop in Hw as [Hc Hw].
    cbn [append skip_digits]. rewrite Hc. apply IH, Hw.
Qed.

Lemma deref_app_digits (w t : string) (c : ascii) :
  all_digits w = true -> is_digit c = false ->
  (deref t =? c)%char = false -> (deref (w ++ t) =? c)%char = false.
Proof.
  intros Hw Hc Ht. destruct w as [|d w]; [exact Ht|].
  cbn [all_digits string_forallb] in Hw. apply andb_prop in Hw as [Hd _].
  cbn [append deref]. destruct (d =? c)%char eqn:E; [|reflexivity].
  apply Ascii.eqb_eq in E. congruence.
Qed.

(** The modifiers [exc_printf] knows are skipped up to the conversion
    letter. *)
Lemma skip_modifiers_conversion (minus : bool) (w : string) (long : bool)
    (conv : ascii) (rest : string) :
  all_digits w = true -> is_conversion conv = true ->
  skip_modifiers (modifiers minus w long ++ String conv rest) = String conv rest
  /\ (deref (modifiers minus w long ++ String conv rest) =? "%")%char = false.
Proof.
  intros Hw Hc.
  set (t := ((if long then "l" else "") ++ String conv rest)%string).
  assert (Ht : modifiers minus w long ++ String conv rest
               = (if minus then "-" else "") ++ w ++ t).
  { unfold modifiers, t.
    assert (A : forall a b c : string, ((a ++ b) ++ c = a ++ b ++ c)%string).
    { intros a b c. induction a as [|x a IH]; cbn [append]; congruence. }
    now rewrite !A. }
  rewrite Ht. clear Ht.
  assert (Hdt : is_digit (deref t) = false /\ (deref t =? "-")%char = false
                /\ (deref t =? "%")%char = false
                /\ (if (deref t =? "l")%char then next t else t)
                   = String conv rest).
  { apply is_conversion_cases in Hc. subst t.
    destruct long; cbn [append deref next];
      repeat (destruct Hc as [-> | Hc]; [repeat split; reflexivity|]);
      subst conv; repeat split; reflexivity. }
  destruct Hdt as (Hd & Hm & Hp & Hl).
  unfold skip_modifiers. destruct minus; cbn [append deref next].
  - change ("-" =? "-")%char with true. cbv iota.
    rewrite skip_digits_app by assumption. now rewrite Hl.
  - rewrite (deref_app_digits w t "-" Hw eq_refl Hm).
    rewrite skip_digits_app by assumption. rewrite Hl. split; [reflexivity|].
    apply deref_app_digits; [assumption | reflexivity | assumption].
Qed.

(** C6 (as amended): the conversions print what the specification lists,
    and a ['-'] flag, a field width and one ['l'] between the ['%'] and a
    known conversion letter are skipped: the output is that of the bare
    conversion. *)
Theorem exc_printf_conversions :
  exc_printf "%d" [va_int (-42)] = Some "-42"
  /\ exc_printf "%u" [va_int 4294967295] = Some "4294967295"
  /\ exc_printf "%x" [va_int 1] = Some "00000001"
  /\ exc_printf "%s" [va_str "ok"] = Some "ok"
  /\ (forall v, exc_printf "%c" [va_int v] = Some (String (char_of_Z v) ""))
  /\ exc_printf "%%" [] = Some "%"
  /\ exc_printf "%5ld" [va_int (-42)] = Some "-42"
  /\ (forall minus width long conv rest args,
        all_digits width = true -> is_conversion conv = true ->
        exc_printf (String "%" (modifiers minus width long
                                ++ String conv rest)) args
        = exc_printf (String "%" (String conv rest)) args).
Proof.
  repeat split; try reflexivity.
  intros minus width long conv rest args Hw Hc.
  rewrite (exc_printf_run (String "%" (String conv rest))).
  rewrite (exc_printf_run (String "%" (_ ++ _))).
  destruct (skip_modifiers_conversion minus width long conv rest Hw Hc)
    as [Hs Hp].
  destruct (skip_modifiers_conversion false "" false conv rest eq_refl Hc)
    as [Hs' Hp'].
  cbn [modifiers append] in Hs', Hp'.
  rewrite (run_percent _ _ _ Hp), (run_percent _ _ _ Hp').
  rewrite Hs, Hs'. reflexivity.
Qed.

Lemma exc_printf_conversions_witness :
  exc_printf "%-08lx and %3d" [va_int 255; va_int 7]
  = exc_printf "%x and %3d" [va_int 255; va_int 7].
Proof.
  exact (proj2 (proj2 (proj2 (proj2 (proj2 (proj2 (proj2
           exc_printf_conversions))))))
           true "08" true "x"%char " and %3d" [va_int 255; va_int 7]
           eq_refl eq_refl).
Defined.

(** C6 (as stated) fails: a precision is not skipped.  The ['.'] is taken
    for the conversion letter, no argument is fetched, and the rest of the
    specification is printed as text. *)
Lemma exc_printf_precision_stray :
  exc_printf "%.3d" [va_int 7] = Some "3d"
  /\ exc_printf "%d" [va_int 7] = Some "7"
  /\ exc_printf "%lld" [va_int 7] = Some "d".
Proof. repeat split; reflexivity. Qed.

Lemma uint32_range (z : Z) : 0 <= uint32 z < 2 ^ 32.
Proof. unfold uint32. apply Z.mod_pos_bound. reflexivity. Qed.

(** The twelve bytes of [buf] are enough for a 32-bit number: more room
    would not change what [exc_puint] prints. *)
Lemma exc_puint_loop_enough (fuel : nat) :
  forall num buf extra,
    (0 < fuel)%nat -> 0 <= num < 10 ^ Z.of_nat fuel ->
    exc_puint_loop (fuel + extra) num buf = exc_puint_loop fuel num buf.
Proof.
  induction fuel as [|fuel IH]; intros num buf extra Hf H; [lia|].
  cbn [Nat.add exc_puint_loop].
  destruct (num / 10 =? 0) eqn:E; [reflexivity|].
  apply Z.eqb_neq in E.
  rewrite Nat2Z.inj_succ, Z.pow_succ_r in H by lia.
  assert (Hq : 0 <= num / 10 < 10 ^ Z.of_nat fuel).
  { split; [apply Z.div_pos; lia|]. apply Z.div_lt_upper_bound; lia. }
  apply IH; [|exact Hq].
  destruct fuel; [|lia]. change (10 ^ Z.of_nat 0) with 1 in Hq. lia.
Qed.

Lemma exc_puint_loop_uint32 (v : Z) (extra : nat) :
  exc_puint_loop (11 + extra) (uint32 v) "" = exc_puint_loop 11 (uint32 v) "".
Proof.
  apply exc_puint_loop_enough; [lia|]. pose proof (uint32_range v) as H.
  change (2 ^ 32) with 4294967296 in H.
  change (10 ^ Z.of_nat 11) with 100000000000. lia.
Qed.

(** A formatter call without arguments never gets to its nested calls. *)
Lemma exc_printf_loop_no_args (n1 n2 : string -> emitted) (fuel : nat) :
  forall format,
    exc_printf_loop n1 fuel format [] = exc_printf_loop n2 fuel format [].
Proof.
  induction fuel as [|fuel IH]; intros format; [reflexivity|].
  rewrite !exc_printf_loop_S. cbv zeta. rewrite !IH. reflexivity.
Qed.

(** The loop only depends on what the nested formatter prints. *)
Lemma exc_printf_loop_ext (n1 n2 : string -> emitted) (fuel : nat) :
  (forall s, n1 s = n2 s) ->
  forall format args,
    exc_printf_loop n1 fuel format args = exc_printf_loop n2 fuel format args.
Proof.
  intros Hn. induction fuel as [|fuel IH]; intros format args; [reflexivity|].
  rewrite !exc_printf_loop_S. cbv zeta. unfold exc_puint.
  destruct args as [|[v|s] args']; rewrite ?IH, ?Hn; reflexivity.
Qed.

(** Nesting deeper than [exc_printf] allows changes nothing. *)
Lemma exc_printf_depth_enough (k : nat) (format : string)
    (args : list va_item) :
  exc_printf_depth (2 + k) format args = exc_printf format args.
Proof.
  unfold exc_printf. cbn [Nat.add exc_printf_depth].
  apply exc_printf_loop_ext. intros s. destruct k as [|k]; [reflexivity|].
  cbn [exc_printf_depth]. apply exc_printf_loop_no_args.
Qed.

(** ** The hexadecimal conversion *)

Lemma hex_char_upper (d : Z) :
  0 <= d < 16 ->
  char_of_Z (if d <? 10 then d + Z_of_char "0"%char
             else d - 10 + Z_of_char "A"%char)
  = upper_hex_digit d.
Proof.
  intros H.
  assert (d = 0 \/ d = 1 \/ d = 2 \/ d = 3 \/ d = 4 \/ d = 5 \/ d = 6
          \/ d = 7 \/ d = 8 \/ d = 9 \/ d = 10 \/ d = 11 \/ d = 12
          \/ d = 13 \/ d = 14 \/ d = 15) as Hd by lia.
  repeat (destruct Hd as [-> | Hd]; [reflexivity|]). now subst d.
Qed.

(** One round of the loop on a 32-bit word: the top nibble is printed and
    the word moves up by four bits. *)
Lemma hex_loop_step (n : nat) (val : Z) :
  0 <= val < 2 ^ 32 ->
  hex_loop (S n) val
  = String (upper_hex_digit (val / 2 ^ 28))
           (hex_loop n (val mod 2 ^ 28 * 16)).
Proof.
  intros H. cbn [hex_loop].
  assert (Hd : Z.land (Z.shiftr val 28) 15 = val / 2 ^ 28).
  { rewrite Z.shiftr_div_pow2 by lia.
    change 15 with (Z.ones 4). rewrite Z.land_ones by lia.
    apply Z.mod_small. change (2 ^ 4) with 16.
    change (2 ^ 28) with 268435456. change (2 ^ 32) with 4294967296 in H.
    Z.div_mod_to_equations. lia. }
  rewrite Hd. rewrite hex_char_upper.
  - f_equal. f_equal. unfold uint32. rewrite Z.shiftl_mul_pow2 by lia.
    change (2 ^ 4) with 16. change (2 ^ 32) with (268435456 * 16).
    change (2 ^ 28) with 268435456.
    rewrite Z.mul_mod_distr_r by lia. reflexivity.
  - change (2 ^ 28) with 268435456. change (2 ^ 32) with 4294967296 in H.
    Z.div_mod_to_equations. lia.
Qed.

Lemma hex_loop_8 (u : Z) :
  0 <= u < 2 ^ 32 -> hex_loop 8 u = hex8_upper u.
Proof.
  intros H. change (2 ^ 32) with 4294967296 in H.
  assert (B : forall v, 0 <= v mod 2 ^ 28 * 16 < 2 ^ 32).
  { intros v. change (2 ^ 28) with 268435456. change (2 ^ 32) with 4294967296.
    Z.div_mod_to_equations. lia. }
  rewrite hex_loop_step by (change (2 ^ 32) with 4294967296; lia).
  do 7 (rewrite hex_loop_step by apply B).
  cbn [hex_loop]. unfold hex8_upper.
  change (2 ^ 28) with 268435456.
  change (16 ^ 7) with 268435456. change (16 ^ 6) with 16777216.
  change (16 ^ 5) with 1048576. change (16 ^ 4) with 65536.
  change (16 ^ 3) with 4096. change (16 ^ 2) with 256.
  change (16 ^ 1) with 16. change (16 ^ 0) with 1.
  repeat (apply f_equal2;
          [apply f_equal; Z.div_mod_to_equations; lia|]).
  reflexivity.
Qed.

Lemma upper_hex_digit_upper (d : Z) :
  0 <= d < 16 -> is_upper_hex (upper_hex_digit d) = true.
Proof.
  intros H.
  assert (d = 0 \/ d = 1 \/ d = 2 \/ d = 3 \/ d = 4 \/ d = 5 \/ d = 6
          \/ d = 7 \/ d = 8 \/ d = 9 \/ d = 10 \/ d = 11 \/ d = 12
          \/ d = 13 \/ d = 14 \/ d = 15) as Hd by lia.
  repeat (destruct Hd as [-> | Hd]; [reflexivity|]). now subst d.
Qed.

Lemma append_nil_r (s : string) : (s ++ "")%string = s.
Proof. induction s as [|c s IH]; cbn [append]; congruence. Qed.

Lemma exc_printf_x (conv : ascii) (v : Z) :
  conv = "x"%char \/ conv = "X"%char ->
  exc_printf (String "%" (String conv "")) [va_int v]
  = Some (hex8_upper (uint32 v)).
Proof.
  intros Hc. rewrite exc_printf_run.
  rewrite run_percent by (destruct Hc; subst conv; reflexivity).
  replace (skip_modifiers (String conv "")) with (String conv "")
    by (destruct Hc; subst conv; reflexivity).
  cbn [deref next].
  destruct Hc; subst conv; cbn [Ascii.eqb Bool.eqb NUL orb];
    cbv iota; rewrite run_nil; cbn [bind];
    rewrite append_nil_r, hex_loop_8 by apply uint32_range; reflexivity.
Qed.

(** C10: for every argument, ["%x"] and ["%X"] print the same eight
    characters, the hexadecimal digits of the argument as a 32-bit word,
    most significant first, with capital letters for the digits above 9. *)
Theorem exc_printf_hex_always_upper (v : Z) :
  exc_printf "%x" [va_int v] = Some (hex8_upper (uint32 v))
  /\ exc_printf "%X" [va_int v] = Some (hex8_upper (uint32 v))
  /\ String.length (hex8_upper (uint32 v)) = 8%nat
  /\ string_forallb is_upper_hex (hex8_upper (uint32 v)) = true.
Proof.
  split; [apply exc_printf_x; now left|].
  split; [apply exc_printf_x; now right|].
  split; [reflexivity|].
  unfold hex8_upper. cbn [string_forallb].
  rewrite !upper_hex_digit_upper; [reflexivity|..];
    apply Z.mod_pos_bound; reflexivity.
Qed.

(** ** The lines of the frame walker *)

Section FormatterOutputs.

Variable inner : string -> emitted.
Local Abbreviation nested := (fun s : string => run inner s []).

Lemma run_d (rest : string) (v : Z) (args : list va_item) :
  run nested (String "%" (String "d" rest)) (va_int v :: args)
  = (o2 <- run nested rest args ;; Some (signed_decimal v ++ o2)%string).
Proof.
  rewrite run_percent by reflexivity.
  change (skip_modifiers (String "d" rest)) with (String "d" rest).
  cbn [deref next]. cbn [Ascii.eqb Bool.eqb NUL]. cbv iota zeta.
  destruct (exc_puint_run inner
              (uint32 (if int32 v <? 0 then int32 (- int32 v) else int32 v)))
    as [E _].
  rewrite E. cbn [bind].
  destruct (run nested rest args) as [o2|]; [|reflexivity]. cbn [bind].
  unfold signed_decimal.
  assert (A : forall a b c : string, ((a ++ b) ++ c = a ++ b ++ c)%string).
  { intros a b c. induction a as [|x a IH]; cbn [append]; congruence. }
  now rewrite A.
Qed.

Lemma run_04x (rest : string) (v : Z) (args : list va_item) :
  run nested (String "%" (String "0" (String "4" (String "x" rest))))
    (va_int v :: args)
  = (o2 <- run nested rest args ;; Some (hex8_upper (uint32 v) ++ o2)%string).
Proof.
  rewrite run_percent by reflexivity.
  change (skip_modifiers (String "0" (String "4" (String "x" rest))))
    with (String "x" rest).
  cbn [deref next]. cbn [Ascii.eqb Bool.eqb NUL orb]. cbv iota zeta.
  rewrite hex_loop_8 by apply uint32_range. reflexivity.
Qed.

End FormatterOutputs.

Lemma count_lines_app (a b : string) :
  count_lines (a ++ b) = (count_lines a + count_lines b)%nat.
Proof.
  induction a as [|c a IH]; [reflexivity|].
  cbn [append count_lines]. destruct (c =? LF)%char; rewrite IH; reflexivity.
Qed.

Lemma count_lines_digits (s : string) :
  all_digits s = true -> count_lines s = 0%nat.
Proof.
  induction s as [|c s IH]; [reflexivity|].
  cbn [all_digits string_forallb count_lines]. intros H.
  apply andb_prop in H as [Hc Hs]. rewrite (is_digit_not_LF c Hc).
  apply IH, Hs.
Qed.

Lemma count_lines_signed_decimal (v : Z) :
  count_lines (signed_decimal v) = 0%nat.
Proof.
  unfold signed_decimal. cbv zeta. rewrite count_lines_app.
  rewrite (count_lines_digits (exc_puint_loop _ _ _))
    by (apply exc_puint_loop_digits; reflexivity).
  destruct (int32 v <? 0); reflexivity.
Qed.

Lemma is_upper_hex_not_LF (c : ascii) :
  is_upper_hex c = true -> (c =? LF)%char = false.
Proof.
  intros H. destruct (c =? LF)%char eqn:E; [|reflexivity].
  apply Ascii.eqb_eq in E. subst c. discriminate H.
Qed.

Lemma count_lines_hex8 (u : Z) : count_lines (hex8_upper u) = 0%nat.
Proof.
  unfold hex8_upper. cbn [count_lines].
  rewrite !is_upper_hex_not_LF; [reflexivity|..];
    apply upper_hex_digit_upper, Z.mod_pos_bound; reflexivity.
Qed.

Lemma append_assoc (a b c : string) : ((a ++ b) ++ c = a ++ b ++ c)%string.
Proof. induction a as [|x a IH]; cbn [append]; congruence. Qed.

Lemma exc_printf_depth_line (d : Z) :
  exc_printf (String TAB "#%d") [va_int d]
  = Some (String TAB ("#" ++ signed_decimal d)).
Proof.
  rewrite exc_printf_run.
  rewrite run_literal by reflexivity. rewrite run_literal by reflexivity.
  rewrite run_d, run_nil. cbn [bind]. now rewrite append_nil_r.
Qed.

Lemma exc_printf_ip_line (v : Z) :
  exc_printf (":" ++ String TAB "0x%04x") [va_int v]
  = Some ((":" ++ String TAB "0x") ++ hex8_upper (uint32 v))%string.
Proof.
  rewrite exc_printf_run. cbn [append].
  do 4 (rewrite run_literal by reflexivity).
  rewrite run_04x, run_nil. cbn [bind]. now rewrite append_nil_r.
Qed.

Lemma exc_printf_start_line (v : Z) :
  exc_printf (" [0x%04x]" ++ String CR (String LF "")) [va_int v]
  = Some (" [0x" ++ hex8_upper (uint32 v)
          ++ "]" ++ String CR (String LF ""))%string.
Proof.
  rewrite exc_printf_run. cbn [append].
  do 4 (rewrite run_literal by reflexivity).
  rewrite run_04x. rewrite run_plain by reflexivity. reflexivity.
Qed.

Lemma exc_printf_entry_line :
  exc_printf (":" ++ String TAB
                ("[Task entry point]" ++ String CR (String LF ""))) []
  = Some (":" ++ String TAB
            ("[Task entry point]" ++ String CR (String LF "")))%string.
Proof. reflexivity. Qed.

Lemma count_lines_String (c : ascii) (s : string) :
  count_lines (String c s)
  = ((if (c =? LF)%char then 1 else 0) + count_lines s)%nat.
Proof. cbn [count_lines]. destruct (c =? LF)%char; reflexivity. Qed.

Lemma count_lines_frame_line (addr : Z) (ctx : _Unwind_Context) (d : Z) :
  count_lines (frame_line addr ctx d) = 1%nat.
Proof.
  unfold frame_line. cbv zeta.
  destruct (is_task_entry addr (_Unwind_GetIP ctx));
    repeat (rewrite ?count_lines_app, ?count_lines_String, ?count_lines_hex8,
              ?count_lines_signed_decimal);
    reflexivity.
Qed.

(** What one call of the callback does. *)
Lemma trace_fcn_eq (addr : Z) (ctx : _Unwind_Context) (d : Z) (m : machine) :
  trace_fcn addr ctx d m =
    let m1 := set_console (console m ++ frame_line addr ctx d) m in
    if is_task_entry addr (_Unwind_GetIP ctx)
    then Returned (_URC_END_OF_STACK, ctx, d) m1
    else
      Returned
        (if int32 (d + 1) =? 32 then _URC_END_OF_STACK else _URC_NO_REASON,
         if g_trace_lr m =? 0 then ctx
         else _Unwind_SetGR ctx 14 (g_trace_lr m),
         int32 (d + 1))
        (if g_trace_lr m =? 0 then m1 else set_trace_lr 0 m1).
Proof.
  unfold trace_fcn, EXC_PRINTF, frame_line. cbv zeta.
  rewrite exc_printf_depth_line. cbn [obind].
  destruct (is_task_entry addr (_Unwind_GetIP ctx)).
  - rewrite exc_printf_entry_line. cbn [obind]. unfold set_console.
    cbn [console _g_current_heap_end reent_errno PRIMASK g_trace_lr offset_
         g_yield_task g_event_responder_task events].
    now rewrite append_assoc.
  - rewrite exc_printf_ip_line. cbn [obind].
    rewrite exc_printf_start_line. cbn [obind]. unfold set_console.
    cbn [console _g_current_heap_end reent_errno PRIMASK g_trace_lr offset_
         g_yield_task g_event_responder_task events].
    rewrite !append_assoc.
    destruct (g_trace_lr m =? 0); cbn [fst snd];
      destruct (int32 (d + 1) =? 32); reflexivity.
Qed.

(** ** The walk over the frames *)

Lemma int32_small (z : Z) : - 2 ^ 31 <= z < 2 ^ 31 -> int32 z = z.
Proof.
  intros H. unfold int32. rewrite Z.mod_small; lia.
Qed.

Section Walk.

Variable addr : Z.

Lemma walk_frames_cons (ctx : _Unwind_Context) (rest : list _Unwind_Context)
    (d : Z) (m : machine) :
  0 <= d < 32 ->
  walk_frames addr (ctx :: rest) d m =
    if entry_frame addr ctx
    then Returned ([(_URC_END_OF_STACK, ctx)], d) (after_line addr ctx d m)
    else if d + 1 =? 32
    then Returned ([(_URC_END_OF_STACK, frame_left ctx m)], d + 1)
           (after_frame addr ctx d m)
    else
      call w <- walk_frames addr rest (d + 1) (after_frame addr ctx d m) in m';
      Returned ((_URC_NO_REASON, frame_left ctx m) :: fst w, snd w) m'.
Proof.
  intros Hd. cbn [walk_frames]. rewrite trace_fcn_eq. cbv zeta.
  unfold entry_frame, after_frame, frame_left, after_line.
  rewrite (int32_small (d + 1)) by lia.
  destruct (is_task_entry addr (_Unwind_GetIP ctx)); [reflexivity|].
  cbn [obind]. destruct (d + 1 =? 32); reflexivity.
Qed.

Lemma console_after_frame (ctx : _Unwind_Context) (d : Z) (m : machine) :
  console (after_frame addr ctx d m) = (console m ++ frame_line addr ctx d)%string
  /\ console (after_line addr ctx d m) = (console m ++ frame_line addr ctx d)%string.
Proof.
  unfold after_frame, after_line. destruct (g_trace_lr m =? 0); split;
    reflexivity.
Qed.

(** The walk returns, after at most [32 - d] calls, one line per call. *)
Lemma walk_frames_total (frames : list _Unwind_Context) :
  forall d m, 0 <= d < 32 ->
    exists calls d' m',
      walk_frames addr frames d m = Returned (calls, d') m'
      /\ (length calls <= Z.to_nat (32 - d))%nat
      /\ (length calls <= length frames)%nat
      /\ count_lines (console m')
         = (count_lines (console m) + length calls)%nat.
Proof.
  induction frames as [|ctx rest IH]; intros d m Hd.
  - exists [], d, m. cbn. repeat split; lia.
  - rewrite walk_frames_cons by assumption.
    destruct (console_after_frame ctx d m) as [Hc1 Hc2].
    destruct (entry_frame addr ctx).
    { eexists _, _, _. split; [reflexivity|]. cbn [length].
      rewrite Hc2, count_lines_app, count_lines_frame_line.
      repeat split; lia. }
    destruct (d + 1 =? 32) eqn:E.
    { eexists _, _, _. split; [reflexivity|]. cbn [length].
      rewrite Hc1, count_lines_app, count_lines_frame_line.
      repeat split; lia. }
    apply Z.eqb_neq in E.
    destruct (IH (d + 1) (after_frame addr ctx d m))
      as (calls & d' & m' & Hw & H1 & H2 & H3); [lia|].
    rewrite Hw. cbn [obind fst snd].
    eexists _, _, _. split; [reflexivity|]. cbn [length].
    rewrite H3, Hc1, count_lines_app, count_lines_frame_line.
    repeat split; lia.
Qed.

(** The walk ends at the first frame that is the task entry, when the cap
    has not been reached before. *)
Lemma walk_frames_stop (pre : list _Unwind_Context) :
  forall f post d m calls d' m',
    0 <= d -> d + Z.of_nat (length pre) < 32 ->
    no_entry_frame addr pre = true -> entry_frame addr f = true ->
    walk_frames addr (pre ++ f :: post) d m = Returned (calls, d') m' ->
    map fst calls = (repeat _URC_NO_REASON (length pre) ++ [_URC_END_OF_STACK])%list
    /\ nth_error calls (length pre) = Some (_URC_END_OF_STACK, f).
Proof.
  induction pre as [|c pre IH]; intros f post d m calls d' m' H0 Hd Hn Hf Hw.
  - cbn [app length] in *. rewrite walk_frames_cons, Hf in Hw by lia.
    injection Hw as <- _ _. split; reflexivity.
  - cbn [app length] in *. cbn [no_entry_frame forallb] in Hn.
    apply andb_prop in Hn as [Hc Hn]. apply negb_true_iff in Hc.
    rewrite walk_frames_cons, Hc in Hw by lia.
    replace (d + 1 =? 32) with false in Hw by (symmetry; apply Z.eqb_neq; lia).
    destruct (walk_frames addr (pre ++ f :: post) (d + 1) (after_frame addr c d m))
      as [[calls1 d1] m1| |] eqn:E; cbn [obind] in Hw; try discriminate.
    injection Hw as <- _ _. cbn [fst map repeat nth_error app].
    destruct (IH f post (d + 1) _ calls1 d1 m1 ltac:(lia) ltac:(lia) Hn Hf E)
      as [I1 I2].
    rewrite I1. split; [reflexivity | exact I2].
Qed.

(** Without such a frame among the first [32 - d], the callback ends the
    walk itself at the last of them. *)
Lemma walk_frames_cap (frames : list _Unwind_Context) :
  forall d m calls d' m',
    0 <= d < 32 ->
    no_entry_frame addr (firstn (Z.to_nat (32 - d)) frames) = true ->
    (Z.to_nat (32 - d) <= length frames)%nat ->
    walk_frames addr frames d m = Returned (calls, d') m' ->
    map fst calls
    = (repeat _URC_NO_REASON (Z.to_nat (31 - d)) ++ [_URC_END_OF_STACK])%list.
Proof.
  induction frames as [|c rest IH]; intros d m calls d' m' Hd Hn Hl Hw.
  - cbn [length] in Hl. lia.
  - replace (Z.to_nat (32 - d)) with (S (Z.to_nat (31 - d))) in Hn, Hl by lia.
    cbn [firstn no_entry_frame forallb length] in Hn, Hl.
    apply andb_prop in Hn as [Hc Hn]. apply negb_true_iff in Hc.
    rewrite walk_frames_cons, Hc in Hw by lia.
    destruct (d + 1 =? 32) eqn:E.
    + apply Z.eqb_eq in E. injection Hw as <- _ _.
      replace (31 - d) with 0 by lia. reflexivity.
    + apply Z.eqb_neq in E.
      destruct (walk_frames addr rest (d + 1) (after_frame addr c d m))
        as [[calls1 d1] m1| |] eqn:E1; cbn [obind] in Hw; try discriminate.
      injection Hw as <- _ _. cbn [fst map].
      replace (31 - d) with (32 - (d + 1)) in Hn, Hl by lia.
      rewrite (IH (d + 1) _ calls1 d1 m1 ltac:(lia) Hn ltac:(lia) E1).
      replace (Z.to_nat (31 - d)) with (S (Z.to_nat (31 - (d + 1)))) by lia.
      reflexivity.
Qed.

End Walk.

(** C7: the walk returns for every sequence of frames; it makes at most 32
    calls of the callback and prints one line per call; it ends with
    [_URC_END_OF_STACK] exactly at the first frame whose instruction pointer
    is the task-entry trampoline or zero when that frame is among the first
    32, and at the 32nd frame when there is none among them. *)
Theorem trace_walk_stops_at_entry_or_cap (addr : Z)
    (frames : list _Unwind_Context) (m : machine) :
  exists calls d' m',
    backtrace addr frames m = Returned (calls, d') m'
    /\ (length calls <= 32)%nat
    /\ count_lines (console m') = (count_lines (console m) + length calls)%nat
    /\ (forall pre f post,
          frames = (pre ++ f :: post)%list ->
          no_entry_frame addr pre = true -> entry_frame addr f = true ->
          (length pre < 32)%nat ->
          map fst calls
          = (repeat _URC_NO_REASON (length pre) ++ [_URC_END_OF_STACK])%list
          /\ nth_error calls (length pre) = Some (_URC_END_OF_STACK, f))
    /\ (no_entry_frame addr (firstn 32 frames) = true ->
        (32 <= length frames)%nat ->
        map fst calls
        = (repeat _URC_NO_REASON 31 ++ [_URC_END_OF_STACK])%list).
Proof.
  unfold backtrace.
  destruct (walk_frames_total addr frames 0 m ltac:(lia))
    as (calls & d' & m' & Hw & H1 & _ & H3).
  exists calls, d', m'. split; [exact Hw|].
  split; [exact H1|]. split; [exact H3|]. split.
  - intros pre f post -> Hn Hf Hl.
    apply (walk_frames_stop addr pre f post 0 m calls d' m'); try assumption; lia.
  - intros Hn Hl.
    apply (walk_frames_cap addr frames 0 m calls d' m'); try assumption; lia.
Qed.

Lemma trace_walk_stops_at_entry_or_cap_witness :
  exists calls d' m',
    backtrace 1537
      [mk_context 4096 4000 (fun _ => 0); mk_context 1536 1500 (fun _ => 0);
       mk_context 8192 8000 (fun _ => 0)] (boot 0)
    = Returned (calls, d') m'
    /\ map fst calls = [_URC_NO_REASON; _URC_END_OF_STACK].
Proof.
  destruct (trace_walk_stops_at_entry_or_cap 1537
              [mk_context 4096 4000 (fun _ => 0);
               mk_context 1536 1500 (fun _ => 0);
               mk_context 8192 8000 (fun _ => 0)] (boot 0))
    as (calls & d' & m' & Hw & _ & _ & Hstop & _).
  exists calls, d', m'. split; [exact Hw|].
  apply (Hstop [mk_context 4096 4000 (fun _ => 0)]
                  (mk_context 1536 1500 (fun _ => 0))
                  [mk_context 8192 8000 (fun _ => 0)]);
    [reflexivity | reflexivity | reflexivity | simpl; lia].
Defined.

(** ** The link-register override *)

Lemma g_trace_lr_after_line (addr : Z) (ctx : _Unwind_Context) (d : Z)
    (m : machine) :
  g_trace_lr (after_line addr ctx d m) = g_trace_lr m.
Proof. reflexivity. Qed.

Lemma g_trace_lr_after_frame (addr : Z) (ctx : _Unwind_Context) (d : Z)
    (m : machine) :
  g_trace_lr (after_frame addr ctx d m) = 0.
Proof.
  unfold after_frame. destruct (g_trace_lr m =? 0) eqn:E; [|reflexivity].
  apply Z.eqb_eq in E. now rewrite g_trace_lr_after_line.
Qed.

(** With no override pending, the walk leaves every context as it was. *)
Lemma walk_frames_unmodified (addr : Z) (frames : list _Unwind_Context) :
  forall d m calls d' m',
    0 <= d < 32 -> g_trace_lr m = 0 ->
    walk_frames addr frames d m = Returned (calls, d') m' ->
    map snd calls = firstn (length calls) frames /\ g_trace_lr m' = 0.
Proof.
  induction frames as [|c rest IH]; intros d m calls d' m' Hd Hg Hw.
  - cbn [walk_frames] in Hw. injection Hw as <- _ <-. now split.
  - rewrite walk_frames_cons in Hw by assumption.
    assert (Hl : frame_left c m = c) by (unfold frame_left; now rewrite Hg).
    rewrite Hl in Hw.
    destruct (entry_frame addr c).
    { injection Hw as <- _ <-. now split. }
    destruct (d + 1 =? 32) eqn:E.
    { injection Hw as <- _ <-. split; [reflexivity|].
      apply g_trace_lr_after_frame. }
    apply Z.eqb_neq in E.
    destruct (walk_frames addr rest (d + 1) (after_frame addr c d m))
      as [[calls1 d1] m1| |] eqn:E1; cbn [obind] in Hw; try discriminate.
    injection Hw as <- _ <-. cbn [fst map snd length firstn].
    destruct (IH (d + 1) _ calls1 d1 m1 ltac:(lia)
                (g_trace_lr_after_frame addr c d m) E1) as [I1 I2].
    now rewrite I1.
Qed.

(** C8: the walk returns; when [g_trace_lr] is zero at its start no context
    is changed; when it is not, the first frame, if it does not end the
    walk, gets the value in register 14 (register 14 of the context then
    reads that value, every other register, the instruction pointer and the
    region start read as before), the variable is cleared, and every later
    context is left as it was.  (A walk that ends at its first frame
    changes nothing and leaves the variable as it is.) *)
Theorem trace_lr_override_one_shot (addr : Z) (frames : list _Unwind_Context)
    (m : machine) :
  exists calls d' m',
    backtrace addr frames m = Returned (calls, d') m'
    /\ (g_trace_lr m = 0 ->
        map snd calls = firstn (length calls) frames /\ g_trace_lr m' = 0)
    /\ (g_trace_lr m <> 0 ->
        forall f rest,
          frames = f :: rest -> entry_frame addr f = false ->
          map snd calls
          = _Unwind_SetGR f 14 (g_trace_lr m)
              :: firstn (length calls - 1) rest
          /\ g_trace_lr m' = 0
          /\ (exists first,
                nth_error (map snd calls) 0 = Some first
                /\ _Unwind_GetGR first 14 = g_trace_lr m
                /\ (forall r, r <> 14 ->
                               _Unwind_GetGR first r = _Unwind_GetGR f r)
                /\ _Unwind_GetIP first = _Unwind_GetIP f
                /\ _Unwind_GetRegionStart first = _Unwind_GetRegionStart f))
    /\ (forall f rest,
          frames = f :: rest -> entry_frame addr f = true ->
          map snd calls = [f] /\ g_trace_lr m' = g_trace_lr m).
Proof.
  unfold backtrace.
  destruct (walk_frames_total addr frames 0 m ltac:(lia))
    as (calls & d' & m' & Hw & _).
  exists calls, d', m'. split; [exact Hw|]. split; [|split].
  - intros Hg. apply (walk_frames_unmodified addr frames 0 m calls d' m');
      [lia | assumption | assumption].
  - intros Hg f rest -> Hf.
    rewrite walk_frames_cons, Hf in Hw by lia.
    change (0 + 1 =? 32) with false in Hw. cbv iota in Hw.
    assert (Hl : frame_left f m = _Unwind_SetGR f 14 (g_trace_lr m)).
    { unfold frame_left. apply Z.eqb_neq in Hg. now rewrite Hg. }
    rewrite Hl in Hw.
    destruct (walk_frames addr rest (0 + 1) (after_frame addr f 0 m))
      as [[calls1 d1] m1| |] eqn:E1; cbn [obind] in Hw; try discriminate.
    injection Hw as <- _ <-. cbn [fst map snd length].
    destruct (walk_frames_unmodified addr rest (0 + 1) _ calls1 d1 m1
                ltac:(lia) (g_trace_lr_after_frame addr f 0 m) E1) as [I1 I2].
    rewrite I1. replace (S (length calls1) - 1)%nat with (length calls1) by lia.
    split; [reflexivity|]. split; [exact I2|].
    exists (_Unwind_SetGR f 14 (g_trace_lr m)).
    split; [reflexivity|]. split; [reflexivity|].
    split; [|split; reflexivity].
    intros r Hr. cbn [_Unwind_SetGR _Unwind_GetGR].
    destruct (r =? 14) eqn:E; [|reflexivity].
    apply Z.eqb_eq in E. contradiction.
  - intros f rest -> Hf.
    rewrite walk_frames_cons, Hf in Hw by lia.
    injection Hw as <- _ <-. now split.
Qed.

Lemma trace_lr_override_one_shot_witness :
  exists calls d' m',
    backtrace 1537
      [mk_context 4096 4000 (fun _ => 0); mk_context 4660 4600 (fun _ => 0);
       mk_context 1536 1500 (fun _ => 0)] (set_trace_lr 99 (boot 0))
    = Returned (calls, d') m'
    /\ map snd calls
       = _Unwind_SetGR (mk_context 4096 4000 (fun _ => 0)) 14 99
           :: firstn (length calls - 1)
                [mk_context 4660 4600 (fun _ => 0);
                 mk_context 1536 1500 (fun _ => 0)]
    /\ g_trace_lr m' = 0
    /\ (exists first,
          nth_error (map snd calls) 0 = Some first
          /\ _Unwind_GetGR first 14
             = g_trace_lr (set_trace_lr 99 (boot 0))
          /\ (forall r, r <> 14 ->
                         _Unwind_GetGR first r
                         = _Unwind_GetGR (mk_context 4096 4000 (fun _ => 0)) r)
          /\ _Unwind_GetIP first
             = _Unwind_GetIP (mk_context 4096 4000 (fun _ => 0))
          /\ _Unwind_GetRegionStart first
             = _Unwind_GetRegionStart (mk_context 4096 4000 (fun _ => 0))).
Proof.
  destruct (trace_lr_override_one_shot 1537
              [mk_context 4096 4000 (fun _ => 0);
               mk_context 4660 4600 (fun _ => 0);
               mk_context 1536 1500 (fun _ => 0)] (set_trace_lr 99 (boot 0)))
    as (calls & d' & m' & Hw & _ & Hset & _).
  exists calls, d', m'. split; [exact Hw|].
  apply Hset; [simpl; lia | reflexivity | reflexivity].
Defined.

(** ** The halt loop *)

Local Open Scope list_scope.

Lemma events_blink_pulses (n : nat) (pin : Z) :
  forall m, events (blink_pulses n pin m) = events m ++ pulse_events n pin.
Proof.
  induction n as [|n IH]; intros m; cbn [blink_pulses pulse_events].
  - now rewrite app_nil_r.
  - rewrite IH. cbn [emit events]. rewrite <- !app_assoc. reflexivity.
Qed.

Lemma events_blink_forever (budget : nat) (n pin : Z) :
  forall m,
    events (blink_forever budget n pin m)
    = events m ++ rounds_events budget n pin.
Proof.
  induction budget as [|budget IH]; intros m;
    cbn [blink_forever rounds_events].
  - now rewrite app_nil_r.
  - rewrite IH. cbn [emit events]. rewrite events_blink_pulses.
    unfold round_events. rewrite <- !app_assoc. reflexivity.
Qed.

Lemma blink_pulses_keeps (n : nat) (pin : Z) :
  forall m,
    _g_current_heap_end (blink_pulses n pin m) = _g_current_heap_end m
    /\ reent_errno (blink_pulses n pin m) = reent_errno m
    /\ console (blink_pulses n pin m) = console m.
Proof.
  induction n as [|n IH]; intros m; cbn [blink_pulses]; [now repeat split|].
  destruct (IH (emit (ev_delay_ms 300)
                  (emit (ev_digitalWriteFast pin false)
                     (emit (ev_delay_ms 300)
                        (emit (ev_digitalWriteFast pin true) m)))))
    as (H1 & H2 & H3).
  rewrite H1, H2, H3. now repeat split.
Qed.

Lemma blink_forever_keeps (budget : nat) (n pin : Z) :
  forall m,
    _g_current_heap_end (blink_forever budget n pin m) = _g_current_heap_end m
    /\ reent_errno (blink_forever budget n pin m) = reent_errno m
    /\ console (blink_forever budget n pin m) = console m.
Proof.
  induction budget as [|budget IH]; intros m; cbn [blink_forever];
    [now repeat split|].
  destruct (IH (emit (ev_delay_ms 2000) (blink_pulses (Z.to_nat n) pin m)))
    as (H1 & H2 & H3).
  destruct (blink_pulses_keeps (Z.to_nat n) pin m) as (K1 & K2 & K3).
  rewrite H1, H2, H3. cbn [emit _g_current_heap_end reent_errno console].
  now repeat split.
Qed.

(** [error_blink] has no exit: whatever the budget, it is still running,
    and it has gone through as many rounds as the budget allows. *)
Lemma error_blink_runs (pin : Z) (budget : nat) (n : Z) (m : machine) :
  exists m',
    error_blink pin budget n m = Running m'
    /\ events m'
       = events m ++ halt_prologue pin ++ rounds_events budget (n mod 256) pin
    /\ _g_current_heap_end m' = _g_current_heap_end m
    /\ reent_errno m' = reent_errno m
    /\ console m' = console m.
Proof.
  unfold error_blink. eexists. split; [reflexivity|].
  rewrite events_blink_forever. cbn [emit events halt_prologue].
  rewrite <- !app_assoc. split; [reflexivity|].
  match goal with
  | |- context [blink_forever budget ?k pin ?m0] =>
      destruct (blink_forever_keeps budget k pin m0) as (K1 & K2 & K3)
  end.
  rewrite K1, K2, K3. now repeat split.
Qed.


(** ** The heap grower *)

Lemma exc_printf_no_mem (incr : Z) :
  exc_printf
    ("_sbrk_r(%d): no mem available." ++ String CR (String LF ""))%string
    [va_int incr]
  = Some (no_mem_message incr).
Proof.
  rewrite exc_printf_run. cbn [append].
  do 8 (rewrite run_literal by reflexivity).
  rewrite run_d. rewrite run_plain by reflexivity. reflexivity.
Qed.

Section HeapGrower.

Variables (_ebss _estack : Z) (hook : bool) (pin : Z).

Local Abbreviation sbrk := (_sbrk_r _ebss _estack hook pin).
Local Abbreviation no_mem := (sbrk_no_mem _ebss _estack).

(** A request that passes the test. *)
Lemma sbrk_granted (budget : nat) (incr : Z) (m : machine) :
  no_mem (_g_current_heap_end m) incr = false ->
  exists m',
    sbrk budget incr m = Returned (_g_current_heap_end m) m'
    /\ _g_current_heap_end m' = uint32 (_g_current_heap_end m + incr)
    /\ reent_errno m' = reent_errno m
    /\ PRIMASK m' = PRIMASK m
    /\ console m' = console m
    /\ events m' = events m.
Proof.
  intros H. unfold _sbrk_r. cbn [set_PRIMASK _g_current_heap_end PRIMASK].
  rewrite H. eexists. split; [reflexivity|]. now repeat split.
Qed.

(** A request that fails the test, without the hook. *)
Lemma sbrk_refused_errno (budget : nat) (incr : Z) (m : machine) :
  hook = false ->
  no_mem (_g_current_heap_end m) incr = true ->
  exists m',
    sbrk budget incr m = Returned SBRK_FAILED m'
    /\ _g_current_heap_end m' = _g_current_heap_end m
    /\ reent_errno m' = ENOMEM
    /\ PRIMASK m' = PRIMASK m
    /\ console m' = (console m ++ no_mem_message incr)%string
    /\ events m' = events m.
Proof.
  intros Hh H. unfold _sbrk_r. cbn [set_PRIMASK _g_current_heap_end PRIMASK].
  rewrite H, Hh. unfold EXC_PRINTF. rewrite exc_printf_no_mem.
  cbn [obind]. eexists. split; [reflexivity|]. now repeat split.
Qed.

(** A request that fails the test, with the hook: the call does not
    return. *)
Lemma sbrk_refused_hook (budget : nat) (incr : Z) (m : machine) :
  hook = true ->
  no_mem (_g_current_heap_end m) incr = true ->
  exists m',
    sbrk budget incr m = Running m'
    /\ _g_current_heap_end m' = _g_current_heap_end m
    /\ reent_errno m' = reent_errno m
    /\ console m' = (console m ++ no_mem_message incr)%string
    /\ events m'
       = events m ++ halt_prologue pin ++ rounds_events budget 2 pin.
Proof.
  intros Hh H. unfold _sbrk_r. cbn [set_PRIMASK _g_current_heap_end PRIMASK].
  rewrite H, Hh. unfold EXC_PRINTF. rewrite exc_printf_no_mem.
  cbn [obind]. unfold vApplicationMallocFailedHook.
  match goal with
  | |- context [error_blink pin budget 2 ?m0] =>
      destruct (error_blink_runs pin budget 2 m0) as (m' & E & H1 & H2 & H3 & H4)
  end.
  rewrite E. cbn [obind]. exists m'. split; [reflexivity|].
  rewrite H1, H2, H3, H4. now repeat split.
Qed.

End HeapGrower.

Section HeapRegion.

Variables (_ebss _estack : Z).
Hypothesis ebss_address : 0 <= _ebss.
Hypothesis estack_address : _estack < 2 ^ 32.

Local Abbreviation no_mem := (sbrk_no_mem _ebss _estack).
Local Abbreviation inv := (heap_inv _ebss _estack).

(** The test is passed exactly by the requests whose projected boundary, a
    32-bit address, lies in the region. *)
Lemma sbrk_no_mem_spec (incr : Z) (m : machine) :
  inv m ->
  (no_mem (_g_current_heap_end m) incr = false
   <-> _ebss <= uint32 (_g_current_heap_end m + incr) < _estack - 8192).
Proof.
  unfold heap_inv, sbrk_no_mem. intros Hm.
  assert (E : uint32 (_estack - 8192) = _estack - 8192).
  { unfold uint32. apply Z.mod_small. lia. }
  rewrite E, orb_false_iff, Z.geb_leb, Z.leb_gt, Z.ltb_ge. lia.
Qed.

(** Without wrap-around: when the stack lies in the lower half of the
    address space, the projected boundary is the plain sum. *)
Lemma sbrk_no_mem_plain (incr : Z) (m : machine) :
  _estack <= 2 ^ 31 -> - 2 ^ 31 <= incr < 2 ^ 31 -> inv m ->
  (no_mem (_g_current_heap_end m) incr = false
   <-> _ebss <= _g_current_heap_end m + incr < _estack - 8192).
Proof.
  intros Hs Hi Hm. rewrite sbrk_no_mem_spec by assumption.
  unfold heap_inv in Hm. unfold uint32.
  change (2 ^ 32) with 4294967296. change (2 ^ 31) with 2147483648 in *.
  change (2 ^ 32) with 4294967296 in estack_address.
  Z.div_mod_to_equations. lia.
Qed.

Lemma sbrk_step_inv (hook : bool) (pin : Z) (budget : nat) (incr : Z)
    (m : machine) :
  inv m ->
  exists m',
    (_sbrk_r _ebss _estack hook pin budget incr m
       = Returned (_g_current_heap_end m) m'
     /\ no_mem (_g_current_heap_end m) incr = false
     /\ _g_current_heap_end m' = uint32 (_g_current_heap_end m + incr)
     \/ (_sbrk_r _ebss _estack hook pin budget incr m = Returned SBRK_FAILED m'
         /\ hook = false
         \/ _sbrk_r _ebss _estack hook pin budget incr m = Running m'
            /\ hook = true)
        /\ no_mem (_g_current_heap_end m) incr = true
        /\ _g_current_heap_end m' = _g_current_heap_end m)
    /\ inv m'.
Proof.
  intros Hm. destruct (no_mem (_g_current_heap_end m) incr) eqn:E.
  - destruct hook eqn:Hh.
    + destruct (sbrk_refused_hook _ebss _estack true pin budget incr m
                  eq_refl E) as (m' & H1 & H2 & _).
      exists m'. split; [right; split; [right; now split | now split]|].
      unfold heap_inv in *. now rewrite H2.
    + destruct (sbrk_refused_errno _ebss _estack false pin budget incr m
                  eq_refl E) as (m' & H1 & H2 & _).
      exists m'. split; [right; split; [left; now split | now split]|].
      unfold heap_inv in *. now rewrite H2.
  - destruct (sbrk_granted _ebss _estack hook pin budget incr m E)
      as (m' & H1 & H2 & _).
    exists m'. split; [left; now repeat split|].
    unfold heap_inv. rewrite H2. now apply sbrk_no_mem_spec.
Qed.

Lemma sbrk_states_inv (hook : bool) (pin : Z) (budget : nat)
    (incrs : list Z) :
  forall m, inv m ->
    Forall inv (sbrk_states _ebss _estack hook pin budget incrs m).
Proof.
  induction incrs as [|incr rest IH]; intros m Hm; cbn [sbrk_states];
    [constructor|].
  destruct (sbrk_step_inv hook pin budget incr m Hm)
    as (m' & [(E & _) | ([(E & _) | (E & _)] & _)] & Hi); rewrite E.
  - constructor; [exact Hi | apply IH, Hi].
  - constructor; [exact Hi | apply IH, Hi].
  - constructor; [exact Hi | constructor].
Qed.

End HeapRegion.

Lemma heap_inv_boot (_ebss _estack : Z) :
  0 <= _ebss -> _ebss + 32 < _estack - 8192 -> _estack < 2 ^ 32 ->
  _g_current_heap_end (boot _ebss) = _ebss + 32
  /\ heap_inv _ebss _estack (boot _ebss).
Proof.
  intros H0 H1 H2.
  assert (E : _g_current_heap_end (boot _ebss) = _ebss + 32).
  { cbn [boot _g_current_heap_end]. unfold initial_heap_end, uint32.
    apply Z.mod_small. lia. }
  split; [exact E|]. unfold heap_inv. rewrite E. lia.
Qed.

(** C2 (as amended): with the region laid out so that the initial boundary
    [_ebss + 32] lies below [_estack - 8192], every state reached by a
    sequence of heap-growth calls from start-up has
    [_ebss <= current_heap_end < _estack - 8192]: the lower bound is
    [_ebss], not the initial boundary, and the upper bound is strict.  A
    request is refused exactly when its projected boundary, as a 32-bit
    address, leaves that range, and a refused request leaves the boundary as
    it was. *)
Theorem sbrk_heap_invariant (_ebss _estack : Z) (hook : bool) (pin : Z)
    (budget : nat) :
  0 <= _ebss -> _ebss + 32 < _estack - 8192 -> _estack < 2 ^ 32 ->
  (forall incrs,
      Forall (heap_inv _ebss _estack)
        (sbrk_states _ebss _estack hook pin budget incrs (boot _ebss)))
  /\ (forall m incr,
        heap_inv _ebss _estack m ->
        (sbrk_no_mem _ebss _estack (_g_current_heap_end m) incr = false
         <-> _ebss <= uint32 (_g_current_heap_end m + incr) < _estack - 8192)
        /\ exists m',
             (_sbrk_r _ebss _estack hook pin budget incr m
                = Returned (_g_current_heap_end m) m'
              /\ sbrk_no_mem _ebss _estack (_g_current_heap_end m) incr = false
              /\ _g_current_heap_end m'
                 = uint32 (_g_current_heap_end m + incr)
              \/ (_sbrk_r _ebss _estack hook pin budget incr m
                    = Returned SBRK_FAILED m' /\ hook = false
                  \/ _sbrk_r _ebss _estack hook pin budget incr m
                       = Running m' /\ hook = true)
                 /\ sbrk_no_mem _ebss _estack (_g_current_heap_end m) incr
                    = true
                 /\ _g_current_heap_end m' = _g_current_heap_end m)
             /\ heap_inv _ebss _estack m').
Proof.
  intros H0 H1 H2. split.
  - intros incrs. apply sbrk_states_inv; try assumption.
    now apply heap_inv_boot.
  - intros m incr Hm. split.
    + now apply sbrk_no_mem_spec.
    + now apply sbrk_step_inv.
Qed.

Lemma sbrk_heap_invariant_witness :
  Forall (heap_inv 536887296 537395200)
    (sbrk_states 536887296 537395200 false 13 0 [4096; -8192; 65536; -32]
       (boot 536887296)).
Proof.
  apply (sbrk_heap_invariant 536887296 537395200 false 13 0); simpl; lia.
Defined.

(** C2 (as stated) fails: a negative increment takes the boundary below the
    initial boundary [_ebss + 32], down to [_ebss]. *)
Lemma sbrk_below_initial_boundary :
  exists m',
    _sbrk_r 536887296 537395200 false 13 0 (-32) (boot 536887296)
    = Returned 536887328 m'
    /\ _g_current_heap_end m' = 536887296
    /\ ~ (initial_heap_end 536887296 <= _g_current_heap_end m').
Proof.
  eexists. split; [reflexivity|]. split; [reflexivity|].
  cbn. intros H. apply H. reflexivity.
Qed.

(** C3 (as amended): a refused request never changes the boundary; without
    the allocation-failure hook it sets the caller's [_errno] to [ENOMEM]
    and returns [(void* )-1]; with the hook it calls the hook, which is
    [error_blink(2)], and does not return. *)
Theorem sbrk_refusal_outcome (_ebss _estack : Z) (hook : bool) (pin : Z)
    (budget : nat) (incr : Z) (m : machine) :
  sbrk_no_mem _ebss _estack (_g_current_heap_end m) incr = true ->
  exists m',
    _g_current_heap_end m' = _g_current_heap_end m
    /\ (if hook
        then _sbrk_r _ebss _estack hook pin budget incr m = Running m'
             /\ events m'
                = events m ++ halt_prologue pin ++ rounds_events budget 2 pin
             /\ reent_errno m' = reent_errno m
        else _sbrk_r _ebss _estack hook pin budget incr m
             = Returned SBRK_FAILED m'
             /\ SBRK_FAILED = 2 ^ 32 - 1
             /\ reent_errno m' = ENOMEM
             /\ events m' = events m).
Proof.
  intros H. destruct hook.
  - destruct (sbrk_refused_hook _ebss _estack true pin budget incr m eq_refl H)
      as (m' & E & H1 & H2 & _ & H4).
    exists m'. now repeat split.
  - destruct (sbrk_refused_errno _ebss _estack false pin budget incr m
                eq_refl H) as (m' & E & H1 & H2 & _ & _ & H5).
    exists m'. now repeat split.
Qed.

Lemma sbrk_refusal_outcome_witness :
  exists m',
    _g_current_heap_end m' = _g_current_heap_end (boot 536887296)
    /\ _sbrk_r 536887296 537395200 false 13 0 1048576 (boot 536887296)
       = Returned SBRK_FAILED m'
    /\ SBRK_FAILED = 2 ^ 32 - 1
    /\ reent_errno m' = ENOMEM
    /\ events m' = events (boot 536887296).
Proof.
  apply (sbrk_refusal_outcome 536887296 537395200 false 13 0 1048576
           (boot 536887296)).
  reflexivity.
Defined.

(** C3 (as stated) fails with the hook configured: the refused request
    calls the hook and no step budget makes the call return the sentinel. *)
Lemma sbrk_hook_no_sentinel :
  ~ exists budget m',
      _sbrk_r 536887296 537395200 true 13 budget 1048576 (boot 536887296)
      = Returned SBRK_FAILED m'.
Proof.
  intros (budget & m' & H).
  destruct (sbrk_refused_hook 536887296 537395200 true 13 budget 1048576
              (boot 536887296) eq_refl eq_refl) as (m1 & E & _).
  rewrite E in H. discriminate H.
Qed.




(** ** Sequences of growing requests *)

Lemma sum_list_pos (l : list Z) : Forall (fun i => 0 < i) l -> 0 <= sum_list l.
Proof.
  induction 1 as [|i l Hi _ IH]; cbn [sum_list]; lia.
Qed.

Lemma prefix_sums_lower (l : list Z) :
  forall b, Forall (fun i => 0 < i) l -> Forall (fun p => b <= p) (prefix_sums b l).
Proof.
  induction l as [|i l IH]; intros b H; cbn [prefix_sums]; [constructor|].
  inversion H as [|? ? Hi Hl]; subst. constructor; [lia|].
  eapply Forall_impl; [|apply (IH (b + i) Hl)].
  intros p Hp. cbn beta in Hp. lia.
Qed.

Lemma prefix_sums_increasing (l : list Z) :
  forall b, Forall (fun i => 0 < i) l -> StronglySorted Z.lt (prefix_sums b l).
Proof.
  induction l as [|i l IH]; intros b H; cbn [prefix_sums]; [constructor|].
  inversion H as [|? ? Hi Hl]; subst. constructor; [apply IH, Hl|].
  eapply Forall_impl; [|apply (prefix_sums_lower l (b + i) Hl)].
  intros p Hp. cbn beta in Hp. lia.
Qed.

Lemma sbrk_calls_grow (_ebss _estack : Z) (hook : bool) (pin : Z)
    (budget : nat) (incrs : list Z) :
  0 <= _ebss -> _estack < 2 ^ 32 ->
  forall m,
    _ebss <= _g_current_heap_end m ->
    Forall (fun i => 0 < i) incrs ->
    _g_current_heap_end m + sum_list incrs < _estack - 8192 ->
    exists m',
      sbrk_calls _ebss _estack hook pin budget incrs m
      = Returned (prefix_sums (_g_current_heap_end m) incrs) m'
      /\ _g_current_heap_end m' = _g_current_heap_end m + sum_list incrs
      /\ map _g_current_heap_end
           (sbrk_states _ebss _estack hook pin budget incrs m)
         = map (fun pi => fst pi + snd pi)
             (combine (prefix_sums (_g_current_heap_end m) incrs) incrs).
Proof.
  intros H0 H1. induction incrs as [|incr rest IH]; intros m Hm Hp Hs.
  - exists m. cbn [sbrk_calls prefix_sums sum_list sbrk_states map combine].
    repeat split. lia.
  - inversion Hp as [|? ? Hi Hrest]; subst. cbn [sum_list] in Hs.
    pose proof (sum_list_pos rest Hrest) as Hr.
    assert (Hinv : heap_inv _ebss _estack m) by (unfold heap_inv; lia).
    assert (Hu : uint32 (_g_current_heap_end m + incr)
                 = _g_current_heap_end m + incr).
    { unfold uint32. apply Z.mod_small. lia. }
    assert (E : sbrk_no_mem _ebss _estack (_g_current_heap_end m) incr = false).
    { apply sbrk_no_mem_spec; try assumption. rewrite Hu. lia. }
    destruct (sbrk_granted _ebss _estack hook pin budget incr m E)
      as (m1 & E1 & G1 & _).
    rewrite Hu in G1.
    destruct (IH m1) as (m' & E2 & G2 & G3); [lia | exact Hrest | lia |].
    exists m'. cbn [sbrk_calls sbrk_states prefix_sums sum_list].
    rewrite E1. cbn [obind]. rewrite E2. cbn [obind].
    rewrite <- G1. split; [reflexivity|]. split; [lia|].
    cbn [map combine fst snd]. rewrite G3. now rewrite G1.
Qed.

(** C4 (as amended): for every sequence of positive increments whose sum is
    less than the size of the region, [(_estack - 8192) - (_ebss + 32)],
    every call succeeds; the values returned are the initial boundary plus
    the sum of the increments before, hence strictly increasing; and the
    boundary after each call is the value it returned plus its increment. *)
Theorem sbrk_growth_sequence (_ebss _estack : Z) (hook : bool) (pin : Z)
    (budget : nat) (incrs : list Z) :
  0 <= _ebss -> _estack < 2 ^ 32 ->
  Forall (fun i => 0 < i) incrs ->
  sum_list incrs < (_estack - 8192) - (_ebss + 32) ->
  exists m',
    sbrk_calls _ebss _estack hook pin budget incrs (boot _ebss)
    = Returned (prefix_sums (_ebss + 32) incrs) m'
    /\ StronglySorted Z.lt (prefix_sums (_ebss + 32) incrs)
    /\ map _g_current_heap_end
         (sbrk_states _ebss _estack hook pin budget incrs (boot _ebss))
       = map (fun pi => fst pi + snd pi)
           (combine (prefix_sums (_ebss + 32) incrs) incrs)
    /\ _g_current_heap_end m' = _ebss + 32 + sum_list incrs.
Proof.
  intros H0 H1 Hp Hs.
  pose proof (sum_list_pos incrs Hp) as Hn.
  destruct (heap_inv_boot _ebss _estack H0 ltac:(lia) H1) as [Eb _].
  destruct (sbrk_calls_grow _ebss _estack hook pin budget incrs H0 H1
              (boot _ebss)) as (m' & E & G1 & G2);
    [rewrite Eb; lia | exact Hp | rewrite Eb; lia |].
  rewrite Eb in *. exists m'. split; [exact E|].
  split; [apply prefix_sums_increasing, Hp|]. split; [exact G2 | exact G1].
Qed.

Lemma sbrk_growth_sequence_witness :
  exists m',
    sbrk_calls 536887296 537395200 false 13 0 [4096; 16; 65536]
      (boot 536887296)
    = Returned (prefix_sums (536887296 + 32) [4096; 16; 65536]) m'
    /\ StronglySorted Z.lt (prefix_sums (536887296 + 32) [4096; 16; 65536])
    /\ map _g_current_heap_end
         (sbrk_states 536887296 537395200 false 13 0 [4096; 16; 65536]
            (boot 536887296))
       = map (fun pi => fst pi + snd pi)
           (combine (prefix_sums (536887296 + 32) [4096; 16; 65536])
              [4096; 16; 65536])
    /\ _g_current_heap_end m' = 536887296 + 32 + sum_list [4096; 16; 65536].
Proof.
  apply (sbrk_growth_sequence 536887296 537395200 false 13 0
           [4096; 16; 65536]).
  - lia.
  - simpl; lia.
  - repeat constructor.
  - simpl; lia.
Defined.

(** C4 (as stated) fails: a request that takes the boundary to the very end
    of the region is refused, although the increments sum to the size of
    the region; and requests of zero bytes return the same boundary
    twice. *)
Lemma sbrk_sequence_not_as_stated :
  sum_list [499680] <= (537395200 - 8192) - initial_heap_end 536887296
  /\ (exists m',
        sbrk_calls 536887296 537395200 false 13 0 [499680] (boot 536887296)
        = Returned [SBRK_FAILED] m'
        /\ _g_current_heap_end m' = initial_heap_end 536887296)
  /\ (exists m',
        sbrk_calls 536887296 537395200 false 13 0 [0; 0] (boot 536887296)
        = Returned [536887328; 536887328] m').
Proof.
  split; [cbv; discriminate|].
  split; eexists; [split|]; reflexivity.
Qed.

(** ** The wall clock *)

Lemma us_of_timersub (a b : timeval) :
  us_of_timeval (timersub a b) = us_of_timeval a - us_of_timeval b.
Proof.
  unfold timersub, us_of_timeval.
  destruct (tv_usec a - tv_usec b <? 0); cbn [tv_sec tv_usec]; lia.
Qed.

Lemma us_of_timeradd (a b : timeval) :
  us_of_timeval (timeradd a b) = us_of_timeval a + us_of_timeval b.
Proof.
  unfold timeradd, us_of_timeval.
  destruct (tv_usec a + tv_usec b >=? 1000000); cbn [tv_sec tv_usec]; lia.
Qed.

Lemma us_of_timeval_of_us (now_us : Z) :
  us_of_timeval (timeval_of_us now_us) = now_us.
Proof.
  unfold us_of_timeval, timeval_of_us. cbn [tv_sec tv_usec].
  Z.div_mod_to_equations. lia.
Qed.

Lemma timercmp_lt_now_rtc (now_us rtc : Z) :
  timercmp_lt (timeval_of_us now_us) (mk_timeval rtc 0) = true
  <-> now_us < rtc * 1000000.
Proof.
  unfold timercmp_lt, timeval_of_us. cbn [tv_sec tv_usec].
  destruct (now_us / 1000000 =? rtc) eqn:E.
  - apply Z.eqb_eq in E. rewrite Z.ltb_lt. Z.div_mod_to_equations. lia.
  - apply Z.eqb_neq in E. rewrite Z.ltb_lt. Z.div_mod_to_equations. lia.
Qed.

(** What the two functions compute together: the offset stored is the
    distance between the two clocks, whichever is ahead, and the time of
    day is the monotonic time plus that distance. *)
Lemma gettimeofday_after_sync (now_us rtc later_us : Z) (m : machine) :
  us_of_timeval (fst (_gettimeofday later_us (sync_rtc now_us rtc m)))
  = later_us + Z.abs (rtc * 1000000 - now_us).
Proof.
  unfold _gettimeofday, sync_rtc. cbn [fst].
  rewrite us_of_timeradd, us_of_timeval_of_us.
  pose proof (timercmp_lt_now_rtc now_us rtc) as Hc.
  destruct (timercmp_lt (timeval_of_us now_us) (mk_timeval rtc 0));
    cbn [set_offset offset_]; rewrite us_of_timersub, us_of_timeval_of_us;
    unfold us_of_timeval; cbn [tv_sec tv_usec].
  - assert (now_us < rtc * 1000000) by now apply Hc. lia.
  - assert (~ now_us < rtc * 1000000) by (intros H; apply Hc in H; discriminate).
    lia.
Qed.

(** The branch taken when the real-time clock is ahead follows the
    convention of the specification. *)
Lemma gettimeofday_after_sync_rtc_ahead (now_us rtc later_us : Z)
    (m : machine) :
  now_us <= rtc * 1000000 ->
  us_of_timeval (fst (_gettimeofday later_us (sync_rtc now_us rtc m)))
  = rtc * 1000000 + (later_us - now_us).
Proof. intros H. rewrite gettimeofday_after_sync. lia. Qed.

(** C1, at the input where the code departs from it: the monotonic clock
    reads 5 s, the real-time clock 2 s.  [sync_rtc] stores +3 s where the
    convention asks for -3 s, and a query at the same instant yields 8 s
    instead of 2 s. *)
Theorem sync_rtc_monotonic_ahead_wrong_sign :
  offset_ (sync_rtc 5000000 2 (boot 0)) = mk_timeval 3 0
  /\ _gettimeofday 5000000 (sync_rtc 5000000 2 (boot 0)) = (mk_timeval 8 0, 0)
  /\ us_of_timeval (timeval_of_us 5000000)
     + us_of_timeval (offset_ (sync_rtc 5000000 2 (boot 0)))
     <> us_of_timeval (mk_timeval 2 0).
Proof.
  split; [reflexivity|]. split; [reflexivity|]. cbv. discriminate.
Qed.

(** ** The scheduler bridge *)

(** C9: with no yield target registered, or with the scheduler not started,
    [yield] makes the busy-yield call of the scheduler and nothing else;
    with no event responder registered, [event_responder_set_pend_sv] does
    nothing at all. *)
Theorem bridge_without_targets (state : scheduler_state)
    (inside_interrupt : bool) (m : machine) :
  (g_yield_task m = 0 ->
   yield state inside_interrupt m = emit ev_freertos_yield m)
  /\ yield taskSCHEDULER_NOT_STARTED inside_interrupt m
     = emit ev_freertos_yield m
  /\ events (emit ev_freertos_yield m) = events m ++ [ev_freertos_yield]
  /\ (g_event_responder_task m = 0 -> event_responder_set_pend_sv m = m).
Proof.
  split; [|split; [|split]].
  - intros H. unfold yield. rewrite H. cbn [Z.eqb negb].
    now rewrite andb_false_r.
  - reflexivity.
  - reflexivity.
  - intros H. unfold event_responder_set_pend_sv. now rewrite H.
Qed.

Lemma bridge_without_targets_witness :
  yield taskSCHEDULER_RUNNING true (boot 0) = emit ev_freertos_yield (boot 0)
  /\ event_responder_set_pend_sv (boot 0) = boot 0.
Proof.
  destruct (bridge_without_targets taskSCHEDULER_RUNNING true (boot 0))
    as (Hy & _ & _ & He).
  split; [apply Hy | apply He]; reflexivity.
Defined.

(** * Further properties *)

(** ** Numbers printed and read back *)

Lemma decimal_value_from_acc (s : string) :
  forall acc,
    decimal_value_from acc s
    = acc * 10 ^ Z.of_nat (String.length s) + decimal_value s.
Proof.
  unfold decimal_value. induction s as [|c s IH]; intros acc.
  - cbn. lia.
  - cbn [decimal_value_from String.length].
    rewrite (IH (acc * 10 + digit_value c)), (IH (0 * 10 + digit_value c)).
    rewrite Nat2Z.inj_succ, Z.pow_succ_r by lia. ring.
Qed.

Lemma decimal_value_String (c : ascii) (s : string) :
  decimal_value (String c s)
  = digit_value c * 10 ^ Z.of_nat (String.length s) + decimal_value s.
Proof.
  unfold decimal_value at 1. cbn [decimal_value_from].
  rewrite decimal_value_from_acc. ring.
Qed.

Lemma digit_value_digit_char (d : Z) :
  0 <= d < 10 -> digit_value (char_of_Z (d + Z_of_char "0"%char)) = d.
Proof.
  intros H.
  assert (d = 0 \/ d = 1 \/ d = 2 \/ d = 3 \/ d = 4 \/ d = 5 \/ d = 6
          \/ d = 7 \/ d = 8 \/ d = 9) as Hd by lia.
  repeat (destruct Hd as [-> | Hd]; [reflexivity|]). now subst d.
Qed.

(** The digits [exc_puint] stores stand for the number it was given. *)
Lemma exc_puint_loop_value (fuel : nat) :
  forall num buf,
    (0 < fuel)%nat -> 0 <= num < 10 ^ Z.of_nat fuel ->
    decimal_value (exc_puint_loop fuel num buf)
    = num * 10 ^ Z.of_nat (String.length buf) + decimal_value buf.
Proof.
  induction fuel as [|fuel IH]; intros num buf Hf H; [lia|].
  cbn [exc_puint_loop].
  pose proof (Z.mod_pos_bound num 10 ltac:(lia)) as Hm.
  pose proof (Z.div_mod num 10 ltac:(lia)) as Hdm.
  assert (Hv : decimal_value
                 (String (char_of_Z (num mod 10 + Z_of_char "0"%char)) buf)
               = num mod 10 * 10 ^ Z.of_nat (String.length buf)
                 + decimal_value buf).
  { rewrite decimal_value_String, digit_value_digit_char by assumption.
    reflexivity. }
  destruct (num / 10 =? 0) eqn:E.
  - apply Z.eqb_eq in E. rewrite Hv. replace (num mod 10) with num by lia.
    reflexivity.
  - apply Z.eqb_neq in E.
    rewrite Nat2Z.inj_succ, Z.pow_succ_r in H by lia.
    assert (Hq : 0 <= num / 10 < 10 ^ Z.of_nat fuel).
    { split; [apply Z.div_pos; lia|]. apply Z.div_lt_upper_bound; lia. }
    assert (Hfu : (0 < fuel)%nat).
    { destruct fuel; [|lia]. change (10 ^ Z.of_nat 0) with 1 in Hq. lia. }
    rewrite (IH _ _ Hfu Hq), Hv. cbn [String.length].
    rewrite Nat2Z.inj_succ, Z.pow_succ_r by lia.
    set (P := 10 ^ Z.of_nat (String.length buf)).
    rewrite Hdm at 3. ring.
Qed.

Lemma exc_puint_loop_length (fuel : nat) :
  forall num buf,
    (0 < fuel)%nat ->
    (String.length buf < String.length (exc_puint_loop fuel num buf)
     <= fuel + String.length buf)%nat.
Proof.
  induction fuel as [|fuel IH]; intros num buf Hf; [lia|].
  cbn [exc_puint_loop]. destruct (num / 10 =? 0); [cbn [String.length]; lia|].
  destruct fuel as [|fuel]; [cbn [exc_puint_loop String.length]; lia|].
  match goal with
  | |- context [exc_puint_loop (S fuel) ?n ?b] =>
      pose proof (IH n b ltac:(lia)) as Hl
  end.
  cbn [String.length] in Hl. lia.
Qed.

Lemma exc_puint_loop_no_leading_zero (fuel : nat) :
  forall num buf,
    0 < num < 10 ^ Z.of_nat fuel ->
    deref (exc_puint_loop fuel num buf) <> "0"%char.
Proof.
  induction fuel as [|fuel IH]; intros num buf H.
  - change (10 ^ Z.of_nat 0) with 1 in H. lia.
  - cbn [exc_puint_loop].
    pose proof (Z.mod_pos_bound num 10 ltac:(lia)) as Hm.
    pose proof (Z.div_mod num 10 ltac:(lia)) as Hdm.
    destruct (num / 10 =? 0) eqn:E.
    + apply Z.eqb_eq in E. cbn [deref]. intros Hc.
      apply (f_equal digit_value) in Hc.
      rewrite digit_value_digit_char in Hc by assumption.
      change (digit_value "0") with 0 in Hc. lia.
    + apply Z.eqb_neq in E. apply IH.
      rewrite Nat2Z.inj_succ, Z.pow_succ_r in H by lia.
      split.
      * pose proof (Z.div_pos num 10 ltac:(lia) ltac:(lia)). lia.
      * apply Z.div_lt_upper_bound; lia.
Qed.

Section FormatterOutputsMore.

Variable inner : string -> emitted.
Local Abbreviation nested := (fun s : string => run inner s []).

Lemma run_u (rest : string) (v : Z) (args : list va_item) :
  run nested (String "%" (String "u" rest)) (va_int v :: args)
  = (o2 <- run nested rest args ;;
     Some (exc_puint_loop 11 (uint32 v) "" ++ o2)%string).
Proof.
  rewrite run_percent by reflexivity.
  change (skip_modifiers (String "u" rest)) with (String "u" rest).
  cbn [deref next]. cbn [Ascii.eqb Bool.eqb NUL]. cbv iota zeta.
  destruct (exc_puint_run inner (uint32 v)) as [E _].
  rewrite E. reflexivity.
Qed.

Lemma run_s (rest s : string) (args : list va_item) :
  run nested (String "%" (String "s" rest)) (va_str s :: args)
  = (o1 <- run inner s [] ;; o2 <- run nested rest args ;;
     Some (o1 ++ o2)%string).
Proof.
  rewrite run_percent by reflexivity.
  change (skip_modifiers (String "s" rest)) with (String "s" rest).
  cbn [deref next]. cbn [Ascii.eqb Bool.eqb NUL]. cbv iota zeta.
  reflexivity.
Qed.

End FormatterOutputsMore.

(** X1: ["%u"] prints the argument, read as a 32-bit unsigned number, in
    decimal: one to ten digits that stand for that number, with no leading
    zero unless the number is zero. *)
Theorem exc_printf_u_decimal (v : Z) :
  exists s,
    exc_printf "%u" [va_int v] = Some s
    /\ decimal_value s = uint32 v
    /\ all_digits s = true
    /\ (1 <= String.length s <= 10)%nat
    /\ (uint32 v <> 0 -> deref s <> "0"%char).
Proof.
  pose proof (uint32_range v) as Hr. change (2 ^ 32) with 4294967296 in Hr.
  assert (H10 : 0 <= uint32 v < 10 ^ Z.of_nat 10)
    by (change (10 ^ Z.of_nat 10) with 10000000000; lia).
  exists (exc_puint_loop 11 (uint32 v) ""). split.
  { rewrite exc_printf_run, run_u, run_nil. cbn [bind].
    now rewrite append_nil_r. }
  change 11%nat with (10 + 1)%nat.
  rewrite (exc_puint_loop_enough 10 (uint32 v) "" 1 ltac:(lia) H10).
  split.
  { rewrite exc_puint_loop_value by (lia || assumption).
    cbn [String.length decimal_value decimal_value_from]. cbn. lia. }
  split; [apply exc_puint_loop_digits; reflexivity|].
  split.
  { pose proof (exc_puint_loop_length 10 (uint32 v) "" ltac:(lia)) as Hl.
    cbn [String.length] in Hl. lia. }
  intros Hnz. apply exc_puint_loop_no_leading_zero. lia.
Qed.

(** The digits of a 32-bit number, as [exc_puint] leaves them in [buf]. *)
Lemma exc_printf_u_digits (n : Z) :
  decimal_value (exc_puint_loop 11 (uint32 n) "") = uint32 n
  /\ all_digits (exc_puint_loop 11 (uint32 n) "") = true.
Proof.
  pose proof (uint32_range n) as Hr. change (2 ^ 32) with 4294967296 in Hr.
  split; [|apply exc_puint_loop_digits; reflexivity].
  rewrite exc_puint_loop_value.
  - cbn. lia.
  - lia.
  - change (10 ^ Z.of_nat 11) with 100000000000. lia.
Qed.

Lemma uint32_int32 (z : Z) : uint32 (int32 z) = uint32 z.
Proof.
  unfold uint32, int32. change (2 ^ 32) with 4294967296.
  change (2 ^ 31) with 2147483648. Z.div_mod_to_equations. lia.
Qed.

Lemma int32_range (z : Z) : - 2 ^ 31 <= int32 z < 2 ^ 31.
Proof.
  unfold int32. change (2 ^ 32) with 4294967296.
  change (2 ^ 31) with 2147483648. Z.div_mod_to_equations. lia.
Qed.

Lemma all_digits_deref_not_minus (s : string) :
  all_digits s = true -> (deref s =? "-")%char = false.
Proof.
  destruct s as [|c s]; [reflexivity|]. cbn [all_digits string_forallb deref].
  intros H. apply andb_prop in H as [Hc _].
  destruct (c =? "-")%char eqn:E; [|reflexivity].
  apply Ascii.eqb_eq in E. subst c. discriminate Hc.
Qed.

(** X2: for an argument other than the most negative [int] (whose negation
    in the source overflows), ["%d"] prints the argument, read as a 32-bit
    signed number, in decimal with a leading ['-'] when it is negative; what
    is printed stands for that number. *)
Theorem exc_printf_d_decimal (v : Z) :
  int32 v <> - 2 ^ 31 ->
  exc_printf "%d" [va_int v] = Some (signed_decimal v)
  /\ signed_value (signed_decimal v) = int32 v
  /\ (deref (signed_decimal v) = "-"%char <-> int32 v < 0).
Proof.
  intros Hmin. split.
  { rewrite exc_printf_run, run_d, run_nil. cbn [bind].
    now rewrite append_nil_r. }
  pose proof (int32_range v) as Hr. change (2 ^ 31) with 2147483648 in Hr.
  unfold signed_decimal. cbv zeta.
  set (n := if int32 v <? 0 then int32 (- int32 v) else int32 v).
  assert (Hn : uint32 n = Z.abs (int32 v)).
  { subst n. destruct (int32 v <? 0) eqn:E.
    - apply Z.ltb_lt in E. rewrite uint32_int32. unfold uint32.
      rewrite Z.mod_small; change (2 ^ 32) with 4294967296; lia.
    - apply Z.ltb_ge in E. unfold uint32.
      rewrite Z.mod_small; change (2 ^ 32) with 4294967296; lia. }
  destruct (exc_printf_u_digits n) as (Hv & Hd).
  assert (Hm := all_digits_deref_not_minus _ Hd).
  destruct (int32 v <? 0) eqn:E.
  - apply Z.ltb_lt in E. cbn [append]. split.
    + unfold signed_value. cbn [deref next]. change ("-" =? "-")%char with true.
      cbv iota. rewrite Hv, Hn. lia.
    + cbn [deref]. split; [intros _; exact E | reflexivity].
  - apply Z.ltb_ge in E. cbn [append]. split.
    + unfold signed_value. rewrite Hm, Hv, Hn. lia.
    + split; [|lia]. intros Hc. apply Ascii.eqb_neq in Hm. contradiction.
Qed.

Lemma exc_printf_d_decimal_witness :
  exc_printf "%d" [va_int 4294967254] = Some (signed_decimal 4294967254)
  /\ signed_value (signed_decimal 4294967254) = int32 4294967254
  /\ (deref (signed_decimal 4294967254) = "-"%char <-> int32 4294967254 < 0).
Proof.
  apply (exc_printf_d_decimal 4294967254). vm_compute. discriminate.
Defined.

Lemma hex_digit_value_upper (d : Z) :
  0 <= d < 16 -> hex_digit_value (upper_hex_digit d) = d.
Proof.
  intros H.
  assert (d = 0 \/ d = 1 \/ d = 2 \/ d = 3 \/ d = 4 \/ d = 5 \/ d = 6
          \/ d = 7 \/ d = 8 \/ d = 9 \/ d = 10 \/ d = 11 \/ d = 12
          \/ d = 13 \/ d = 14 \/ d = 15) as Hd by lia.
  repeat (destruct Hd as [-> | Hd]; [reflexivity|]). now subst d.
Qed.

Lemma hex_value_hex8_upper (u : Z) :
  0 <= u < 2 ^ 32 -> hex_value (hex8_upper u) = u.
Proof.
  intros H. change (2 ^ 32) with 4294967296 in H.
  unfold hex_value, hex8_upper. cbn [hex_value_from].
  rewrite !hex_digit_value_upper by (apply Z.mod_pos_bound; reflexivity).
  change (16 ^ 7) with 268435456. change (16 ^ 6) with 16777216.
  change (16 ^ 5) with 1048576. change (16 ^ 4) with 65536.
  change (16 ^ 3) with 4096. change (16 ^ 2) with 256.
  change (16 ^ 1) with 16. change (16 ^ 0) with 1.
  Z.div_mod_to_equations. lia.
Qed.

(** X3: what ["%x"] and ["%X"] print, read back as a hexadecimal number, is
    the argument as a 32-bit unsigned number; so two arguments print the
    same text exactly when they agree modulo 2^32. *)
Theorem exc_printf_x_value (v w : Z) :
  (exists s, exc_printf "%x" [va_int v] = Some s /\ hex_value s = uint32 v)
  /\ (exists s, exc_printf "%X" [va_int v] = Some s /\ hex_value s = uint32 v)
  /\ (exc_printf "%x" [va_int v] = exc_printf "%x" [va_int w]
      <-> uint32 v = uint32 w).
Proof.
  assert (Hx : forall z, exc_printf "%x" [va_int z]
                         = Some (hex8_upper (uint32 z)))
    by (intros z; apply exc_printf_x; now left).
  assert (HX : forall z, exc_printf "%X" [va_int z]
                         = Some (hex8_upper (uint32 z)))
    by (intros z; apply exc_printf_x; now right).
  assert (Hv : forall z, hex_value (hex8_upper (uint32 z)) = uint32 z)
    by (intros z; apply hex_value_hex8_upper, uint32_range).
  split; [eexists; split; [apply Hx | apply Hv]|].
  split; [eexists; split; [apply HX | apply Hv]|].
  rewrite !Hx. split.
  - intros E.
    apply (f_equal (fun o => match o with
                             | Some s => hex_value s
                             | None => 0
                             end)) in E.
    cbv beta iota in E. now rewrite !Hv in E.
  - intros E. now rewrite E.
Qed.

Lemma exc_printf_no_args (format : string) :
  exc_printf format [] = run (fun _ => None) format [].
Proof. rewrite exc_printf_run. apply exc_printf_loop_no_args. Qed.

(** X4: the argument of ["%s"] goes through the formatter itself, with no
    arguments: it is printed as [exc_printf] prints it as a format.  A
    string without ['%'] is printed as it is. *)
Theorem exc_printf_s_is_a_format (s rest : string) (args : list va_item) :
  exc_printf (String "%" (String "s" rest)) (va_str s :: args)
  = (o1 <- exc_printf s [] ;; o2 <- exc_printf rest args ;;
     Some (o1 ++ o2)%string)
  /\ exc_printf "%s" [va_str s] = exc_printf s []
  /\ (plain s = true -> exc_printf "%s" [va_str s] = Some s).
Proof.
  assert (E : forall r a,
             exc_printf (String "%" (String "s" r)) (va_str s :: a)
             = (o1 <- exc_printf s [] ;; o2 <- exc_printf r a ;;
                Some (o1 ++ o2)%string)).
  { intros r a. rewrite exc_printf_no_args, !exc_printf_run. apply run_s. }
  assert (E0 : exc_printf "%s" [va_str s] = exc_printf s []).
  { rewrite E. destruct (exc_printf s []) as [o|]; [|reflexivity].
    cbn. now rewrite append_nil_r. }
  split; [apply E|]. split; [exact E0|].
  intros Hp. rewrite E0, exc_printf_run. now apply run_plain.
Qed.

Lemma exc_printf_s_is_a_format_witness :
  exc_printf "%s" [va_str "line 12, column 3"] = Some "line 12, column 3".
Proof.
  apply (exc_printf_s_is_a_format "line 12, column 3" "" []). reflexivity.
Defined.

(** X5: text without ['%'] at the head of a format is printed as it is, and
    the rest of the format is handled as if it came alone, with all the
    arguments. *)
Theorem exc_printf_plain_prefix (text format : string) (args : list va_item) :
  plain text = true ->
  exc_printf (text ++ format) args
  = (out <- exc_printf format args ;; Some (text ++ out)%string).
Proof.
  intros Hp. rewrite (exc_printf_run format), (exc_printf_run (_ ++ _)).
  induction text as [|c text IH].
  - cbn [append]. destruct (run _ format args); reflexivity.
  - cbn [plain string_forallb] in Hp. apply andb_prop in Hp as [Hc Hp].
    unfold plain_char in Hc. apply andb_prop in Hc as [H1 H2].
    apply negb_true_iff in H1, H2.
    cbn [append]. rewrite run_literal by assumption.
    rewrite (IH Hp). destruct (run _ format args); reflexivity.
Qed.

Lemma exc_printf_plain_prefix_witness :
  exc_printf ("depth = " ++ "%d") [va_int 7]
  = (out <- exc_printf "%d" [va_int 7] ;; Some ("depth = " ++ out)%string).
Proof.
  apply (exc_printf_plain_prefix "depth = " "%d" [va_int 7]). reflexivity.
Defined.

(** X6: a ['%'] followed by a character that is neither a modifier the
    formatter skips nor a conversion it knows prints nothing and fetches no
    argument: the two characters are dropped.  A ['%'] and its modifiers at
    the very end of the format end the output. *)
Theorem exc_printf_unknown_conversion (c : ascii) (rest : string)
    (minus long : bool) (width : string) (args : list va_item) :
  ((c =? NUL)%char = false -> (c =? "%")%char = false ->
   (c =? "-")%char = false -> (c =? "l")%char = false ->
   is_digit c = false -> is_conversion c = false ->
   exc_printf (String "%" (String c rest)) args = exc_printf rest args)
  /\ (all_digits width = true ->
      exc_printf (String "%" (modifiers minus width long)) args = Some "").
Proof.
  split.
  - intros Hn Hp Hm Hl Hd Hc. rewrite !exc_printf_run.
    rewrite run_percent by exact Hp.
    assert (Hs : skip_modifiers (String c rest) = String c rest).
    { unfold skip_modifiers. cbn [deref]. rewrite Hm. cbn [skip_digits].
      rewrite Hd. cbn [deref]. now rewrite Hl. }
    rewrite Hs. cbv zeta. cbn [deref next]. rewrite Hn.
    unfold is_conversion in Hc. repeat apply orb_false_elim in Hc as [Hc ?].
    repeat match goal with
           | H : (c =? _)%char = false |- _ => rewrite H; clear H
           end.
    reflexivity.
  - intros Hw. rewrite exc_printf_run.
    assert (E : modifiers minus width long
                = ((if minus then "-" else "") ++ width
                   ++ (if long then "l" else ""))%string) by reflexivity.
    assert (Hs : skip_modifiers (modifiers minus width long) = ""
                 /\ (deref (modifiers minus width long) =? "%")%char = false).
    { rewrite E. unfold skip_modifiers.
      assert (Hl : is_digit (deref (if long then "l" else "")) = false
                   /\ (deref (if long then "l" else "") =? "-")%char = false
                   /\ (deref (if long then "l" else "") =? "%")%char = false
                   /\ (if (deref (if long then "l" else "") =? "l")%char
                       then next (if long then "l" else "")
                       else (if long then "l" else "")) = "")
        by (destruct long; repeat split; reflexivity).
      destruct Hl as (L1 & L2 & L3 & L4).
      destruct minus; cbn [append deref next].
      - change ("-" =? "-")%char with true. cbv iota.
        rewrite skip_digits_app by assumption. now rewrite L4.
      - rewrite (deref_app_digits width _ "-" Hw eq_refl L2).
        rewrite skip_digits_app by assumption. rewrite L4.
        split; [reflexivity|].
        apply deref_app_digits; [assumption | reflexivity | assumption]. }
    destruct Hs as [Hs Hp]. rewrite run_percent by exact Hp.
    rewrite Hs. reflexivity.
Qed.

Lemma exc_printf_unknown_conversion_witness :
  exc_printf "%.3d" [va_int 7] = exc_printf "3d" [va_int 7]
  /\ exc_printf "%-12l" [va_int 7] = Some "".
Proof.
  destruct (exc_printf_unknown_conversion "." "3d" true true "12" [va_int 7])
    as [H1 H2].
  split; [apply H1; reflexivity | apply H2; reflexivity].
Defined.

(** ** Priority grouping *)

Lemma testbit_uint32 (x n : Z) :
  0 <= n -> Z.testbit (uint32 x) n = (n <? 32) && Z.testbit x n.
Proof.
  intros Hn. unfold uint32. destruct (n <? 32) eqn:E.
  - apply Z.ltb_lt in E. now rewrite Z.mod_pow2_bits_low.
  - apply Z.ltb_ge in E. now rewrite Z.mod_pow2_bits_high by lia.
Qed.

Lemma testbit_small (a k n : Z) :
  0 <= a < 2 ^ k -> 0 <= k <= n -> Z.testbit a n = false.
Proof.
  intros Ha Hk. destruct (Z.eq_dec a 0) as [-> | Hz]; [apply Z.bits_0|].
  apply Z.bits_above_log2; [lia|].
  assert (Z.log2 a < k) by (apply Z.log2_lt_pow2; lia). lia.
Qed.

Lemma testbit_7 (n : Z) : 0 <= n -> Z.testbit 7 n = (n <? 3).
Proof.
  intros Hn. destruct (n <? 3) eqn:E.
  - apply Z.ltb_lt in E.
    assert (n = 0 \/ n = 1 \/ n = 2) as [-> | [-> | ->]] by lia; reflexivity.
  - apply Z.ltb_ge in E. apply (testbit_small 7 3); [cbn |]; lia.
Qed.

Lemma testbit_keep_mask (i : Z) :
  0 <= i -> Z.testbit 63743 i = (i <? 8) || ((11 <=? i) && (i <? 16)).
Proof.
  intros Hi. destruct (Z_lt_le_dec i 16) as [H | H].
  - destruct (Z_lt_le_dec i 8) as [H8 | H8].
    + assert (i = 0 \/ i = 1 \/ i = 2 \/ i = 3 \/ i = 4 \/ i = 5
              \/ i = 6 \/ i = 7) as Hd by lia.
      repeat (destruct Hd as [-> | Hd]; [reflexivity|]). now subst i.
    + assert (i = 8 \/ i = 9 \/ i = 10 \/ i = 11 \/ i = 12 \/ i = 13
              \/ i = 14 \/ i = 15) as Hd by lia.
      repeat (destruct Hd as [-> | Hd]; [reflexivity|]). now subst i.
  - rewrite (testbit_small 63743 16) by (cbn; lia).
    replace (i <? 8) with false by (symmetry; apply Z.ltb_ge; lia).
    replace (i <? 16) with false by (symmetry; apply Z.ltb_ge; lia).
    now rewrite andb_false_r.
Qed.

(** The value written back, bit by bit. *)
Lemma NVIC_SetPriorityGrouping_bits (PriorityGroup SCB_AIRCR n : Z) :
  0 <= n ->
  Z.testbit (__NVIC_SetPriorityGrouping PriorityGroup SCB_AIRCR) n
  = if n <? 8 then Z.testbit SCB_AIRCR n
    else if n <? 11 then Z.testbit PriorityGroup (n - 8)
    else if n <? 16 then Z.testbit SCB_AIRCR n
    else Z.testbit 1530 (n - 16).
Proof.
  intros Hn. unfold __NVIC_SetPriorityGrouping. cbv zeta.
  change (uint32 (Z.lnot (Z.lor SCB_AIRCR_VECTKEY_Msk SCB_AIRCR_PRIGROUP_Msk)))
    with 63743.
  unfold SCB_AIRCR_VECTKEY_Pos, SCB_AIRCR_PRIGROUP_Pos.
  rewrite !Z.lor_spec, Z.land_spec, !testbit_uint32 by assumption.
  rewrite !Z.shiftl_spec by assumption.
  rewrite Z.land_spec, testbit_keep_mask by assumption.
  destruct (Z_lt_le_dec n 8) as [H8 | H8].
  { replace (n <? 8) with true by (symmetry; apply Z.ltb_lt; lia).
    rewrite !(Z.testbit_neg_r _ (n - 16)), !(Z.testbit_neg_r _ (n - 8)) by lia.
    cbn [orb andb]. now rewrite !andb_false_r, andb_true_r, !orb_false_r. }
  replace (n <? 8) with false by (symmetry; apply Z.ltb_ge; lia).
  rewrite (testbit_uint32 PriorityGroup), testbit_7 by lia.
  destruct (Z_lt_le_dec n 11) as [H11 | H11].
  { replace (n <? 11) with true by (symmetry; apply Z.ltb_lt; lia).
    replace (11 <=? n) with false by (symmetry; apply Z.leb_gt; lia).
    replace (n <? 32) with true by (symmetry; apply Z.ltb_lt; lia).
    replace (n - 8 <? 32) with true by (symmetry; apply Z.ltb_lt; lia).
    replace (n - 8 <? 3) with true by (symmetry; apply Z.ltb_lt; lia).
    rewrite (Z.testbit_neg_r _ (n - 16)) by lia.
    cbn [orb andb]. now rewrite !andb_false_r, andb_true_r. }
  replace (n <? 11) with false by (symmetry; apply Z.ltb_ge; lia).
  replace (11 <=? n) with true by (symmetry; apply Z.leb_le; lia).
  replace (n - 8 <? 3) with false by (symmetry; apply Z.ltb_ge; lia).
  rewrite !andb_false_r, orb_false_r. cbn [orb andb].
  destruct (Z_lt_le_dec n 16) as [H16 | H16].
  { replace (n <? 16) with true by (symmetry; apply Z.ltb_lt; lia).
    rewrite (Z.testbit_neg_r _ (n - 16)) by lia.
    now rewrite andb_true_r, andb_false_r, orb_false_r. }
  replace (n <? 16) with false by (symmetry; apply Z.ltb_ge; lia).
  rewrite andb_false_r. cbn [orb].
  destruct (n <? 32) eqn:E32; [reflexivity|].
  apply Z.ltb_ge in E32. cbn [andb]. symmetry.
  apply (testbit_small 1530 16); [cbn |]; lia.
Qed.

(** X7: whatever the register held, [__NVIC_SetPriorityGrouping] writes back
    a 32-bit value whose upper half is the write key 0x05FA, whose bits 8 to
    10 are the three low bits of the priority group, and whose other bits
    below bit 16 are those read; a second call overrides the first. *)
Theorem NVIC_SetPriorityGrouping_fields (PriorityGroup SCB_AIRCR : Z) :
  let r := __NVIC_SetPriorityGrouping PriorityGroup SCB_AIRCR in
  0 <= r < 2 ^ 32
  /\ Z.shiftr r 16 = 1530
  /\ Z.land (Z.shiftr r 8) 7 = PriorityGroup mod 2 ^ 3
  /\ Z.land r 63743 = Z.land SCB_AIRCR 63743
  /\ (forall other,
        __NVIC_SetPriorityGrouping PriorityGroup
          (__NVIC_SetPriorityGrouping other SCB_AIRCR) = r).
Proof.
  cbv zeta.
  assert (Hkey : Z.shiftr (__NVIC_SetPriorityGrouping PriorityGroup SCB_AIRCR)
                   16 = 1530).
  { apply Z.bits_inj'. intros n Hn.
    rewrite Z.shiftr_spec, NVIC_SetPriorityGrouping_bits by lia.
    replace (n + 16 <? 8) with false by (symmetry; apply Z.ltb_ge; lia).
    replace (n + 16 <? 11) with false by (symmetry; apply Z.ltb_ge; lia).
    replace (n + 16 <? 16) with false by (symmetry; apply Z.ltb_ge; lia).
    f_equal. lia. }
  assert (Hnn : 0 <= __NVIC_SetPriorityGrouping PriorityGroup SCB_AIRCR).
  { unfold __NVIC_SetPriorityGrouping. cbv zeta.
    rewrite !Z.lor_nonneg, Z.land_nonneg.
    pose proof (uint32_range
                  (Z.lnot (Z.lor SCB_AIRCR_VECTKEY_Msk SCB_AIRCR_PRIGROUP_Msk))).
    pose proof (uint32_range (Z.shiftl 1530 SCB_AIRCR_VECTKEY_Pos)).
    pose proof (uint32_range
                  (Z.shiftl (Z.land (uint32 PriorityGroup) 7)
                     SCB_AIRCR_PRIGROUP_Pos)).
    lia. }
  split.
  { split; [exact Hnn|].
    rewrite Z.shiftr_div_pow2 in Hkey by lia.
    change (2 ^ 16) with 65536 in Hkey. change (2 ^ 32) with 4294967296.
    revert Hkey Hnn.
    generalize (__NVIC_SetPriorityGrouping PriorityGroup SCB_AIRCR).
    intros r Hkey Hnn. Z.div_mod_to_equations. lia. }
  split; [exact Hkey|]. split; [|split].
  - rewrite <- (Z.land_ones PriorityGroup 3 ltac:(lia)).
    change (Z.ones 3) with 7.
    apply Z.bits_inj'. intros n Hn.
    rewrite !Z.land_spec, Z.shiftr_spec, NVIC_SetPriorityGrouping_bits by lia.
    rewrite testbit_7 by assumption.
    destruct (n <? 3) eqn:E; [|now rewrite !andb_false_r].
    apply Z.ltb_lt in E.
    replace (n + 8 <? 8) with false by (symmetry; apply Z.ltb_ge; lia).
    replace (n + 8 <? 11) with true by (symmetry; apply Z.ltb_lt; lia).
    f_equal. f_equal. lia.
  - apply Z.bits_inj'. intros n Hn.
    rewrite !Z.land_spec, NVIC_SetPriorityGrouping_bits by lia.
    rewrite testbit_keep_mask by assumption.
    destruct (n <? 8) eqn:E8; [reflexivity|].
    destruct (n <? 11) eqn:E11.
    + apply Z.ltb_lt in E11.
      replace (11 <=? n) with false by (symmetry; apply Z.leb_gt; lia).
      cbn [orb andb]. now rewrite !andb_false_r.
    + destruct (n <? 16) eqn:E16; [reflexivity|].
      cbn [orb]. now rewrite !andb_false_r.
  - intros other. apply Z.bits_inj'. intros n Hn.
    rewrite !NVIC_SetPriorityGrouping_bits by assumption.
    destruct (n <? 8) eqn:E8; [reflexivity|].
    destruct (n <? 11) eqn:E11; [reflexivity|].
    destruct (n <? 16) eqn:E16; reflexivity.
Qed.

(** ** One call of the callback, and the text of a walk *)

(** X8: one call of [trace_fcn], at a depth above the most negative [int]
    and below the largest, returns; it prints exactly one line, the
    line of the frame under the current depth; it answers
    [_URC_END_OF_STACK] exactly when the frame is the task entry or the
    depth was 31, the cap being a test for equality with 32; and it
    advances the depth by one unless the frame is the task entry. *)
Theorem trace_fcn_one_call (addr : Z) (ctx : _Unwind_Context) (d : Z)
    (m : machine) :
  - 2 ^ 31 < d < 2 ^ 31 - 1 ->
  exists code ctx' d' m',
    trace_fcn addr ctx d m = Returned (code, ctx', d') m'
    /\ console m' = (console m ++ frame_line addr ctx d)%string
    /\ count_lines (console m') = (count_lines (console m) + 1)%nat
    /\ (code = _URC_END_OF_STACK <-> entry_frame addr ctx = true \/ d = 31)
    /\ d' = (if entry_frame addr ctx then d else d + 1)
    /\ _g_current_heap_end m' = _g_current_heap_end m
    /\ events m' = events m.
Proof.
  intros Hd. rewrite trace_fcn_eq. cbv zeta. unfold entry_frame.
  rewrite (int32_small (d + 1)) by lia.
  destruct (is_task_entry addr (_Unwind_GetIP ctx)).
  - eexists _, _, _, _. split; [reflexivity|].
    cbn [set_console console _g_current_heap_end events].
    rewrite count_lines_app, count_lines_frame_line.
    repeat split; auto.
  - destruct (d + 1 =? 32) eqn:E; eexists _, _, _, _;
      (split; [reflexivity|]);
      assert (Hc : forall m1,
                 console (if g_trace_lr m =? 0 then m1 else set_trace_lr 0 m1)
                 = console m1
                 /\ _g_current_heap_end
                      (if g_trace_lr m =? 0 then m1 else set_trace_lr 0 m1)
                    = _g_current_heap_end m1
                 /\ events (if g_trace_lr m =? 0 then m1 else set_trace_lr 0 m1)
                    = events m1)
        by (intros m1; destruct (g_trace_lr m =? 0); repeat split);
      match goal with
      | |- context [if g_trace_lr m =? 0 then ?m1 else set_trace_lr 0 ?m1] =>
          destruct (Hc m1) as (C1 & C2 & C3); rewrite C1, C2, C3
      end;
      cbn [set_console console _g_current_heap_end events];
      rewrite count_lines_app, count_lines_frame_line.
    + apply Z.eqb_eq in E. repeat split; auto. intros _. right. lia.
    + apply Z.eqb_neq in E. repeat split; auto; try discriminate.
      intros [H | H]; [discriminate | lia].
Qed.

Lemma trace_fcn_one_call_witness :
  exists code ctx' d' m',
    trace_fcn 1537 (mk_context 4096 4000 (fun _ => 0)) 40 (boot 0)
    = Returned (code, ctx', d') m'
    /\ (code = _URC_END_OF_STACK
        <-> entry_frame 1537 (mk_context 4096 4000 (fun _ => 0)) = true
            \/ 40 = 31)
    /\ d' = 41.
Proof.
  destruct (trace_fcn_one_call 1537 (mk_context 4096 4000 (fun _ => 0)) 40
              (boot 0)) as (code & ctx' & d' & m' & H & _ & _ & Hc & Hd & _);
    [simpl; lia|].
  exists code, ctx', d', m'. split; [exact H|]. split; [exact Hc | exact Hd].
Defined.

Lemma walk_frames_text (addr : Z) (frames : list _Unwind_Context) :
  forall d m calls d' m',
    0 <= d < 32 ->
    walk_frames addr frames d m = Returned (calls, d') m' ->
    console m'
    = (console m ++ frame_lines addr (firstn (length calls) frames) d)%string
    /\ d' = d + Z.of_nat
                  (length (filter (fun c => negb (entry_frame addr c))
                             (firstn (length calls) frames)))
    /\ _g_current_heap_end m' = _g_current_heap_end m
    /\ events m' = events m.
Proof.
  induction frames as [|c rest IH]; intros d m calls d' m' Hd Hw.
  - cbn [walk_frames] in Hw. injection Hw as <- <- <-.
    cbn [length firstn frame_lines filter]. rewrite append_nil_r.
    repeat split; lia.
  - rewrite walk_frames_cons in Hw by assumption.
    assert (Ha : console (after_frame addr c d m)
                 = (console m ++ frame_line addr c d)%string
                 /\ _g_current_heap_end (after_frame addr c d m)
                    = _g_current_heap_end m
                 /\ events (after_frame addr c d m) = events m)
      by (unfold after_frame; destruct (g_trace_lr m =? 0); repeat split).
    destruct Ha as (A1 & A2 & A3).
    destruct (entry_frame addr c) eqn:Ec.
    { injection Hw as <- <- <-.
      cbn [length firstn frame_lines filter]. rewrite Ec. cbn [negb length].
      rewrite append_nil_r. repeat split; lia. }
    destruct (d + 1 =? 32) eqn:E.
    { injection Hw as <- <- <-.
      cbn [length firstn frame_lines filter]. rewrite Ec. cbn [negb length].
      rewrite append_nil_r, A1, A2, A3. repeat split; lia. }
    apply Z.eqb_neq in E.
    destruct (walk_frames addr rest (d + 1) (after_frame addr c d m))
      as [[calls1 d1] m1| |] eqn:E1; cbn [obind] in Hw; try discriminate.
    injection Hw as <- <- <-. cbn [fst snd length firstn frame_lines filter].
    rewrite Ec. cbn [negb length].
    destruct (IH (d + 1) _ calls1 d1 m1 ltac:(lia) E1) as (I1 & I2 & I3 & I4).
    rewrite I1, I3, I4, A1, A2, A3, append_assoc. repeat split; lia.
Qed.

(** X9: the text of a walk is the lines of the frames it has gone through,
    numbered from 0 in their order; the depth counter ends at the number of
    those frames that were not the task entry; the walk touches neither the
    heap boundary nor the collaborators. *)
Theorem backtrace_text (addr : Z) (frames : list _Unwind_Context)
    (m : machine) :
  exists calls d' m',
    backtrace addr frames m = Returned (calls, d') m'
    /\ console m'
       = (console m ++ frame_lines addr (firstn (length calls) frames) 0)%string
    /\ d' = Z.of_nat
              (length (filter (fun c => negb (entry_frame addr c))
                         (firstn (length calls) frames)))
    /\ _g_current_heap_end m' = _g_current_heap_end m
    /\ events m' = events m.
Proof.
  unfold backtrace.
  destruct (walk_frames_total addr frames 0 m ltac:(lia))
    as (calls & d' & m' & Hw & _).
  exists calls, d', m'. split; [exact Hw|].
  destruct (walk_frames_text addr frames 0 m calls d' m' ltac:(lia) Hw)
    as (H1 & H2 & H3 & H4).
  repeat split; assumption.
Qed.

(** ** The blink codes *)

Lemma pulse_events_counts (k : nat) (pin : Z) :
  length (filter is_led_high (pulse_events k pin)) = k
  /\ length (filter is_pause (pulse_events k pin)) = 0%nat
  /\ length (filter is_led_write (pulse_events k pin)) = (2 * k)%nat.
Proof.
  induction k as [|k (I1 & I2 & I3)]; [repeat split|].
  cbn [pulse_events app filter is_led_high is_pause is_led_write length].
  change (is_pause (ev_delay_ms 300)) with false. cbv iota.
  rewrite I1, I2, I3. repeat split; lia.
Qed.

Lemma rounds_events_counts (budget : nat) (n pin : Z) :
  length (filter is_led_high (rounds_events budget n pin))
  = (budget * Z.to_nat n)%nat
  /\ length (filter is_pause (rounds_events budget n pin)) = budget
  /\ length (filter is_led_write (rounds_events budget n pin))
     = (2 * (budget * Z.to_nat n))%nat.
Proof.
  induction budget as [|budget (I1 & I2 & I3)]; [repeat split|].
  cbn [rounds_events]. unfold round_events.
  rewrite !filter_app, !length_app, I1, I2, I3.
  destruct (pulse_events_counts (Z.to_nat n) pin) as (P1 & P2 & P3).
  rewrite P1, P2, P3. cbn [filter is_led_high is_pause is_led_write length].
  repeat split; lia.
Qed.

(** X10: [error_blink(n)] does not return.  After the scheduler is
    suspended, the pin made an output and the clock set to 16 MHz, every
    round of its loop drives the pin high [n] times and ends with one pause
    of two seconds, so the number of pulses between two pauses is the code;
    [mcu_shutdown], which is [error_blink(0)], never drives the pin. *)
Theorem error_blink_code (pin : Z) (budget : nat) (n : Z) (m : machine) :
  0 <= n < 256 ->
  (exists m',
      error_blink pin budget n m = Running m'
      /\ events m' = events m ++ halt_prologue pin ++ rounds_events budget n pin
      /\ length (filter is_led_high (rounds_events budget n pin))
         = (budget * Z.to_nat n)%nat
      /\ length (filter is_pause (rounds_events budget n pin)) = budget
      /\ console m' = console m
      /\ _g_current_heap_end m' = _g_current_heap_end m)
  /\ (exists m',
        mcu_shutdown pin budget m = Running m'
        /\ filter is_led_write (events m') = filter is_led_write (events m)).
Proof.
  intros Hn. split.
  - destruct (error_blink_runs pin budget n m) as (m' & E & H1 & H2 & _ & H4).
    rewrite (Z.mod_small n 256) in H1 by lia.
    destruct (rounds_events_counts budget n pin) as (C1 & C2 & _).
    exists m'. repeat split; assumption.
  - unfold mcu_shutdown.
    destruct (error_blink_runs pin budget 0 m) as (m' & E & H1 & _).
    exists m'. split; [exact E|]. rewrite H1, !filter_app.
    destruct (rounds_events_counts budget (0 mod 256) pin) as (_ & _ & C3).
    change (Z.to_nat (0 mod 256)) with 0%nat in C3.
    rewrite Nat.mul_0_r in C3. apply length_zero_iff_nil in C3.
    rewrite C3. cbn [halt_prologue filter is_led_write app].
    now rewrite app_nil_r.
Qed.

Lemma error_blink_code_witness :
  exists m',
    error_blink 13 5 3 (boot 0) = Running m'
    /\ events m' = events (boot 0) ++ halt_prologue 13 ++ rounds_events 5 3 13
    /\ length (filter is_led_high (rounds_events 5 3 13))
       = (5 * Z.to_nat 3)%nat
    /\ length (filter is_pause (rounds_events 5 3 13)) = 5%nat
    /\ console m' = console (boot 0)
    /\ _g_current_heap_end m' = _g_current_heap_end (boot 0).
Proof.
  apply (error_blink_code 13 5 3 (boot 0)). lia.
Defined.

Lemma backtrace_lines_total (addr : Z) (frames : list _Unwind_Context)
    (m : machine) :
  exists calls d' m',
    backtrace addr frames m = Returned (calls, d') m'
    /\ (length calls <= 32)%nat
    /\ console m'
       = (console m ++ frame_lines addr (firstn (length calls) frames) 0)%string
    /\ _g_current_heap_end m' = _g_current_heap_end m
    /\ events m' = events m.
Proof.
  unfold backtrace.
  destruct (walk_frames_total addr frames 0 m ltac:(lia))
    as (calls & d' & m' & Hw & Hk & _).
  exists calls, d', m'. split; [exact Hw|].
  destruct (walk_frames_text addr frames 0 m calls d' m' ltac:(lia) Hw)
    as (H1 & _ & H3 & H4).
  repeat split; try assumption; lia.
Qed.

(** ** The fault entry points *)

Ltac run_steps :=
  repeat first
    [ rewrite run_s | rewrite run_u | rewrite run_d | rewrite run_04x
    | rewrite run_literal by reflexivity | rewrite run_nil ].

Lemma plain_substring (n : nat) :
  forall s, plain s = true -> plain (substring 0 n s) = true.
Proof.
  induction n as [|n IH]; intros [|c s] H; try reflexivity.
  cbn [plain string_forallb] in H. apply andb_prop in H as [Hc Hs].
  cbn [substring plain string_forallb]. rewrite Hc. apply IH, Hs.
Qed.

Lemma substring_short (n : nat) :
  forall s, (String.length s <= n)%nat -> substring 0 n s = s.
Proof.
  induction n as [|n IH]; intros [|c s] H; try reflexivity.
  - cbn [String.length] in H. lia.
  - cbn [substring]. f_equal. apply IH. cbn [String.length] in H. lia.
Qed.

Lemma length_substring (n : nat) :
  forall s, (String.length (substring 0 n s) <= n)%nat.
Proof.
  induction n as [|n IH]; intros [|c s]; cbn [substring String.length];
    try lia.
  specialize (IH s). lia.
Qed.

Lemma exc_printf_assert_file (file : string) (line : Z) :
  plain file = true ->
  exc_printf (CRLF ++ "ASSERT in [%s:%u]" ++ String TAB "")
    [va_str file; va_int line]
  = Some (CRLF ++ "ASSERT in [" ++ file ++ ":"
          ++ exc_puint_loop 11 (uint32 line) "" ++ "]" ++ String TAB "")%string.
Proof.
  intros Hp. rewrite exc_printf_run. unfold CRLF. cbn [append].
  run_steps. rewrite (run_plain _ file) by assumption. reflexivity.
Qed.

Lemma exc_printf_s_then (s text : string) :
  plain s = true -> plain text = true ->
  exc_printf (String "%" (String "s" text)) [va_str s] = Some (s ++ text)%string.
Proof.
  intros Hs Ht. rewrite exc_printf_run, run_s.
  rewrite (run_plain _ s), (run_plain _ text) by assumption. reflexivity.
Qed.

Lemma exc_printf_plain (text : string) (args : list va_item) :
  plain text = true -> exc_printf text args = Some text.
Proof. intros H. rewrite exc_printf_run. now apply run_plain. Qed.

(** X11: [assert_blink] does not return.  When the file name, the function
    name and the expression hold no ['%'], it prints the header with the
    line number in decimal, then the lines of at most 32 frames, then an
    empty line, and ends in the halt loop with code 1, the output having
    been flushed once before the walk. *)
Theorem assert_blink_halts (portDISABLE_INTERRUPTS : machine -> machine)
    (NVIC_SET_PRIORITY_USB1 : machine -> machine) (addr pin : Z)
    (budget : nat) (frames : list _Unwind_Context) (file : string) (line : Z)
    (func expr : string) (m : machine) :
  (forall p m1,
      assert_blink portDISABLE_INTERRUPTS NVIC_SET_PRIORITY_USB1 addr pin
        budget frames file line func expr m <> Returned p m1)
  /\ (plain file = true -> plain func = true -> plain expr = true ->
      let m0 := NVIC_SET_PRIORITY_USB1 (portDISABLE_INTERRUPTS m) in
      exists (k : nat) m',
        assert_blink portDISABLE_INTERRUPTS NVIC_SET_PRIORITY_USB1 addr pin
          budget frames file line func expr m = Running m'
        /\ (k <= 32)%nat
        /\ console m'
           = (console m0 ++ assert_header file line func expr
              ++ frame_lines addr (firstn k frames) 0 ++ CRLF)%string
        /\ events m'
           = events m0 ++ [ev_delay_ms 100] ++ halt_prologue pin
             ++ rounds_events budget 1 pin).
Proof.
  split.
  - intros p m1. unfold assert_blink. cbv zeta.
    repeat match goal with
           | |- obind ?o _ <> _ =>
               destruct o as [? ?| |]; cbn [obind]; try discriminate
           end.
  - intros Hf Hn He. cbv zeta. unfold assert_blink, EXC_PRINTF. cbv zeta.
    rewrite exc_printf_assert_file by assumption. cbn [obind].
    rewrite exc_printf_s_then by (assumption || reflexivity). cbn [obind].
    change ("%s" ++ CRLF)%string with (String "%" (String "s" CRLF)).
    rewrite exc_printf_s_then by (assumption || reflexivity). cbn [obind].
    rewrite exc_printf_plain by reflexivity. cbn [obind].
    match goal with
    | |- context [backtrace addr frames ?m1] =>
        destruct (backtrace_lines_total addr frames m1)
          as (calls & d' & m2 & Hw & Hk & Hc & Hh & Hev);
        rewrite Hw
    end.
    cbn [obind]. rewrite exc_printf_plain by reflexivity. cbn [obind].
    match goal with
    | |- context [error_blink pin budget 1 ?m3] =>
        destruct (error_blink_runs pin budget 1 m3)
          as (m' & E & H1 & _ & _ & H4)
    end.
    exists (length calls), m'. split; [exact E|]. split; [exact Hk|].
    rewrite H4, H1. cbn [set_console console events].
    rewrite Hc, Hev. cbn [EXC_FLUSH serialport_flush emit set_console console
                            events].
    split.
    + unfold assert_header. now rewrite !append_assoc.
    + change (1 mod 256) with 1. now rewrite <- !app_assoc.
Qed.

Lemma assert_blink_halts_witness :
  exists (k : nat) m',
    assert_blink (fun m => m) (fun m => m) 1537 13 4
      [mk_context 4096 4000 (fun _ => 0); mk_context 1536 1500 (fun _ => 0)]
      "queue.c" 217 "xQueueSend" "pxQueue != NULL" (boot 0)
    = Running m'
    /\ (k <= 32)%nat
    /\ console m'
       = (console (boot 0)
          ++ assert_header "queue.c" 217 "xQueueSend" "pxQueue != NULL"
          ++ frame_lines 1537
               (firstn k [mk_context 4096 4000 (fun _ => 0);
                          mk_context 1536 1500 (fun _ => 0)]) 0
          ++ CRLF)%string
    /\ events m'
       = events (boot 0) ++ [ev_delay_ms 100] ++ halt_prologue 13
         ++ rounds_events 4 1 13.
Proof.
  apply (assert_blink_halts (fun m => m) (fun m => m) 1537 13 4
           [mk_context 4096 4000 (fun _ => 0);
            mk_context 1536 1500 (fun _ => 0)]
           "queue.c" 217 "xQueueSend" "pxQueue != NULL" (boot 0));
    reflexivity.
Defined.

(** X12: [vApplicationStackOverflowHook] does not return.  For a task name
    without ['%'] it prints ["STACK OVERFLOW: "], the name cut to
    [configMAX_TASK_NAME_LEN] characters and a line end, flushes, and ends
    in the halt loop with code 3. *)
Theorem stack_overflow_hook_halts (configMAX_TASK_NAME_LEN : nat) (pin : Z)
    (budget : nat) (task_name : string) (m : machine) :
  (forall p m1,
      vApplicationStackOverflowHook configMAX_TASK_NAME_LEN pin budget
        task_name m <> Returned p m1)
  /\ (plain task_name = true ->
      exists shown m',
        vApplicationStackOverflowHook configMAX_TASK_NAME_LEN pin budget
          task_name m = Running m'
        /\ console m'
           = (console m ++ "STACK OVERFLOW: " ++ shown ++ CRLF)%string
        /\ shown = substring 0 configMAX_TASK_NAME_LEN task_name
        /\ (String.length shown <= configMAX_TASK_NAME_LEN)%nat
        /\ ((String.length task_name <= configMAX_TASK_NAME_LEN)%nat ->
            shown = task_name)
        /\ events m'
           = events m ++ [ev_delay_ms 100] ++ halt_prologue pin
             ++ rounds_events budget 3 pin).
Proof.
  split.
  - intros p m1. unfold vApplicationStackOverflowHook. cbv zeta.
    destruct (EXC_PRINTF _ _ _) as [? ?| |]; cbn [obind]; discriminate.
  - intros Hp. unfold vApplicationStackOverflowHook, EXC_PRINTF. cbv zeta.
    set (shown := substring 0 configMAX_TASK_NAME_LEN task_name).
    assert (Hs : plain shown = true) by now apply plain_substring.
    assert (E : exc_printf ("STACK OVERFLOW: %s" ++ CRLF) [va_str shown]
                = Some ("STACK OVERFLOW: " ++ shown ++ CRLF)%string).
    { rewrite exc_printf_run. cbn [append]. run_steps.
      rewrite (run_plain _ shown) by assumption.
      rewrite run_plain by reflexivity. reflexivity. }
    rewrite E. cbn [obind].
    match goal with
    | |- context [error_blink pin budget 3 ?m3] =>
        destruct (error_blink_runs pin budget 3 m3)
          as (m' & E3 & H1 & _ & _ & H4)
    end.
    exists shown, m'. split; [exact E3|].
    rewrite H4, H1.
    cbn [EXC_FLUSH serialport_flush emit set_console console events].
    split; [reflexivity|]. split; [reflexivity|].
    split; [apply length_substring|].
    split; [apply substring_short|].
    change (3 mod 256) with 3. now rewrite <- !app_assoc.
Qed.

Lemma stack_overflow_hook_halts_witness :
  exists shown m',
    vApplicationStackOverflowHook 10 13 2 "sensor_fusion_task" (boot 0)
    = Running m'
    /\ console m'
       = (console (boot 0) ++ "STACK OVERFLOW: " ++ shown ++ CRLF)%string
    /\ shown = substring 0 10 "sensor_fusion_task"
    /\ (String.length shown <= 10)%nat
    /\ ((String.length "sensor_fusion_task" <= 10)%nat ->
        shown = "sensor_fusion_task")
    /\ events m'
       = events (boot 0) ++ [ev_delay_ms 100] ++ halt_prologue 13
         ++ rounds_events 2 3 13.
Proof.
  apply (stack_overflow_hook_halts 10 13 2 "sensor_fusion_task" (boot 0)).
  reflexivity.
Defined.

Lemma count_lines_u (v : Z) :
  count_lines (exc_puint_loop 11 (uint32 v) "") = 0%nat.
Proof. apply count_lines_digits, exc_puint_loop_digits. reflexivity. Qed.

(** X13: [print_ram_usage] always returns: each of its formats has as many
    arguments as conversions.  It adds exactly three lines to the console,
    flushes once, and leaves the heap boundary alone. *)
Theorem print_ram_usage_lines (info1 : Z * Z * Z * Z * Z * Z) (info2 : Z * Z)
    (m : machine) :
  exists m',
    print_ram_usage info1 info2 m = Returned tt m'
    /\ count_lines (console m') = (count_lines (console m) + 3)%nat
    /\ events m' = events m ++ [ev_delay_ms 100]
    /\ _g_current_heap_end m' = _g_current_heap_end m.
Proof.
  destruct info1 as [[[[[i0 i1] i2] i3] i4] i5]. destruct info2 as [j0 j1].
  unfold print_ram_usage, EXC_PRINTF.
  rewrite !exc_printf_run. unfold CRLF. cbn [append].
  run_steps. cbn [bind obind].
  rewrite (exc_printf_run (String CR (String LF ""))). run_steps.
  cbn [bind obind].
  rewrite (exc_printf_run (String "R" _)). run_steps. cbn [bind obind].
  eexists. split; [reflexivity|].
  cbn [EXC_FLUSH serialport_flush emit set_console console events
       _g_current_heap_end].
  split; [|split; reflexivity].
  repeat (rewrite ?count_lines_app, ?count_lines_String, ?count_lines_u).
  cbn. lia.
Qed.

(** ** More on the wall clock *)

Lemma timeval_of_us_normal (now_us : Z) :
  0 <= tv_usec (timeval_of_us now_us) < 1000000.
Proof. cbn [timeval_of_us tv_usec]. apply Z.mod_pos_bound. lia. Qed.

Lemma timersub_normal (a b : timeval) :
  0 <= tv_usec a < 1000000 -> 0 <= tv_usec b < 1000000 ->
  0 <= tv_usec (timersub a b) < 1000000.
Proof.
  intros Ha Hb. unfold timersub.
  destruct (tv_usec a - tv_usec b <? 0) eqn:E; cbn [tv_usec].
  - apply Z.ltb_lt in E. lia.
  - apply Z.ltb_ge in E. lia.
Qed.


Lemma offset_after_sync (now_us rtc : Z) (m : machine) :
  us_of_timeval (offset_ (sync_rtc now_us rtc m))
  = Z.abs (rtc * 1000000 - now_us)
  /\ 0 <= tv_usec (offset_ (sync_rtc now_us rtc m)) < 1000000.
Proof.
  unfold sync_rtc.
  pose proof (timercmp_lt_now_rtc now_us rtc) as Hc.
  pose proof (timeval_of_us_normal now_us) as Hn.
  assert (Hr : 0 <= tv_usec (mk_timeval rtc 0) < 1000000) by (cbn; lia).
  destruct (timercmp_lt (timeval_of_us now_us) (mk_timeval rtc 0));
    cbn [set_offset offset_]; rewrite us_of_timersub, us_of_timeval_of_us;
    unfold us_of_timeval at 1; cbn [tv_sec tv_usec].
  - assert (now_us < rtc * 1000000) by now apply Hc.
    split; [lia | now apply timersub_normal].
  - assert (~ now_us < rtc * 1000000)
      by (intros H; apply Hc in H; discriminate).
    split; [lia | now apply timersub_normal].
Qed.

(** X14: after [sync_rtc] at monotonic time [now_us] with the real-time
    clock at [rtc] seconds, [_gettimeofday] at monotonic time [later_us]
    gives [later_us] plus the distance between the two clocks at the
    moment of the synchronisation, whichever of them was ahead; it
    returns 0. *)
Theorem time_of_day_after_sync (now_us rtc later_us : Z) (m : machine) :
  us_of_timeval (fst (_gettimeofday later_us (sync_rtc now_us rtc m)))
  = later_us + Z.abs (rtc * 1000000 - now_us)
  /\ snd (_gettimeofday later_us (sync_rtc now_us rtc m)) = 0.
Proof.
  split; [|reflexivity].
  unfold _gettimeofday. cbn [fst].
  rewrite us_of_timeradd, us_of_timeval_of_us.
  destruct (offset_after_sync now_us rtc m) as [E _]. rewrite E. lia.
Qed.

(** X15: when the real-time clock is not behind the monotonic clock at the
    synchronisation, the time of day afterwards is the real time read then
    plus the monotonic time gone by since. *)
Theorem time_of_day_tracks_rtc (now_us rtc later_us : Z) (m : machine) :
  now_us <= rtc * 1000000 ->
  us_of_timeval (fst (_gettimeofday later_us (sync_rtc now_us rtc m)))
  = rtc * 1000000 + (later_us - now_us).
Proof.
  intros H. unfold _gettimeofday. cbn [fst].
  rewrite us_of_timeradd, us_of_timeval_of_us.
  destruct (offset_after_sync now_us rtc m) as [E _]. rewrite E. lia.
Qed.

Lemma time_of_day_tracks_rtc_witness :
  us_of_timeval
    (fst (_gettimeofday 7250000 (sync_rtc 5000000 1700000000 (boot 0))))
  = 1700000000 * 1000000 + (7250000 - 5000000).
Proof.
  apply (time_of_day_tracks_rtc 5000000 1700000000 7250000 (boot 0)). lia.
Defined.


(** X17: between two synchronisations the time of day follows the monotonic
    clock: it is the stored offset plus the monotonic time, so it never
    runs backwards and advances by exactly the monotonic time gone by. *)
Theorem time_of_day_monotone (t1 t2 : Z) (m : machine) :
  us_of_timeval (fst (_gettimeofday t2 m))
  - us_of_timeval (fst (_gettimeofday t1 m)) = t2 - t1
  /\ (t1 <= t2 ->
      us_of_timeval (fst (_gettimeofday t1 m))
      <= us_of_timeval (fst (_gettimeofday t2 m)))
  /\ us_of_timeval (fst (_gettimeofday t1 (boot 0))) = t1.
Proof.
  unfold _gettimeofday. cbn [fst].
  rewrite !us_of_timeradd, !us_of_timeval_of_us.
  split; [lia|]. split; [lia|]. cbn. lia.
Qed.

Lemma time_of_day_monotone_witness :
  us_of_timeval (fst (_gettimeofday 1000 (sync_rtc 10 20 (boot 0))))
  <= us_of_timeval (fst (_gettimeofday 2500 (sync_rtc 10 20 (boot 0)))).
Proof.
  apply (time_of_day_monotone 1000 2500 (sync_rtc 10 20 (boot 0))). lia.
Defined.

(** ** More on the heap grower *)

Lemma blink_pulses_PRIMASK (n : nat) (pin : Z) :
  forall m, PRIMASK (blink_pulses n pin m) = PRIMASK m.
Proof.
  induction n as [|n IH]; intros m; cbn [blink_pulses]; [reflexivity|].
  now rewrite IH.
Qed.

Lemma blink_forever_PRIMASK (budget : nat) (n pin : Z) :
  forall m, PRIMASK (blink_forever budget n pin m) = PRIMASK m.
Proof.
  induction budget as [|budget IH]; intros m; cbn [blink_forever];
    [reflexivity|].
  rewrite IH. cbn [emit PRIMASK]. apply blink_pulses_PRIMASK.
Qed.

(** X18: [_sbrk_r] with a zero increment is a query: with the boundary in
    the region it returns the boundary and changes nothing, whether the
    hook is configured or not. *)
Theorem sbrk_zero_is_a_query (_ebss _estack : Z) (hook : bool) (pin : Z)
    (budget : nat) (m : machine) :
  0 <= _ebss -> _estack < 2 ^ 32 -> heap_inv _ebss _estack m ->
  exists m',
    _sbrk_r _ebss _estack hook pin budget 0 m
    = Returned (_g_current_heap_end m) m'
    /\ _g_current_heap_end m' = _g_current_heap_end m
    /\ reent_errno m' = reent_errno m
    /\ PRIMASK m' = PRIMASK m
    /\ console m' = console m
    /\ events m' = events m.
Proof.
  intros H0 H1 Hm.
  assert (Hu : uint32 (_g_current_heap_end m + 0) = _g_current_heap_end m).
  { unfold heap_inv in Hm. rewrite Z.add_0_r. unfold uint32.
    apply Z.mod_small. lia. }
  assert (E : sbrk_no_mem _ebss _estack (_g_current_heap_end m) 0 = false).
  { apply sbrk_no_mem_spec; try assumption. rewrite Hu. exact Hm. }
  destruct (sbrk_granted _ebss _estack hook pin budget 0 m E)
    as (m' & E1 & G1 & G2 & G3 & G4 & G5).
  exists m'. rewrite Hu in G1. repeat split; assumption.
Qed.

Lemma sbrk_zero_is_a_query_witness :
  exists m',
    _sbrk_r 536887296 537395200 true 13 0 0 (boot 536887296)
    = Returned (_g_current_heap_end (boot 536887296)) m'
    /\ _g_current_heap_end m' = _g_current_heap_end (boot 536887296)
    /\ reent_errno m' = reent_errno (boot 536887296)
    /\ PRIMASK m' = PRIMASK (boot 536887296)
    /\ console m' = console (boot 536887296)
    /\ events m' = events (boot 536887296).
Proof.
  apply (sbrk_zero_is_a_query 536887296 537395200 true 13 0 (boot 536887296)).
  - lia.
  - simpl; lia.
  - apply heap_inv_boot; simpl; lia.
Defined.

(** X19: growing by [n] bytes and then shrinking by [n] bytes, both within
    the region, brings the boundary back: the first call returns the old
    boundary, the second the boundary in between, and the boundary ends
    where it started. *)
Theorem sbrk_grow_then_shrink (_ebss _estack : Z) (hook : bool) (pin : Z)
    (budget : nat) (n : Z) (m : machine) :
  0 <= _ebss -> _estack < 2 ^ 32 -> heap_inv _ebss _estack m ->
  0 <= n -> _g_current_heap_end m + n < _estack - 8192 ->
  exists m',
    sbrk_calls _ebss _estack hook pin budget [n; - n] m
    = Returned [_g_current_heap_end m; _g_current_heap_end m + n] m'
    /\ _g_current_heap_end m' = _g_current_heap_end m
    /\ console m' = console m
    /\ reent_errno m' = reent_errno m.
Proof.
  intros H0 H1 Hm Hn Hs. unfold heap_inv in Hm.
  assert (Hu : uint32 (_g_current_heap_end m + n) = _g_current_heap_end m + n).
  { unfold uint32. apply Z.mod_small. lia. }
  assert (E : sbrk_no_mem _ebss _estack (_g_current_heap_end m) n = false).
  { apply sbrk_no_mem_spec; try assumption. rewrite Hu. lia. }
  destruct (sbrk_granted _ebss _estack hook pin budget n m E)
    as (m1 & E1 & G1 & G2 & _ & G4 & _).
  rewrite Hu in G1.
  assert (Hm1 : heap_inv _ebss _estack m1) by (unfold heap_inv; lia).
  assert (Hu2 : uint32 (_g_current_heap_end m1 + - n) = _g_current_heap_end m).
  { rewrite G1. replace (_g_current_heap_end m + n + - n)
      with (_g_current_heap_end m) by lia.
    unfold uint32. apply Z.mod_small. lia. }
  assert (E2 : sbrk_no_mem _ebss _estack (_g_current_heap_end m1) (- n) = false).
  { apply sbrk_no_mem_spec; try assumption. rewrite Hu2. lia. }
  destruct (sbrk_granted _ebss _estack hook pin budget (- n) m1 E2)
    as (m2 & E3 & K1 & K2 & _ & K4 & _).
  exists m2. cbn [sbrk_calls]. rewrite E1. cbn [obind]. rewrite E3.
  cbn [obind]. rewrite G1. split; [reflexivity|].
  rewrite K1, Hu2, K4, G4, K2, G2. now repeat split.
Qed.

Lemma sbrk_grow_then_shrink_witness :
  exists m',
    sbrk_calls 536887296 537395200 false 13 0 [4096; - 4096] (boot 536887296)
    = Returned [_g_current_heap_end (boot 536887296);
                _g_current_heap_end (boot 536887296) + 4096] m'
    /\ _g_current_heap_end m' = _g_current_heap_end (boot 536887296)
    /\ console m' = console (boot 536887296)
    /\ reent_errno m' = reent_errno (boot 536887296).
Proof.
  apply (sbrk_grow_then_shrink 536887296 537395200 false 13 0 4096
           (boot 536887296)).
  - lia.
  - simpl; lia.
  - apply heap_inv_boot; simpl; lia.
  - lia.
  - simpl. lia.
Defined.

(** X20: [_sbrk_r] leaves the interrupt mask as it found it on every path:
    when a request is granted, when it is refused and the call returns, and
    when it is refused and the hook takes over. *)
Theorem sbrk_restores_PRIMASK (_ebss _estack : Z) (hook : bool) (pin : Z)
    (budget : nat) (incr : Z) (m : machine) :
  exists m',
    (exists p, _sbrk_r _ebss _estack hook pin budget incr m = Returned p m'
     \/ _sbrk_r _ebss _estack hook pin budget incr m = Running m')
    /\ PRIMASK m' = PRIMASK m.
Proof.
  unfold _sbrk_r. cbn [set_PRIMASK _g_current_heap_end PRIMASK].
  destruct (sbrk_no_mem _ebss _estack (_g_current_heap_end m) incr).
  - unfold EXC_PRINTF. rewrite exc_printf_no_mem. cbn [obind].
    destruct hook.
    + unfold vApplicationMallocFailedHook, error_blink. cbn [obind].
      eexists. split; [exists 0; right; reflexivity|].
      now rewrite blink_forever_PRIMASK.
    + eexists. split; [eexists; left; reflexivity|]. reflexivity.
  - eexists. split; [eexists; left; reflexivity|]. reflexivity.
Qed.

(** X21: with the stack in the lower half of the address space and the
    increment a [ptrdiff_t], no wrap-around gets past the test: a request
    is granted exactly when the plain sum of boundary and increment lies in
    [_ebss, _estack - 8192); in particular a decrement beyond address 0 is
    refused. *)
Theorem sbrk_granted_iff_in_region (_ebss _estack : Z) (incr : Z)
    (m : machine) :
  0 <= _ebss -> _estack <= 2 ^ 31 -> - 2 ^ 31 <= incr < 2 ^ 31 ->
  heap_inv _ebss _estack m ->
  (sbrk_no_mem _ebss _estack (_g_current_heap_end m) incr = false
   <-> _ebss <= _g_current_heap_end m + incr < _estack - 8192).
Proof.
  intros H0 H1 Hi Hm.
  apply sbrk_no_mem_plain; try assumption.
  change (2 ^ 31) with 2147483648 in H1. change (2 ^ 32) with 4294967296. lia.
Qed.

Lemma sbrk_granted_iff_in_region_witness :
  sbrk_no_mem 536887296 537395200
    (_g_current_heap_end (boot 536887296)) (- 2147483648) = false
  <-> 536887296 <= _g_current_heap_end (boot 536887296) + - 2147483648
      < 537395200 - 8192.
Proof.
  apply (sbrk_granted_iff_in_region 536887296 537395200 (- 2147483648)
           (boot 536887296)).
  - lia.
  - simpl; lia.
  - simpl; lia.
  - apply heap_inv_boot; simpl; lia.
Defined.

(** X22: for an increment other than the most negative [ptrdiff_t] (whose
    negation in the formatter overflows), a refused request prints one line
    on the console, naming the increment in signed decimal, before anything
    else happens; a granted request prints nothing. *)
Theorem sbrk_refusal_message (_ebss _estack : Z) (hook : bool) (pin : Z)
    (budget : nat) (incr : Z) (m : machine) :
  - 2 ^ 31 < incr < 2 ^ 31 ->
  exists m',
    (exists p, _sbrk_r _ebss _estack hook pin budget incr m = Returned p m'
     \/ _sbrk_r _ebss _estack hook pin budget incr m = Running m')
    /\ console m'
       = (if sbrk_no_mem _ebss _estack (_g_current_heap_end m) incr
          then console m ++ no_mem_message incr
          else console m)%string
    /\ count_lines (no_mem_message incr) = 1%nat
    /\ signed_value (signed_decimal incr) = incr.
Proof.
  intros Hrange.
  assert (Hi : int32 incr = incr) by (apply int32_small; lia).
  assert (Hl : count_lines (no_mem_message incr) = 1%nat).
  { unfold no_mem_message.
    repeat (rewrite ?count_lines_app, ?count_lines_String,
              ?count_lines_signed_decimal).
    reflexivity. }
  assert (Hv : signed_value (signed_decimal incr) = int32 incr).
  { pose proof (int32_range incr) as Hr.
    change (2 ^ 31) with 2147483648 in Hr.
    unfold signed_decimal. cbv zeta.
    set (n := if int32 incr <? 0 then int32 (- int32 incr) else int32 incr).
    assert (Hn : uint32 n = Z.abs (int32 incr)).
    { subst n. destruct (int32 incr <? 0) eqn:E.
      - apply Z.ltb_lt in E. rewrite uint32_int32. unfold uint32.
        rewrite Z.mod_small; change (2 ^ 32) with 4294967296; lia.
      - apply Z.ltb_ge in E. unfold uint32.
        rewrite Z.mod_small; change (2 ^ 32) with 4294967296; lia. }
    destruct (exc_printf_u_digits n) as (Hd1 & Hd2).
    assert (Hm := all_digits_deref_not_minus _ Hd2).
    destruct (int32 incr <? 0) eqn:E.
    - apply Z.ltb_lt in E. cbn [append]. unfold signed_value.
      cbn [deref next]. change ("-" =? "-")%char with true. cbv iota.
      rewrite Hd1, Hn. lia.
    - apply Z.ltb_ge in E. cbn [append]. unfold signed_value.
      rewrite Hm, Hd1, Hn. lia. }
  rewrite Hi in Hv.
  destruct (sbrk_no_mem _ebss _estack (_g_current_heap_end m) incr) eqn:E.
  - destruct hook.
    + destruct (sbrk_refused_hook _ebss _estack true pin budget incr m
                  eq_refl E) as (m' & E1 & _ & _ & C & _).
      exists m'. split; [exists 0; now right|]. now repeat split.
    + destruct (sbrk_refused_errno _ebss _estack false pin budget incr m
                  eq_refl E) as (m' & E1 & _ & _ & _ & C & _).
      exists m'. split; [eexists; left; exact E1|]. now repeat split.
  - destruct (sbrk_granted _ebss _estack hook pin budget incr m E)
      as (m' & E1 & _ & _ & _ & C & _).
    exists m'. split; [eexists; left; exact E1|]. now repeat split.
Qed.

Lemma sbrk_refusal_message_witness :
  exists m',
    (exists p,
        _sbrk_r 536887296 537395200 false 13 0 (-4096) (boot 536887296)
        = Returned p m'
        \/ _sbrk_r 536887296 537395200 false 13 0 (-4096) (boot 536887296)
           = Running m')
    /\ console m'
       = (if sbrk_no_mem 536887296 537395200
               (_g_current_heap_end (boot 536887296)) (-4096)
          then console (boot 536887296) ++ no_mem_message (-4096)
          else console (boot 536887296))%string
    /\ count_lines (no_mem_message (-4096)) = 1%nat
    /\ signed_value (signed_decimal (-4096)) = -4096.
Proof.
  apply (sbrk_refusal_message 536887296 537395200 false 13 0 (-4096)
           (boot 536887296)).
  simpl; lia.
Defined.

(** ** More on the scheduler bridge *)

(** X23: [yield] makes exactly one of three sequences of calls.  It
    notifies the yield target exactly when the scheduler has been started
    and a target is registered: from a task with [xTaskNotify], from an
    interrupt with [xTaskNotifyFromISR] followed by the yield request and
    the barrier; otherwise it makes the busy-yield call and notifies
    nobody.  It changes no variable of the bridge. *)
Theorem yield_calls (state : scheduler_state) (inside_interrupt : bool)
    (m : machine) :
  exists calls,
    events (yield state inside_interrupt m) = events m ++ calls
    /\ calls
       = (if scheduler_started state && negb (g_yield_task m =? 0)
          then if inside_interrupt
               then [ev_xTaskNotifyFromISR (g_yield_task m);
                     ev_portYIELD_FROM_ISR; ev_portDATA_SYNC_BARRIER]
               else [ev_xTaskNotify (g_yield_task m)]
          else [ev_freertos_yield])
    /\ existsb is_notification calls
       = scheduler_started state && negb (g_yield_task m =? 0)
    /\ g_yield_task (yield state inside_interrupt m) = g_yield_task m
    /\ g_event_responder_task (yield state inside_interrupt m)
       = g_event_responder_task m
    /\ _g_current_heap_end (yield state inside_interrupt m)
       = _g_current_heap_end m.
Proof.
  unfold yield.
  destruct (scheduler_started state && negb (g_yield_task m =? 0));
    [destruct inside_interrupt|];
    eexists; (split; [cbn [emit events]; rewrite <- ?app_assoc; reflexivity|]);
    repeat split.
Qed.

(** X24: [event_responder_set_pend_sv] sends at most one notification, to
    the registered event responder and always with [xTaskNotify], also when
    it is called from an interrupt; it makes no other call and changes no
    variable of the bridge. *)
Theorem event_responder_calls (m : machine) :
  events (event_responder_set_pend_sv m)
  = events m ++ (if g_event_responder_task m =? 0 then []
                 else [ev_xTaskNotify (g_event_responder_task m)])
  /\ g_event_responder_task (event_responder_set_pend_sv m)
     = g_event_responder_task m
  /\ g_yield_task (event_responder_set_pend_sv m) = g_yield_task m
  /\ (forall state inside_interrupt,
        g_yield_task m = 0 ->
        events (event_responder_set_pend_sv (yield state inside_interrupt m))
        = events m ++ [ev_freertos_yield]
          ++ (if g_event_responder_task m =? 0 then []
              else [ev_xTaskNotify (g_event_responder_task m)])).
Proof.
  unfold event_responder_set_pend_sv.
  split; [|split; [|split]].
  - destruct (g_event_responder_task m =? 0); [now rewrite app_nil_r|].
    reflexivity.
  - destruct (g_event_responder_task m =? 0); reflexivity.
  - destruct (g_event_responder_task m =? 0); reflexivity.
  - intros state inside Hy. unfold yield. rewrite Hy.
    cbn [Z.eqb negb]. rewrite andb_false_r.
    cbn [emit g_event_responder_task events].
    destruct (g_event_responder_task m =? 0); cbn [emit events];
      now rewrite <- ?app_assoc, ?app_nil_r.
Qed.

Lemma event_responder_calls_witness :
  events (event_responder_set_pend_sv
            (yield taskSCHEDULER_RUNNING false
               (mk_machine 536887328 0 0 0 (mk_timeval 0 0) 0 537001984 "" [])))
  = events (mk_machine 536887328 0 0 0 (mk_timeval 0 0) 0 537001984 "" [])
    ++ [ev_freertos_yield]
    ++ (if g_event_responder_task
              (mk_machine 536887328 0 0 0 (mk_timeval 0 0) 0 537001984 "" [])
           =? 0
        then []
        else [ev_xTaskNotify
                (g_event_responder_task
                   (mk_machine 536887328 0 0 0 (mk_timeval 0 0) 0 537001984
                      "" []))])
  /\ events (event_responder_set_pend_sv
               (yield taskSCHEDULER_RUNNING false
                  (mk_machine 536887328 0 0 0 (mk_timeval 0 0) 0 537001984 ""
                     [])))
     = [ev_freertos_yield; ev_xTaskNotify 537001984].
Proof.
  destruct (event_responder_calls
              (mk_machine 536887328 0 0 0 (mk_timeval 0 0) 0 537001984 "" []))
    as (_ & _ & _ & H).
  specialize (H taskSCHEDULER_RUNNING false eq_refl).
  split; [exact H|]. rewrite H. reflexivity.
Defined.

(** ** Walks that reach the end of the stack, and the edges of the heap *)

Lemma walk_frames_runs_out (addr : Z) (frames : list _Unwind_Context) :
  forall d m calls d' m',
    0 <= d -> d + Z.of_nat (length frames) < 32 ->
    no_entry_frame addr frames = true ->
    walk_frames addr frames d m = Returned (calls, d') m' ->
    map fst calls = repeat _URC_NO_REASON (length frames)
    /\ d' = d + Z.of_nat (length frames).
Proof.
  induction frames as [|c rest IH]; intros d m calls d' m' H0 Hd Hn Hw.
  - cbn [walk_frames] in Hw. injection Hw as <- <- _. cbn. split; [easy | lia].
  - cbn [length] in Hd. cbn [no_entry_frame forallb] in Hn.
    apply andb_prop in Hn as [Hc Hn]. apply negb_true_iff in Hc.
    rewrite walk_frames_cons, Hc in Hw by lia.
    replace (d + 1 =? 32) with false in Hw by (symmetry; apply Z.eqb_neq; lia).
    destruct (walk_frames addr rest (d + 1) (after_frame addr c d m))
      as [[calls1 d1] m1| |] eqn:E; cbn [obind] in Hw; try discriminate.
    injection Hw as <- <- _. cbn [fst snd map length repeat].
    destruct (IH (d + 1) _ calls1 d1 m1 ltac:(lia) ltac:(lia) Hn E) as [I1 I2].
    rewrite I1. split; [reflexivity | lia].
Qed.

(** X25: on a stack of fewer than 32 frames none of which is the task
    entry, the callback never ends the walk: it answers [_URC_NO_REASON]
    for every frame, and the unwinder runs out of frames with the depth
    counter at their number. *)
Theorem backtrace_runs_out (addr : Z) (frames : list _Unwind_Context)
    (m : machine) :
  (length frames < 32)%nat -> no_entry_frame addr frames = true ->
  exists calls m',
    backtrace addr frames m = Returned (calls, Z.of_nat (length frames)) m'
    /\ map fst calls = repeat _URC_NO_REASON (length frames)
    /\ count_lines (console m')
       = (count_lines (console m) + length frames)%nat.
Proof.
  intros Hl Hn. unfold backtrace.
  destruct (walk_frames_total addr frames 0 m ltac:(lia))
    as (calls & d' & m' & Hw & _ & _ & H3).
  destruct (walk_frames_runs_out addr frames 0 m calls d' m' ltac:(lia)
              ltac:(lia) Hn Hw) as [I1 I2].
  exists calls, m'. rewrite Hw. replace d' with (Z.of_nat (length frames))
    by lia.
  split; [reflexivity|]. split; [exact I1|].
  rewrite H3. apply (f_equal (@length _)) in I1.
  rewrite length_map, repeat_length in I1. lia.
Qed.

Lemma backtrace_runs_out_witness :
  exists calls m',
    backtrace 1537
      [mk_context 4096 4000 (fun _ => 0); mk_context 4660 4600 (fun _ => 0)]
      (boot 0)
    = Returned (calls, Z.of_nat 2) m'
    /\ map fst calls = repeat _URC_NO_REASON 2
    /\ count_lines (console m') = (count_lines (console (boot 0)) + 2)%nat.
Proof.
  apply (backtrace_runs_out 1537
           [mk_context 4096 4000 (fun _ => 0);
            mk_context 4660 4600 (fun _ => 0)] (boot 0)).
  - simpl; lia.
  - reflexivity.
Defined.

(** X26: the edges of the region.  From a boundary in the region, the
    request that would put the boundary at [_estack - 8192] is refused and
    the one a byte short of it is granted; the request that takes the
    boundary down to [_ebss] is granted and the one a byte further is
    refused. *)
Theorem sbrk_region_edges (_ebss _estack : Z) (m : machine) :
  0 < _ebss -> _estack < 2 ^ 32 -> heap_inv _ebss _estack m ->
  let h := _g_current_heap_end m in
  sbrk_no_mem _ebss _estack h (_estack - 8192 - h) = true
  /\ sbrk_no_mem _ebss _estack h (_estack - 8192 - 1 - h) = false
  /\ sbrk_no_mem _ebss _estack h (_ebss - h) = false
  /\ sbrk_no_mem _ebss _estack h (_ebss - 1 - h) = true.
Proof.
  intros H0 H1 Hm. cbv zeta.
  assert (Hs : forall incr,
             0 <= _g_current_heap_end m + incr < 2 ^ 32 ->
             (sbrk_no_mem _ebss _estack (_g_current_heap_end m) incr = false
              <-> _ebss <= _g_current_heap_end m + incr < _estack - 8192)).
  { intros incr Hi.
    rewrite (sbrk_no_mem_spec _ebss _estack ltac:(lia) H1 incr m Hm).
    unfold uint32. now rewrite Z.mod_small. }
  unfold heap_inv in Hm.
  assert (Hb : forall b, b <> false -> b = true)
    by (intros [|] H; [reflexivity | contradiction]).
  repeat split.
  - apply Hb. intros E. apply Hs in E; lia.
  - apply Hs; lia.
  - apply Hs; lia.
  - apply Hb. intros E. apply Hs in E; lia.
Qed.

Lemma sbrk_region_edges_witness :
  let h := _g_current_heap_end (boot 536887296) in
  sbrk_no_mem 536887296 537395200 h (537395200 - 8192 - h) = true
  /\ sbrk_no_mem 536887296 537395200 h (537395200 - 8192 - 1 - h) = false
  /\ sbrk_no_mem 536887296 537395200 h (536887296 - h) = false
  /\ sbrk_no_mem 536887296 537395200 h (536887296 - 1 - h) = true.
Proof.
  apply (sbrk_region_edges 536887296 537395200 (boot 536887296)).
  - lia.
  - simpl; lia.
  - apply heap_inv_boot; simpl; lia.
Defined.
